(** * virtio entropy device emulation (hw/pci/virtio/virtio_rnd.c)

    A shallow embedding of the virtio-rnd device model: the option parser
    of [virtio_rnd_init], the VBS-K (kernel offload) session state machine,
    the hand-over of the virtqueue to the kernel backend on a guest status
    write, the user-space notify loop over /dev/random, reset and deinit.

    The C code works on one heap block ([struct virtio_rnd]) and talks to
    the host (open/read/close, calloc/free, the VBS-K character device) and
    to the virtio transport framework.  The embedding threads a [world]
    (the heap block and the log of external calls, newest first) through a
    small state-and-abort monad; results of external calls are drawn from a
    [host] oracle. *)

From Stdlib Require Import ZArith String Ascii Bool Lia.
From stdpp Require Import base tactics list.

Local Open Scope string_scope.
Local Open Scope Z_scope.

(** ** Machine integers *)

(** Conversion to an unsigned integer of [w] bits. *)
Definition wrap (w : Z) (z : Z) : Z := z mod 2 ^ w.

(** Conversion to a signed (two's complement) integer of [w] bits. *)
Definition swrap (w : Z) (z : Z) : Z :=
  (z + 2 ^ (w - 1)) mod 2 ^ w - 2 ^ (w - 1).

Definition to_int (z : Z) : Z := swrap 32 z.
Definition to_uint (z : Z) : Z := wrap 32 z.
Definition to_uint16 (z : Z) : Z := wrap 16 z.
Definition to_uint32 (z : Z) : Z := wrap 32 z.
Definition to_uint64 (z : Z) : Z := wrap 64 z.

Definition INT_MAX : Z := 2147483647.

(** ** C strings: [strsep] and [strncmp] *)

Definition NUL : ascii := "000"%char.

Definition char_code (c : ascii) : Z := Z.of_N (N_of_ascii c).

Fixpoint is_delim (c : ascii) (delim : string) : bool :=
  match delim with
  | EmptyString => false
  | String d delim' => if Ascii.eqb c d then true else is_delim c delim'
  end.

(** The token in front of the first delimiter of [s], and what follows the
    delimiter ([None] when [s] holds no delimiter). *)
Fixpoint span_delim (delim : string) (s : string) : string * option string :=
  match s with
  | EmptyString => (EmptyString, None)
  | String c s' =>
      if is_delim c delim then (EmptyString, Some s')
      else let '(tok, rest) := span_delim delim s' in (String c tok, rest)
  end.

(** [strsep(&stringp, delim)]: the pair of the returned token (a null
    pointer is [None]) and the new value of [*stringp]. *)
Definition strsep (stringp : option string) (delim : string)
  : option string * option string :=
  match stringp with
  | None => (None, None)
  | Some s => let '(tok, rest) := span_delim delim s in (Some tok, rest)
  end.

(** [strncmp(a, b, n)]: difference of the first differing bytes among the
    first [n], the end of a string reading as the byte 0. *)
Fixpoint strncmp (a b : string) (n : nat) : Z :=
  match n with
  | O => 0
  | S k =>
      match a, b with
      | EmptyString, EmptyString => 0
      | EmptyString, String cb _ => - char_code cb
      | String ca _, EmptyString => char_code ca
      | String ca a', String cb b' =>
          if Ascii.eqb ca cb then strncmp a' b' k
          else char_code ca - char_code cb
      end
  end.

(** ** VBS-K session status *)

Inductive VBS_K_STATUS : Set :=
  | VIRTIO_DEV_INITIAL
  | VIRTIO_DEV_PRE_INIT
  | VIRTIO_DEV_INIT_FAILED
  | VIRTIO_DEV_INIT_SUCCESS
  | VIRTIO_DEV_START_FAILED
  | VIRTIO_DEV_STARTED.

(** The test [a == b] on two status values. *)
Definition status_eqb (a b : VBS_K_STATUS) : bool :=
  match a, b with
  | VIRTIO_DEV_INITIAL, VIRTIO_DEV_INITIAL
  | VIRTIO_DEV_PRE_INIT, VIRTIO_DEV_PRE_INIT
  | VIRTIO_DEV_INIT_FAILED, VIRTIO_DEV_INIT_FAILED
  | VIRTIO_DEV_INIT_SUCCESS, VIRTIO_DEV_INIT_SUCCESS
  | VIRTIO_DEV_START_FAILED, VIRTIO_DEV_START_FAILED
  | VIRTIO_DEV_STARTED, VIRTIO_DEV_STARTED => true
  | _, _ => false
  end.

(** ** Option parsing in [virtio_rnd_init]

    [while ((opt = strsep(&opts, ",")) != NULL) { vbs_k_opt = strsep(&opt, "=");
       if (opt != NULL) { if (strncmp(opt, "on", 2) == 0) kstat = PRE_INIT; } }]

    One iteration consumes one comma-separated token; [fuel] bounds the
    number of iterations and [None] reports that it ran out. *)
Fixpoint parse_opts_loop (fuel : nat) (opts : option string)
    (kstat : VBS_K_STATUS) : option VBS_K_STATUS :=
  match fuel with
  | O => None
  | S fuel' =>
      let '(opt, opts') := strsep opts "," in
      match opt with
      | None => Some kstat
      | Some tok =>
          let '(vbs_k_opt, opt') := strsep (Some tok) "=" in
          let kstat' :=
            match opt' with
            | Some value =>
                if strncmp value "on" 2 =? 0 then VIRTIO_DEV_PRE_INIT
                else kstat
            | None => kstat
            end in
          parse_opts_loop fuel' opts' kstat'
      end
  end.

(** The size of what the loop still has to read. *)
Definition opts_measure (opts : option string) : nat :=
  match opts with None => 0 | Some s => S (String.length s) end.

(** Iterations the loop can take: one per token, plus the last test. *)
Definition opts_fuel (opts : option string) : nat :=
  match opts with
  | None => 1
  | Some s => S (S (String.length s))
  end.

(** The value of [kstat] after the loop, starting from
    [kstat = VIRTIO_DEV_INITIAL]. *)
Definition parse_opts (opts : option string) : option VBS_K_STATUS :=
  parse_opts_loop (opts_fuel opts) opts VIRTIO_DEV_INITIAL.

(** ** Constants of the headers

    [virtio.h] and [virtio_kernel.h] are not part of the sources at hand;
    the constants this file takes from them are parameters. *)
Record headers : Type := {
  VIRTIO_SUCCESS : Z;
  VIRTIO_ERROR_FD_OPEN_FAILED : Z;
  VIRTIO_ERROR_START : Z;
  VIRTIO_ERROR_GENERAL : Z;
  VIRTIO_CR_STATUS_DRIVER_OK : Z;
  VIRTIO_MSI_NO_VECTOR : Z;
  VBS_NAME_LEN : nat;
  VBS_MAX_VQ_CNT : nat
}.

(** What the code relies on: success is not negative, and the error codes
    are positive, so that their negation tests as [rc < 0]. *)
Definition headers_ok (hd : headers) : Prop :=
  0 <= VIRTIO_SUCCESS hd /\
  0 < VIRTIO_ERROR_FD_OPEN_FAILED hd /\
  0 < VIRTIO_ERROR_START hd /\
  0 < VIRTIO_ERROR_GENERAL hd.

Definition VIRTIO_RND_RINGSZ : Z := 64.

(** ** Data *)

(** [struct vbs_dev_info]: the device-descriptor record handed to VBS-K. *)
Record vbs_dev_info : Type := {
  kd_name : list ascii;
  kd_vmid : Z;
  kd_nvq : Z;
  kd_negotiated_features : Z;
  kd_pio_range_start : Z;
  kd_pio_range_len : Z
}.

(** [struct vbs_vq_info]: one per-queue descriptor record. *)
Record vbs_vq_info : Type := {
  kq_qsize : Z;
  kq_pfn : Z;
  kq_msix_idx : Z;
  kq_msix_addr : Z;
  kq_msix_data : Z
}.

(** [struct vbs_vqs_info]: the queue count and the array [vqs]. *)
Record vbs_vqs_info : Type := {
  kvqs_nvq : Z;
  kvqs_vqs : list vbs_vq_info
}.

Definition vbs_vq_info_zero : vbs_vq_info :=
  {| kq_qsize := 0; kq_pfn := 0; kq_msix_idx := 0;
     kq_msix_addr := 0; kq_msix_data := 0 |}.

(** The records after [memset(.., 0, sizeof ..)]. *)
Definition vbs_dev_info_zero (hd : headers) : vbs_dev_info :=
  {| kd_name := replicate (VBS_NAME_LEN hd) NUL; kd_vmid := 0; kd_nvq := 0;
     kd_negotiated_features := 0; kd_pio_range_start := 0;
     kd_pio_range_len := 0 |}.

Definition vbs_vqs_info_zero (hd : headers) : vbs_vqs_info :=
  {| kvqs_nvq := 0; kvqs_vqs := replicate (VBS_MAX_VQ_CNT hd) vbs_vq_info_zero |}.

(** The functions a [struct virtio_ops] of this file can point to. *)
Inductive reset_fn : Set := FN_virtio_rnd_reset.
Inductive qnotify_fn : Set := FN_virtio_rnd_notify | FN_virtio_rnd_k_no_notify.
Inductive set_status_fn : Set := FN_virtio_rnd_k_set_status.

(** [struct virtio_ops], without the three callbacks that are [NULL] in
    both tables (read and write of the config space, feature negotiation). *)
Record virtio_ops : Type := {
  vo_name : string;
  vo_nvq : Z;
  vo_cfgsize : Z;
  vo_reset : option reset_fn;
  vo_qnotify : option qnotify_fn;
  vo_set_status : option set_status_fn;
  vo_hv_caps : Z
}.

(** VBS-U virtio_ops *)
Definition virtio_rnd_ops : virtio_ops :=
  {| vo_name := "virtio_rnd"; vo_nvq := 1; vo_cfgsize := 0;
     vo_reset := Some FN_virtio_rnd_reset;
     vo_qnotify := Some FN_virtio_rnd_notify;
     vo_set_status := None;
     vo_hv_caps := 0 |}.

(** VBS-K virtio_ops *)
Definition virtio_rnd_ops_k : virtio_ops :=
  {| vo_name := "virtio_rnd"; vo_nvq := 1; vo_cfgsize := 0;
     vo_reset := Some FN_virtio_rnd_reset;
     vo_qnotify := Some FN_virtio_rnd_k_no_notify;
     vo_set_status := Some FN_virtio_rnd_k_set_status;
     vo_hv_caps := 0 |}.

Record msix_table_entry : Type := { mte_addr : Z; mte_msg_data : Z }.

(** What the file reads of [struct pci_vdev]: [vmctx->vmid], [bar[0].addr]
    and [msix.table]. *)
Record pci_vdev : Type := {
  pd_vmid : Z;
  pd_bar0_addr : Z;
  pd_msix_table : Z -> msix_table_entry
}.

Record iovec : Type := { iov_base : Z; iov_len : Z }.

(** A descriptor chain of the available ring: its head index, its first
    buffer segment and the segments after it. *)
Record chain : Type := {
  ch_idx : Z;
  ch_seg : iovec;
  ch_more : list iovec
}.

(** [struct virtio_vq_info]: the three registers the file reads, and the
    ring as the framework presents it: the pending chains, the released
    chains with their byte counts (newest first), and the number of chains
    released since the last completion signal. *)
Record virtio_vq_info : Type := {
  qsize : Z;
  pfn : Z;
  msix_idx : Z;
  vq_avail : list chain;
  vq_used : list (Z * Z);
  vq_batch : nat
}.

(** [struct virtio_base]: a null [vops] or [dev] pointer is [None];
    [base_mtx] tells whether [mtx] points to the mutex of the instance. *)
Record virtio_base : Type := {
  vops : option virtio_ops;
  negotiated_caps : Z;
  dev : option pci_vdev;
  base_mtx : bool
}.

Inductive mutex_type : Set := PTHREAD_MUTEX_DEFAULT | PTHREAD_MUTEX_RECURSIVE.

(** VBS-K variables of the instance. *)
Record vbs_k_vars : Type := {
  k_status : VBS_K_STATUS;
  k_fd : Z;
  k_dev : vbs_dev_info;
  k_vqs : vbs_vqs_info
}.

(** Per-device struct *)
Record virtio_rnd : Type := {
  base : virtio_base;
  vq : virtio_vq_info;
  mtx : option mutex_type;
  cfg : Z;
  fd : Z;
  vbs_k : vbs_k_vars
}.

(** Field updates. *)
Definition set_vops (o : option virtio_ops) (b : virtio_base) : virtio_base :=
  {| vops := o; negotiated_caps := negotiated_caps b; dev := dev b;
     base_mtx := base_mtx b |}.
Definition set_negotiated_caps (c : Z) (b : virtio_base) : virtio_base :=
  {| vops := vops b; negotiated_caps := c; dev := dev b;
     base_mtx := base_mtx b |}.
Definition set_dev (d : option pci_vdev) (b : virtio_base) : virtio_base :=
  {| vops := vops b; negotiated_caps := negotiated_caps b; dev := d;
     base_mtx := base_mtx b |}.
Definition set_base_mtx (m : bool) (b : virtio_base) : virtio_base :=
  {| vops := vops b; negotiated_caps := negotiated_caps b; dev := dev b;
     base_mtx := m |}.

Definition set_k_status (s : VBS_K_STATUS) (k : vbs_k_vars) : vbs_k_vars :=
  {| k_status := s; k_fd := k_fd k; k_dev := k_dev k; k_vqs := k_vqs k |}.
Definition set_k_fd (f : Z) (k : vbs_k_vars) : vbs_k_vars :=
  {| k_status := k_status k; k_fd := f; k_dev := k_dev k; k_vqs := k_vqs k |}.
Definition set_k_dev (d : vbs_dev_info) (k : vbs_k_vars) : vbs_k_vars :=
  {| k_status := k_status k; k_fd := k_fd k; k_dev := d; k_vqs := k_vqs k |}.
Definition set_k_vqs (v : vbs_vqs_info) (k : vbs_k_vars) : vbs_k_vars :=
  {| k_status := k_status k; k_fd := k_fd k; k_dev := k_dev k; k_vqs := v |}.

Definition with_base (f : virtio_base -> virtio_base) (r : virtio_rnd) : virtio_rnd :=
  {| base := f (base r); vq := vq r; mtx := mtx r; cfg := cfg r; fd := fd r;
     vbs_k := vbs_k r |}.
Definition with_vq (f : virtio_vq_info -> virtio_vq_info) (r : virtio_rnd) : virtio_rnd :=
  {| base := base r; vq := f (vq r); mtx := mtx r; cfg := cfg r; fd := fd r;
     vbs_k := vbs_k r |}.
Definition with_vbs_k (f : vbs_k_vars -> vbs_k_vars) (r : virtio_rnd) : virtio_rnd :=
  {| base := base r; vq := vq r; mtx := mtx r; cfg := cfg r; fd := fd r;
     vbs_k := f (vbs_k r) |}.
Definition set_mtx (m : option mutex_type) (r : virtio_rnd) : virtio_rnd :=
  {| base := base r; vq := vq r; mtx := m; cfg := cfg r; fd := fd r;
     vbs_k := vbs_k r |}.
Definition set_fd (f : Z) (r : virtio_rnd) : virtio_rnd :=
  {| base := base r; vq := vq r; mtx := mtx r; cfg := cfg r; fd := f;
     vbs_k := vbs_k r |}.

Definition set_qsize (q : Z) (v : virtio_vq_info) : virtio_vq_info :=
  {| qsize := q; pfn := pfn v; msix_idx := msix_idx v; vq_avail := vq_avail v;
     vq_used := vq_used v; vq_batch := vq_batch v |}.

(** The block [calloc(1, sizeof(struct virtio_rnd))] returns: all bytes
    zero.  The zero pattern of the status field need not be an enumerator;
    [virtio_rnd_init] assigns the field before it reads it, and the block
    is built with the assigned value [st]. *)
Definition virtio_rnd_zero (hd : headers) (st : VBS_K_STATUS) : virtio_rnd :=
  {| base := {| vops := None; negotiated_caps := 0; dev := None;
                base_mtx := false |};
     vq := {| qsize := 0; pfn := 0; msix_idx := 0; vq_avail := [];
              vq_used := []; vq_batch := 0 |};
     mtx := None; cfg := 0; fd := 0;
     vbs_k := {| k_status := st; k_fd := 0; k_dev := vbs_dev_info_zero hd;
                 k_vqs := vbs_vqs_info_zero hd |} |}.

(** ** The world: the heap block of the instance and the log of calls *)

Inductive pci_reg : Set :=
  PCIR_DEVICE | PCIR_VENDOR | PCIR_CLASS | PCIR_SUBDEV_0 | PCIR_SUBVEND_0.
Inductive pci_id : Set :=
  VIRTIO_DEV_RANDOM | VIRTIO_VENDOR | PCIC_CRYPTO | VIRTIO_TYPE_ENTROPY.

(** Calls that leave the file, with their results. *)
Inductive event : Type :=
  | EvOpen (path : string) (ret : Z)
  | EvRead (fd : Z) (count : Z) (ret : Z)
  | EvClose (fd : Z)
  | EvCalloc (ok : bool)
  | EvFree
  | EvLinkup (ops : virtio_ops)
  | EvCfgdata (width : Z) (reg : pci_reg) (val : pci_id)
  | EvInterruptInit (use_msix : bool) (ret : Z)
  | EvSetIoBar (barnum : Z)
  | EvResetDev
  | EvKernelStart (fd : Z) (kdev : vbs_dev_info) (kvqs : vbs_vqs_info) (ret : Z)
  | EvKernelStop (fd : Z) (ret : Z)
  | EvKernelReset (fd : Z) (ret : Z)
  | EvEndchains (used_all_avail : Z) (intr : bool).

(** The block of the device instance: not yet allocated, live, or released
    by [free] (with the contents it had then). *)
Inductive block : Type :=
  | Unallocated
  | Allocated (r : virtio_rnd)
  | Released (r : virtio_rnd).

(** [trace] holds the newest call first. *)
Record world : Type := {
  trace : list event;
  mem : block
}.

(** What the host and the transport framework answer, given the calls made
    so far. *)
Record host : Type := {
  h_open : list event -> string -> Z;
  h_read : list event -> Z -> Z -> Z;
  h_calloc : list event -> bool;
  h_virtio_msix : bool;
  h_interrupt_init : list event -> Z;
  h_kernel_start : list event -> Z -> vbs_dev_info -> vbs_vqs_info -> Z;
  h_kernel_stop : list event -> Z -> Z;
  h_kernel_reset : list event -> Z -> Z;
  h_reset_dev : Z -> virtio_vq_info -> Z * virtio_vq_info
}.

(** A run returns, aborts (a failed [assert], or the use of a pointer that
    is null or dangling), or exhausts the fuel of a loop. *)
Inductive outcome (A : Type) : Type :=
  | Ret (a : A) (w : world)
  | Abort (w : world)
  | OutOfFuel.
Arguments Ret {A} a w.
Arguments Abort {A} w.
Arguments OutOfFuel {A}.

Definition M (A : Type) : Type := world -> outcome A.

Definition ret {A} (a : A) : M A := fun w => Ret a w.

Definition bind {A B} (m : M A) (k : A -> M B) : M B :=
  fun w =>
    match m w with
    | Ret a w' => k a w'
    | Abort w' => Abort w'
    | OutOfFuel => OutOfFuel
    end.

Declare Scope rnd_scope.
Delimit Scope rnd_scope with rnd.
Notation "x <- m ;; k" := (bind m (fun x => k))
  (at level 100, m at next level, right associativity) : rnd_scope.
Notation "m ;;; k" := (bind m (fun _ => k))
  (at level 100, right associativity) : rnd_scope.
Local Open Scope rnd_scope.

Definition abort {A} : M A := fun w => Abort w.
Definition out_of_fuel {A} : M A := fun _ => OutOfFuel.

Definition assert (b : bool) : M unit := if b then ret tt else abort.

Definition emit (e : event) : M unit :=
  fun w => Ret tt {| trace := e :: trace w; mem := mem w |}.

Definition get_trace : M (list event) := fun w => Ret (trace w) w.

(** [*rnd] for the pointer to the instance. *)
Definition get_rnd : M virtio_rnd :=
  fun w => match mem w with Allocated r => Ret r w | _ => Abort w end.

Definition put_rnd (r : virtio_rnd) : M unit :=
  fun w =>
    match mem w with
    | Allocated _ => Ret tt {| trace := trace w; mem := Allocated r |}
    | _ => Abort w
    end.

Definition modify (f : virtio_rnd -> virtio_rnd) : M unit :=
  r <- get_rnd ;; put_rnd (f r).

(** [p->field] through a pointer that may be null. *)
Definition deref {A} (p : option A) : M A :=
  match p with Some a => ret a | None => abort end.

(** The world of a run that did not exhaust its fuel. *)
Definition final_world {A} (o : outcome A) (w0 : world) : world :=
  match o with Ret _ w => w | Abort w => w | OutOfFuel => w0 end.

Section Device.

Variable hd : headers.
Variable h : host.

(** *** Host calls *)

Definition sys_open (path : string) : M Z :=
  t <- get_trace ;;
  let r := h_open h t path in
  emit (EvOpen path r) ;;; ret r.

Definition sys_read (fd count : Z) : M Z :=
  t <- get_trace ;;
  let r := h_read h t fd count in
  emit (EvRead fd count r) ;;; ret r.

Definition sys_close (fd : Z) : M unit := emit (EvClose fd).

(** [calloc]: on success the block of the instance is a fresh zero block
    [r0]; a null result leaves the memory as it is. *)
Definition sys_calloc (r0 : virtio_rnd) : M bool :=
  t <- get_trace ;;
  let ok := h_calloc h t in
  emit (EvCalloc ok) ;;;
  if ok then
    (fun w => Ret true {| trace := trace w; mem := Allocated r0 |})
  else ret false.

Definition sys_free : M unit :=
  r <- get_rnd ;;
  emit EvFree ;;;
  fun w => Ret tt {| trace := trace w; mem := Released r |}.

Definition vbs_kernel_start (fd : Z) (kdev : vbs_dev_info) (kvqs : vbs_vqs_info) : M Z :=
  t <- get_trace ;;
  let r := h_kernel_start h t fd kdev kvqs in
  emit (EvKernelStart fd kdev kvqs r) ;;; ret r.

Definition vbs_kernel_stop (fd : Z) : M Z :=
  t <- get_trace ;;
  let r := h_kernel_stop h t fd in
  emit (EvKernelStop fd r) ;;; ret r.

Definition vbs_kernel_reset (fd : Z) : M Z :=
  t <- get_trace ;;
  let r := h_kernel_reset h t fd in
  emit (EvKernelReset fd r) ;;; ret r.

(** *** The virtio transport framework *)

(** Modelled from the spec: [virtio_linkup] of the framework (virtio.c is
    not among the sources) binds the device instance and the operation
    table to the PCI device. *)
Definition virtio_linkup (ops : virtio_ops) (d : pci_vdev) : M unit :=
  modify (with_base (fun b => set_dev (Some d) (set_vops (Some ops) b))) ;;;
  emit (EvLinkup ops).

(** Modelled from the spec: [virtio_reset_dev] is the generic device-state
    reset routine; what it leaves in the negotiated capabilities and in the
    queue is the host's.  It releases no chain and raises no completion
    signal, so the count of the chains released since the last signal
    ([vq_batch]) is not its to set. *)
Definition virtio_reset_dev : M unit :=
  r <- get_rnd ;;
  let '(caps, q) := h_reset_dev h (negotiated_caps (base r)) (vq r) in
  put_rnd (with_vq (fun q0 =>
             {| qsize := qsize q; pfn := pfn q; msix_idx := msix_idx q;
                vq_avail := vq_avail q; vq_used := vq_used q;
                vq_batch := vq_batch q0 |})
             (with_base (set_negotiated_caps caps) r)) ;;;
  emit EvResetDev.

(** Modelled from the spec: per-instance interrupt-subsystem
    initialization, zero on success. *)
Definition virtio_interrupt_init (use_msix : bool) : M Z :=
  t <- get_trace ;;
  let r := h_interrupt_init h t in
  emit (EvInterruptInit use_msix r) ;;; ret r.

Definition virtio_set_io_bar (barnum : Z) : M unit := emit (EvSetIoBar barnum).

Definition pci_set_cfgdata (width : Z) (reg : pci_reg) (val : pci_id) : M unit :=
  emit (EvCfgdata width reg val).

(** Modelled from the spec: queue-has-pending-chains check. *)
Definition vq_has_descs : M bool :=
  r <- get_rnd ;;
  ret (match vq_avail (vq r) with [] => false | _ :: _ => true end).

(** Modelled from the spec: pop-one-chain (single buffer) into a scatter
    descriptor: the head index and the first segment of the oldest pending
    chain.  The loop of [virtio_rnd_notify] calls it on a ring that has
    pending chains only; on an empty ring the model stops. *)
Definition vq_getchain : M (Z * iovec) :=
  r <- get_rnd ;;
  match vq_avail (vq r) with
  | [] => abort
  | c :: rest =>
      put_rnd (with_vq (fun q =>
        {| qsize := qsize q; pfn := pfn q; msix_idx := msix_idx q;
           vq_avail := rest; vq_used := vq_used q;
           vq_batch := vq_batch q |}) r) ;;;
      ret (ch_idx c, ch_seg c)
  end.

(** Modelled from the spec: release-chain with a byte count (the count is
    a [uint32_t]). *)
Definition vq_relchain (idx : Z) (iolen : Z) : M unit :=
  modify (with_vq (fun q =>
    {| qsize := qsize q; pfn := pfn q; msix_idx := msix_idx q;
       vq_avail := vq_avail q;
       vq_used := (idx, to_uint32 iolen) :: vq_used q;
       vq_batch := S (vq_batch q) |})).

(** Modelled from the spec: raise-batch-completion; the signal triggers a
    guest interrupt if and only if at least one chain was released since
    the last completion signal. *)
Definition vq_endchains (used_all_avail : Z) : M unit :=
  r <- get_rnd ;;
  let intr := negb (Nat.eqb (vq_batch (vq r)) 0) in
  emit (EvEndchains used_all_avail intr) ;;;
  modify (with_vq (fun q =>
    {| qsize := qsize q; pfn := pfn q; msix_idx := msix_idx q;
       vq_avail := vq_avail q; vq_used := vq_used q; vq_batch := 0%nat |})).

(** *** VBS-K interface function implementations *)

Definition virtio_rnd_k_no_notify : M unit := ret tt.

(** [strncpy(dst, src, n)] into an array of [n] bytes: the first [n] bytes
    of [src], padded with zero bytes. *)
Definition strncpy (src : string) (n : nat) : list ascii :=
  take n (list_ascii_of_string src ++ replicate n NUL).

(** Called in [virtio_rnd_init]: opens the VBS-K character device. *)
Definition virtio_rnd_kernel_init : M Z :=
  r <- get_rnd ;;
  assert (k_fd (vbs_k r) =? 0) ;;;
  kfd <- sys_open "/dev/vbs_rng" ;;
  modify (with_vbs_k (set_k_fd kfd)) ;;;
  if kfd <? 0 then ret (- VIRTIO_ERROR_FD_OPEN_FAILED hd)
  else
    modify (with_vbs_k (set_k_dev (vbs_dev_info_zero hd))) ;;;
    modify (with_vbs_k (set_k_vqs (vbs_vqs_info_zero hd))) ;;;
    ret (VIRTIO_SUCCESS hd).

Definition virtio_rnd_kernel_dev_set (kdev : vbs_dev_info) (name : string)
    (vmid nvq feature pio_start pio_len : Z) : Z * vbs_dev_info :=
  (VIRTIO_SUCCESS hd,
   {| kd_name := strncpy name (VBS_NAME_LEN hd);
      kd_vmid := vmid;
      kd_nvq := nvq;
      kd_negotiated_features := to_uint32 feature;
      kd_pio_range_start := to_uint64 pio_start;
      kd_pio_range_len := to_uint64 pio_len |}).

(** [nvq] and [idx] are [unsigned int].  The tables of this file register
    one queue, so [idx] lies inside the array [vqs] whenever the test
    passes; an index outside the array leaves the list as it is. *)
Definition virtio_rnd_kernel_vq_set (kvqs : vbs_vqs_info) (nvq idx : Z)
    (qsize' pfn' msix_idx' msix_addr msix_data : Z) : Z * vbs_vqs_info :=
  let nvq := to_uint nvq in
  let idx := to_uint idx in
  if nvq <=? idx then (- VIRTIO_ERROR_GENERAL hd, kvqs)
  else
    (VIRTIO_SUCCESS hd,
     {| kvqs_nvq := nvq;
        kvqs_vqs :=
          <[Z.to_nat idx :=
              {| kq_qsize := to_uint16 qsize';
                 kq_pfn := to_uint32 pfn';
                 kq_msix_idx := to_uint16 msix_idx';
                 kq_msix_addr := to_uint64 msix_addr;
                 kq_msix_data := to_uint32 msix_data |}]> (kvqs_vqs kvqs) |}).

Definition virtio_rnd_kernel_start : M Z :=
  r <- get_rnd ;;
  rc <- vbs_kernel_start (k_fd (vbs_k r)) (k_dev (vbs_k r)) (k_vqs (vbs_k r)) ;;
  if rc <? 0 then ret (- VIRTIO_ERROR_START hd)
  else ret (VIRTIO_SUCCESS hd).

Definition virtio_rnd_kernel_stop : M Z :=
  r <- get_rnd ;;
  vbs_kernel_stop (k_fd (vbs_k r)).

Definition virtio_rnd_kernel_reset : M Z :=
  modify (with_vbs_k (set_k_dev (vbs_dev_info_zero hd))) ;;;
  modify (with_vbs_k (set_k_vqs (vbs_vqs_info_zero hd))) ;;;
  r <- get_rnd ;;
  vbs_kernel_reset (k_fd (vbs_k r)).

(** The loop [for (i = 0; i < nvq; i++)] of [virtio_rnd_k_set_status], with
    [n] iterations left ([n] is [nvq - i]).  The locals [msix_addr] and
    [msix_data] keep their values between iterations.  The result tells
    whether the loop ran to its end ([true]) or left the function at
    [return] ([false]), and holds the per-queue records as written. *)
Fixpoint kernel_vq_loop (n : nat) (i nvq : Z) (q : virtio_vq_info)
    (d : pci_vdev) (msix_addr msix_data : Z) (kvqs : vbs_vqs_info)
  : bool * vbs_vqs_info :=
  match n with
  | O => (true, kvqs)
  | S n' =>
      let '(msix_addr, msix_data) :=
        if negb (msix_idx q =? VIRTIO_MSI_NO_VECTOR hd) then
          let mte := pd_msix_table d (msix_idx q) in
          (mte_addr mte, mte_msg_data mte)
        else (msix_addr, msix_data) in
      let '(rc, kvqs') :=
        virtio_rnd_kernel_vq_set kvqs nvq i (qsize q) (pfn q) (msix_idx q)
          msix_addr msix_data in
      if rc <? 0 then (false, kvqs')
      else kernel_vq_loop n' (i + 1) nvq q d msix_addr msix_data kvqs'
  end.

(** This callback gives us a chance to determine the timings to kickoff
    VBS-K initialization. *)
Definition virtio_rnd_k_set_status (status : Z) : M unit :=
  r <- get_rnd ;;
  ops <- deref (vops (base r)) ;;
  let nvq := vo_nvq ops in
  if status_eqb (k_status (vbs_k r)) VIRTIO_DEV_INIT_SUCCESS &&
     negb (Z.land (to_uint64 status) (VIRTIO_CR_STATUS_DRIVER_OK hd) =? 0)
  then
    d <- deref (dev (base r)) ;;
    let '(_, kdev) :=
      virtio_rnd_kernel_dev_set (k_dev (vbs_k r)) (vo_name ops) (pd_vmid d)
        nvq (negotiated_caps (base r)) (pd_bar0_addr d + 16) 2 in
    modify (with_vbs_k (set_k_dev kdev)) ;;;
    let '(completed, kvqs) :=
      kernel_vq_loop (Z.to_nat nvq) 0 nvq (vq r) d 0 0 (k_vqs (vbs_k r)) in
    modify (with_vbs_k (set_k_vqs kvqs)) ;;;
    if negb completed then ret tt
    else
      rc <- virtio_rnd_kernel_start ;;
      if rc <? 0 then
        modify (with_vbs_k (set_k_status VIRTIO_DEV_START_FAILED))
      else
        modify (with_vbs_k (set_k_status VIRTIO_DEV_STARTED))
  else ret tt.

(** *** VBS-U virtio_ops *)

Definition virtio_rnd_reset : M unit :=
  virtio_reset_dev ;;;
  r <- get_rnd ;;
  if status_eqb (k_status (vbs_k r)) VIRTIO_DEV_STARTED then
    _ <- virtio_rnd_kernel_stop ;;
    _ <- virtio_rnd_kernel_reset ;;
    modify (with_vbs_k (set_k_status VIRTIO_DEV_INITIAL))
  else ret tt.

(** The loop [while (vq_has_descs(vq))] of [virtio_rnd_notify]; the result
    of [read] is stored in the [int] [len]. *)
Fixpoint notify_loop (fuel : nat) : M unit :=
  match fuel with
  | O => out_of_fuel
  | S fuel' =>
      more <- vq_has_descs ;;
      if more then
        c <- vq_getchain ;;
        r <- get_rnd ;;
        n <- sys_read (fd r) (iov_len (snd c)) ;;
        let len := to_int n in
        assert (0 <? len) ;;;
        vq_relchain (fst c) len ;;;
        notify_loop fuel'
      else ret tt
  end.

(** [vq] is the one queue of the instance, [&rnd->vq]. *)
Definition virtio_rnd_notify : M unit :=
  r <- get_rnd ;;
  if fd r <? 0 then vq_endchains 0
  else
    notify_loop (S (length (vq_avail (vq r)))) ;;;
    vq_endchains 1.

(** *** Attach and detach *)

(** [opts] is the option string (a null pointer is [None]) and [d] the PCI
    device.  The return codes of the pthread calls are only logged; the
    mutex gets the type set in the attribute. *)
Definition virtio_rnd_init (d : pci_vdev) (opts : option string) : M Z :=
  match parse_opts opts with
  | None => out_of_fuel
  | Some kstat =>
      (* Should always be able to open /dev/random. *)
      fd' <- sys_open "/dev/random" ;;
      assert (0 <=? fd') ;;;
      (* Check that device is seeded and non-blocking. *)
      n <- sys_read fd' 1 ;;
      let len := to_int n in
      if len <=? 0 then ret (-1)
      else
        ok <- sys_calloc (virtio_rnd_zero hd kstat) ;;
        if negb ok then ret (-1)
        else
          modify (with_vbs_k (set_k_status kstat)) ;;;
          (* init mutex attribute properly *)
          modify (set_mtx (Some (if h_virtio_msix h then PTHREAD_MUTEX_DEFAULT
                                 else PTHREAD_MUTEX_RECURSIVE))) ;;;
          r <- get_rnd ;;
          (if status_eqb (k_status (vbs_k r)) VIRTIO_DEV_PRE_INIT then
             virtio_linkup virtio_rnd_ops_k d ;;;
             rc <- virtio_rnd_kernel_init ;;
             if rc <? 0 then
               modify (with_vbs_k (set_k_status VIRTIO_DEV_INIT_FAILED))
             else
               modify (with_vbs_k (set_k_status VIRTIO_DEV_INIT_SUCCESS))
           else ret tt) ;;;
          r <- get_rnd ;;
          (if status_eqb (k_status (vbs_k r)) VIRTIO_DEV_INITIAL ||
              negb (status_eqb (k_status (vbs_k r)) VIRTIO_DEV_INIT_SUCCESS)
           then virtio_linkup virtio_rnd_ops d
           else ret tt) ;;;
          modify (with_base (set_base_mtx true)) ;;;
          modify (with_vq (set_qsize VIRTIO_RND_RINGSZ)) ;;;
          (* keep /dev/random opened while emulating *)
          modify (set_fd fd') ;;;
          (* initialize config space *)
          pci_set_cfgdata 16 PCIR_DEVICE VIRTIO_DEV_RANDOM ;;;
          pci_set_cfgdata 16 PCIR_VENDOR VIRTIO_VENDOR ;;;
          pci_set_cfgdata 8 PCIR_CLASS PCIC_CRYPTO ;;;
          pci_set_cfgdata 16 PCIR_SUBDEV_0 VIRTIO_TYPE_ENTROPY ;;;
          pci_set_cfgdata 16 PCIR_SUBVEND_0 VIRTIO_VENDOR ;;;
          rc <- virtio_interrupt_init (h_virtio_msix h) ;;
          if negb (rc =? 0) then
            sys_free ;;;
            ret (-1)
          else
            virtio_set_io_bar 0 ;;;
            ret 0
  end.

(** The value of [dev->arg]: a null pointer or the address of the
    instance. *)
Inductive dev_arg : Set := ARG_NULL | ARG_RND.

Definition virtio_rnd_deinit (arg : dev_arg) : M unit :=
  match arg with
  | ARG_NULL => ret tt
  | ARG_RND =>
      r <- get_rnd ;;
      (if status_eqb (k_status (vbs_k r)) VIRTIO_DEV_STARTED then
         _ <- virtio_rnd_kernel_stop ;;
         _ <- virtio_rnd_kernel_reset ;;
         modify (with_vbs_k (set_k_status VIRTIO_DEV_INITIAL)) ;;;
         r <- get_rnd ;;
         assert (0 <=? k_fd (vbs_k r)) ;;;
         sys_close (k_fd (vbs_k r)) ;;;
         modify (with_vbs_k (set_k_fd (-1)))
       else ret tt) ;;;
      sys_free
  end.

(** *** Operations on an attached device

    What reaches the instance after [virtio_rnd_init]: the callbacks of the
    bound operation table (a write of the status register, a reset, a
    queue kick), the guest's writes to the queue registers and ring, and
    the detach. *)
Inductive operation : Type :=
  | OpSetStatus (status : Z)
  | OpReset
  | OpNotify
  | OpGuest (caps pfn' msix_idx' : Z) (chains : list chain)
  | OpDeinit.

(** Modelled from the spec: the framework calls the callback of the bound
    table when the table has one, and keeps the negotiated capabilities and
    the queue registers the guest writes. *)
Definition run_op (o : operation) : M unit :=
  match o with
  | OpSetStatus status =>
      r <- get_rnd ;;
      ops <- deref (vops (base r)) ;;
      match vo_set_status ops with
      | Some FN_virtio_rnd_k_set_status => virtio_rnd_k_set_status status
      | None => ret tt
      end
  | OpReset =>
      r <- get_rnd ;;
      ops <- deref (vops (base r)) ;;
      match vo_reset ops with
      | Some FN_virtio_rnd_reset => virtio_rnd_reset
      | None => ret tt
      end
  | OpNotify =>
      r <- get_rnd ;;
      ops <- deref (vops (base r)) ;;
      match vo_qnotify ops with
      | Some FN_virtio_rnd_notify => virtio_rnd_notify
      | Some FN_virtio_rnd_k_no_notify => virtio_rnd_k_no_notify
      | None => ret tt
      end
  | OpGuest caps pfn' msix_idx' chains =>
      modify (fun r =>
        with_vq (fun q =>
          {| qsize := qsize q; pfn := to_uint32 pfn';
             msix_idx := to_uint16 msix_idx';
             vq_avail := vq_avail q ++ chains; vq_used := vq_used q;
             vq_batch := vq_batch q |})
          (with_base (set_negotiated_caps (to_uint32 caps)) r))
  | OpDeinit => virtio_rnd_deinit ARG_RND
  end.

(** A sequence of operations; a run that aborts ends the sequence. *)
Fixpoint run_ops (os : list operation) : M unit :=
  match os with
  | [] => ret tt
  | o :: os' => run_op o ;;; run_ops os'
  end.

End Device.

(** The status of the session, when the block of the instance holds one. *)
Definition status_of (w : world) : option VBS_K_STATUS :=
  match mem w with
  | Unallocated => None
  | Allocated r => Some (k_status (vbs_k r))
  | Released r => Some (k_status (vbs_k r))
  end.

(** A world before attach. *)
Definition world0 : world := {| trace := []; mem := Unallocated |}.

(** ** A concrete host, for the examples

    Header constants with a positive code per error, and a host on which
    every call succeeds: [open] yields descriptor 3 for /dev/random and 4
    for /dev/vbs_rng, and every [read] fills the buffer. *)
Definition sample_headers : headers :=
  {| VIRTIO_SUCCESS := 0;
     VIRTIO_ERROR_FD_OPEN_FAILED := 2;
     VIRTIO_ERROR_START := 4;
     VIRTIO_ERROR_GENERAL := 5;
     VIRTIO_CR_STATUS_DRIVER_OK := 4;
     VIRTIO_MSI_NO_VECTOR := 65535;
     VBS_NAME_LEN := 32;
     VBS_MAX_VQ_CNT := 10 |}.

Definition sample_host : host :=
  {| h_open := fun _ path => if String.eqb path "/dev/random" then 3 else 4;
     h_read := fun _ _ count => count;
     h_calloc := fun _ => true;
     h_virtio_msix := true;
     h_interrupt_init := fun _ => 0;
     h_kernel_start := fun _ _ _ _ => 0;
     h_kernel_stop := fun _ _ => 0;
     h_kernel_reset := fun _ _ => 0;
     h_reset_dev := fun _ q => (0, q) |}.

Definition sample_dev : pci_vdev :=
  {| pd_vmid := 1; pd_bar0_addr := 8192;
     pd_msix_table := fun _ => {| mte_addr := 4276092928; mte_msg_data := 33 |} |}.

(** The instance right after a successful attach with the options
    ["kernel=on"] on the sample host: the VBS-K device is open and the
    session waits for the driver. *)
Definition attached_kernel : world :=
  final_world
    (virtio_rnd_init sample_headers sample_host sample_dev (Some "kernel=on")
       world0) world0.

(** The sample host, with a VBS-K backend that refuses to start. *)
Definition host_start_fails : host :=
  {| h_open := h_open sample_host;
     h_read := h_read sample_host;
     h_calloc := h_calloc sample_host;
     h_virtio_msix := h_virtio_msix sample_host;
     h_interrupt_init := h_interrupt_init sample_host;
     h_kernel_start := fun _ _ _ _ => -1;
     h_kernel_stop := h_kernel_stop sample_host;
     h_kernel_reset := h_kernel_reset sample_host;
     h_reset_dev := h_reset_dev sample_host |}.

(** The instance after the driver wrote DRIVER_OK and the start failed. *)
Definition start_failed_world : world :=
  final_world
    (run_op sample_headers host_start_fails (OpSetStatus 4) attached_kernel)
    attached_kernel.

(** Whether the byte [c] occurs in [s]. *)
Fixpoint has_char (c : ascii) (s : string) : bool :=
  match s with
  | EmptyString => false
  | String c' s' => if Ascii.eqb c' c then true else has_char c s'
  end.

(** The number of completion signals ([vq_endchains]) in a log. *)
Fixpoint completion_signals (t : list event) : nat :=
  match t with
  | [] => 0
  | EvEndchains _ _ :: t' => S (completion_signals t')
  | _ :: t' => completion_signals t'
  end.

(** A chain with the single buffer segment [base, len]. *)
Definition single_chain (idx base len : Z) : chain :=
  {| ch_idx := idx; ch_seg := {| iov_base := base; iov_len := len |};
     ch_more := [] |}.

(** The instance as the attach leaves it on the sample host: without
    options (user-space backend), and with "kernel=on" (VBS-K device
    open, waiting for the driver). *)
Definition rnd_user : virtio_rnd :=
  {| base := {| vops := Some virtio_rnd_ops; negotiated_caps := 0;
                dev := Some sample_dev; base_mtx := true |};
     vq := {| qsize := 64; pfn := 0; msix_idx := 0; vq_avail := [];
              vq_used := []; vq_batch := 0 |};
     mtx := Some PTHREAD_MUTEX_DEFAULT; cfg := 0; fd := 3;
     vbs_k := {| k_status := VIRTIO_DEV_INITIAL; k_fd := 0;
                 k_dev := vbs_dev_info_zero sample_headers;
                 k_vqs := vbs_vqs_info_zero sample_headers |} |}.

Definition rnd_init_success : virtio_rnd :=
  {| base := {| vops := Some virtio_rnd_ops_k; negotiated_caps := 0;
                dev := Some sample_dev; base_mtx := true |};
     vq := {| qsize := 64; pfn := 0; msix_idx := 0; vq_avail := [];
              vq_used := []; vq_batch := 0 |};
     mtx := Some PTHREAD_MUTEX_DEFAULT; cfg := 0; fd := 3;
     vbs_k := {| k_status := VIRTIO_DEV_INIT_SUCCESS; k_fd := 4;
                 k_dev := vbs_dev_info_zero sample_headers;
                 k_vqs := vbs_vqs_info_zero sample_headers |} |}.

(** [rnd_user] with the chains [chains] pending. *)
Definition rnd_user_queued (chains : list chain) : virtio_rnd :=
  with_vq (fun q =>
    {| qsize := qsize q; pfn := 5; msix_idx := 65535; vq_avail := chains;
       vq_used := vq_used q; vq_batch := vq_batch q |}) rnd_user.

(** The world after one kick of [rnd_user] with one chain of 16 bytes
    pending. *)
Definition kicked_once : world :=
  let w := {| trace := [];
              mem := Allocated (rnd_user_queued [single_chain 7 4096 16]) |} in
  final_world (virtio_rnd_notify sample_host w) w.

(** The descriptors a log leaves open: those a successful [open] returned
    and no later [close] released (the log holds the newest call first). *)
Fixpoint open_fds (t : list event) : list Z :=
  match t with
  | [] => []
  | EvOpen _ ret :: t' => if 0 <=? ret then ret :: open_fds t' else open_fds t'
  | EvClose fd' :: t' => filter (fun x => x <> fd') (open_fds t')
  | _ :: t' => open_fds t'
  end.

(** The sample host with an entropy source that is not seeded yet: the
    probe read returns 0. *)
Definition host_unseeded : host :=
  {| h_open := h_open sample_host;
     h_read := fun _ _ _ => 0;
     h_calloc := h_calloc sample_host;
     h_virtio_msix := h_virtio_msix sample_host;
     h_interrupt_init := h_interrupt_init sample_host;
     h_kernel_start := h_kernel_start sample_host;
     h_kernel_stop := h_kernel_stop sample_host;
     h_kernel_reset := h_kernel_reset sample_host;
     h_reset_dev := h_reset_dev sample_host |}.

(** The sample host with a failing interrupt registration. *)
Definition host_interrupt_fails : host :=
  {| h_open := h_open sample_host;
     h_read := h_read sample_host;
     h_calloc := h_calloc sample_host;
     h_virtio_msix := h_virtio_msix sample_host;
     h_interrupt_init := fun _ => 1;
     h_kernel_start := h_kernel_start sample_host;
     h_kernel_stop := h_kernel_stop sample_host;
     h_kernel_reset := h_kernel_reset sample_host;
     h_reset_dev := h_reset_dev sample_host |}.

(** ** The life of a session

    What can change the status: the option loop of the attach (on the
    local [kstat]), the rest of the attach (on the field of the fresh
    instance), and the operations on the attached device. *)
Inductive cause : Type :=
  | ByOptions
  | ByAttach
  | ByOp (o : operation).

(** The write of the status register sets the DRIVER_OK bit. *)
Definition driver_ok (hd : headers) (status : Z) : Prop :=
  Z.land (to_uint64 status) (VIRTIO_CR_STATUS_DRIVER_OK hd) <> 0.

(** The moves of the status: it stays, or it follows one edge of
    INITIAL -> PRE_INIT -> {INIT_SUCCESS | INIT_FAILED},
    INIT_SUCCESS -> {STARTED | START_FAILED} on a driver-ready status
    write, STARTED -> INITIAL on reset or detach. *)
Inductive legal (hd : headers) : cause -> VBS_K_STATUS -> VBS_K_STATUS -> Prop :=
  | legal_stay c s : legal hd c s s
  | legal_pre_init :
      legal hd ByOptions VIRTIO_DEV_INITIAL VIRTIO_DEV_PRE_INIT
  | legal_init_success :
      legal hd ByAttach VIRTIO_DEV_PRE_INIT VIRTIO_DEV_INIT_SUCCESS
  | legal_init_failed :
      legal hd ByAttach VIRTIO_DEV_PRE_INIT VIRTIO_DEV_INIT_FAILED
  | legal_started v :
      driver_ok hd v ->
      legal hd (ByOp (OpSetStatus v)) VIRTIO_DEV_INIT_SUCCESS VIRTIO_DEV_STARTED
  | legal_start_failed v :
      driver_ok hd v ->
      legal hd (ByOp (OpSetStatus v)) VIRTIO_DEV_INIT_SUCCESS
        VIRTIO_DEV_START_FAILED
  | legal_reset :
      legal hd (ByOp OpReset) VIRTIO_DEV_STARTED VIRTIO_DEV_INITIAL
  | legal_detach :
      legal hd (ByOp OpDeinit) VIRTIO_DEV_STARTED VIRTIO_DEV_INITIAL.

(** Every step of a history is legal, starting from the status [s]. *)
Fixpoint legal_history (hd : headers) (s : VBS_K_STATUS)
    (l : list (cause * VBS_K_STATUS)) : Prop :=
  match l with
  | [] => True
  | (c, s') :: l' => legal hd c s s' /\ legal_history hd s' l'
  end.

(** The status after each operation of a sequence, up to the end of the
    sequence or to the operation that does not return. *)
Fixpoint op_history (hd : headers) (h : host) (os : list operation)
    (w : world) : list (cause * VBS_K_STATUS) :=
  match os with
  | [] => []
  | o :: os' =>
      let out := run_op hd h o w in
      match status_of (final_world out w) with
      | None => []
      | Some s =>
          (ByOp o, s) ::
          match out with
          | Ret _ w' => op_history hd h os' w'
          | _ => []
          end
      end
  end.

(** The history of a session: [kstat] after the option loop (it starts as
    [VIRTIO_DEV_INITIAL]), the status of the instance at the end of the
    attach when there is an instance, and the status after each operation
    when the attach returned 0. *)
Definition lifecycle (hd : headers) (h : host) (d : pci_vdev)
    (opts : option string) (os : list operation) (t : list event)
  : list (cause * VBS_K_STATUS) :=
  let w := {| trace := t; mem := Unallocated |} in
  match parse_opts opts with
  | None => []
  | Some kstat =>
      (ByOptions, kstat) ::
      let out := virtio_rnd_init hd h d opts w in
      match status_of (final_world out w) with
      | None => []
      | Some s =>
          (ByAttach, s) ::
          match out with
          | Ret rc w' => if rc =? 0 then op_history hd h os w' else []
          | _ => []
          end
      end
  end.

(** The worlds a device goes through: a successful attach, then
    operations that return. *)
Inductive reachable (hd : headers) (h : host) : world -> Prop :=
  | reach_init d opts t w :
      virtio_rnd_init hd h d opts {| trace := t; mem := Unallocated |} = Ret 0 w ->
      reachable hd h w
  | reach_op o w w' :
      reachable hd h w ->
      run_op hd h o w = Ret tt w' ->
      reachable hd h w'.

(** The instance [rnd_init_success] after the driver wrote DRIVER_OK and
    the backend started. *)
Definition started_world : world :=
  final_world (run_op sample_headers sample_host (OpSetStatus 4) attached_kernel)
    attached_kernel.

(** The run [out] came to an end in the world [w']: it returned or it
    aborted there (it did not exhaust the fuel of a loop). *)
Definition settles {A} (out : outcome A) (w' : world) : Prop :=
  (exists a, out = Ret a w') \/ out = Abort w'.

(** What an operation [o] on the instance [r] leaves in the world [w']:
    an instance (released, after a detach) whose status made a legal move,
    whose VBS-K descriptor is the same unless the session went back to
    [VIRTIO_DEV_INITIAL], and whose bindings are the same. *)
Definition op_post (hd : headers) (o : operation) (r : virtio_rnd)
    (w' : world) : Prop :=
  exists r',
    (mem w' = Allocated r' \/ o = OpDeinit /\ mem w' = Released r') /\
    legal hd (ByOp o) (k_status (vbs_k r)) (k_status (vbs_k r')) /\
    (k_fd (vbs_k r') = k_fd (vbs_k r) \/
     k_status (vbs_k r') = VIRTIO_DEV_INITIAL) /\
    vops (base r') = vops (base r) /\
    dev (base r') = dev (base r).

(** A session that got past the open of the VBS-K device holds a valid
    descriptor of it. *)
Definition session_inv (w : world) : Prop :=
  forall r,
    mem w = Allocated r ->
    k_status (vbs_k r) = VIRTIO_DEV_INIT_SUCCESS \/
    k_status (vbs_k r) = VIRTIO_DEV_STARTED \/
    k_status (vbs_k r) = VIRTIO_DEV_START_FAILED ->
    0 <= k_fd (vbs_k r).

(** The instance of [started_world]. *)
Definition rnd_started : virtio_rnd :=
  match mem started_world with
  | Allocated r => r
  | _ => rnd_init_success
  end.

(** ** Proof steps *)

(** Unfolds the monad and the primitive actions, then computes. *)
Ltac run :=
  repeat progress
    (unfold bind, ret, abort, out_of_fuel, assert, emit, get_trace, get_rnd,
       put_rnd, modify, deref;
     cbn).

(** Case on the result of the interrupt registration. *)
Ltac init_interrupt h :=
  match goal with
  | |- context [h_interrupt_init h ?tt =? 0] =>
      let E := fresh "Ei" in
      destruct (Z.eqb_spec (h_interrupt_init h tt) 0) as [E|E];
      [rewrite ?E|]
  end; run.

(** Closes a branch of the case analysis of the attach: the run first,
    which fixes the trace and the instance; [st] settles the status of the
    session. *)
Ltac init_finish st :=
  do 2 eexists;
  split;
  [ first [ left; reflexivity
          | right; eexists; split; [eassumption|reflexivity] ]
  | split; [reflexivity|]; split; [reflexivity|]; split; [st|reflexivity] ].

(** Closes a branch of an operation: the run came to an end, in a world
    left to the next step. *)
Ltac settled :=
  eexists; split;
  [ first [ left; eexists; reflexivity | right; reflexivity ] | ].

(** ** Reading the option string as a list of tokens *)

(** The pieces of [s] between the occurrences of the byte [delim]. *)
Fixpoint tokens_of (delim : ascii) (s : string) : list string :=
  match s with
  | EmptyString => [EmptyString]
  | String c s' =>
      if Ascii.eqb c delim then EmptyString :: tokens_of delim s'
      else
        match tokens_of delim s' with
        | tok :: toks => String c tok :: toks
        | [] => [String c EmptyString]
        end
  end.

(** The token switches the kernel offload on: it holds an ['='] and what
    follows the first one starts with "on". *)
Definition token_enables (tok : string) : bool :=
  match snd (span_delim "=" tok) with
  | Some value => strncmp value "on" 2 =? 0
  | None => false
  end.

(** The C string an array of bytes holds: the bytes in front of the first
    zero byte, or the whole array when it holds none. *)
Fixpoint cstring (l : list ascii) : string :=
  match l with
  | [] => EmptyString
  | c :: l' => if Ascii.eqb c NUL then EmptyString else String c (cstring l')
  end.

(** ** Logs *)

Definition is_close (e : event) : bool :=
  match e with EvClose _ => true | _ => false end.

(** The log [t'] is the log [t] with calls on top that all satisfy [P]. *)
Inductive extends (P : event -> Prop) (t : list event) : list event -> Prop :=
  | ext_refl : extends P t t
  | ext_cons e t' : P e -> extends P t t' -> extends P t (e :: t').

(** The instance [virtio_rnd_init] leaves behind when it returns 0, for the
    entropy descriptor [fd']: the queue of 64 entries is empty, the lock
    has the type the interrupt mode asks for, and either the VBS-K table
    is bound with an open control channel and the session in
    [VIRTIO_DEV_INIT_SUCCESS], or the user-space table is bound and the
    session is in [VIRTIO_DEV_INITIAL] (no offload asked for) or in
    [VIRTIO_DEV_INIT_FAILED] (the control channel did not open). *)
Definition attached_instance (hd : headers) (h : host) (d : pci_vdev)
    (opts : option string) (fd' : Z) (r : virtio_rnd) : Prop :=
  fd r = fd' /\ 0 <= fd' /\
  dev (base r) = Some d /\
  negotiated_caps (base r) = 0 /\
  base_mtx (base r) = true /\
  mtx r = Some (if h_virtio_msix h then PTHREAD_MUTEX_DEFAULT
                else PTHREAD_MUTEX_RECURSIVE) /\
  vq r = {| qsize := VIRTIO_RND_RINGSZ; pfn := 0; msix_idx := 0;
            vq_avail := []; vq_used := []; vq_batch := 0 |} /\
  k_dev (vbs_k r) = vbs_dev_info_zero hd /\
  k_vqs (vbs_k r) = vbs_vqs_info_zero hd /\
  (vops (base r) = Some virtio_rnd_ops_k /\
   k_status (vbs_k r) = VIRTIO_DEV_INIT_SUCCESS /\
   parse_opts opts = Some VIRTIO_DEV_PRE_INIT /\
   0 <= k_fd (vbs_k r)
   \/
   vops (base r) = Some virtio_rnd_ops /\
   (k_status (vbs_k r) = VIRTIO_DEV_INITIAL /\
    parse_opts opts = Some VIRTIO_DEV_INITIAL /\
    k_fd (vbs_k r) = 0
    \/
    k_status (vbs_k r) = VIRTIO_DEV_INIT_FAILED /\
    parse_opts opts = Some VIRTIO_DEV_PRE_INIT /\
    k_fd (vbs_k r) < 0)).

(** The log of a branch of the attach: calls other than [close] on top of
    the log it is to extend. *)
Ltac init_log :=
  split;
  [ cbn; repeat first [ apply ext_refl | apply ext_cons; [reflexivity|] ]
  | cbn ].

(** The instance of a branch of the attach that returns 0. *)
Ltac init_instance :=
  left; split; [reflexivity|]; eexists; split; [reflexivity|];
  unfold attached_instance; cbn;
  repeat (split; [first [reflexivity | assumption | lia]|]);
  first
    [ left; repeat split; first [reflexivity | assumption | lia]
    | right; split; [reflexivity|]; left;
      repeat split; first [reflexivity | assumption | lia]
    | right; split; [reflexivity|]; right;
      repeat split; first [reflexivity | assumption | lia] ].

(** ** The calls an operation may make

    For the instance [r] an operation starts from: the calls each function
    of the file can add to the log. *)
Definition notify_emits (r : virtio_rnd) (e : event) : Prop :=
  match e with
  | EvRead f _ _ => f = fd r /\ 0 <= fd r
  | EvEndchains _ _ => True
  | _ => False
  end.

Definition set_status_emits (r : virtio_rnd) (e : event) : Prop :=
  match e with
  | EvKernelStart f _ _ _ =>
      f = k_fd (vbs_k r) /\ k_status (vbs_k r) = VIRTIO_DEV_INIT_SUCCESS
  | _ => False
  end.

Definition reset_emits (r : virtio_rnd) (e : event) : Prop :=
  match e with
  | EvResetDev => True
  | EvKernelStop f _ | EvKernelReset f _ =>
      f = k_fd (vbs_k r) /\ k_status (vbs_k r) = VIRTIO_DEV_STARTED
  | _ => False
  end.

Definition deinit_emits (r : virtio_rnd) (e : event) : Prop :=
  match e with
  | EvFree => True
  | EvKernelStop f _ | EvKernelReset f _ | EvClose f =>
      f = k_fd (vbs_k r) /\ k_status (vbs_k r) = VIRTIO_DEV_STARTED
  | _ => False
  end.

(** The callbacks of the bound table. *)
Definition qnotify_of (r : virtio_rnd) : option qnotify_fn :=
  match vops (base r) with Some ops => vo_qnotify ops | None => None end.

Definition set_status_of (r : virtio_rnd) : option set_status_fn :=
  match vops (base r) with Some ops => vo_set_status ops | None => None end.

Definition may_emit (o : operation) (r : virtio_rnd) (e : event) : Prop :=
  match o with
  | OpSetStatus _ =>
      set_status_of r = Some FN_virtio_rnd_k_set_status /\ set_status_emits r e
  | OpReset => reset_emits r e
  | OpNotify => qnotify_of r = Some FN_virtio_rnd_notify /\ notify_emits r e
  | OpGuest _ _ _ _ => False
  | OpDeinit => deinit_emits r e
  end.

(** What an operation [o] on the instance [r] with the log [t] leaves in
    the world [w']: only calls it may make on top of [t], the entropy
    descriptor as it was, and the descriptor of the control channel as it
    was while the instance lives. *)
Definition op_footprint (o : operation) (r : virtio_rnd) (t : list event)
    (w' : world) : Prop :=
  exists r',
    extends (may_emit o r) t (trace w') /\
    (mem w' = Allocated r' \/ o = OpDeinit /\ mem w' = Released r') /\
    fd r' = fd r /\
    (mem w' = Allocated r' -> k_fd (vbs_k r') = k_fd (vbs_k r)).

(** Closes a footprint goal whose world is explicit. *)
Ltac footprint :=
  eexists; split;
  [ cbn; repeat first [ apply ext_refl
                      | apply ext_cons; [cbn; repeat split; auto|] ]
  | split;
    [ first [ left; reflexivity | right; split; reflexivity ]
    | cbn; split; [reflexivity|]; first [ reflexivity | intros; reflexivity
                                        | intros; discriminate ] ] ].


(** A call to the VBS-K backend or a [close]. *)
Definition is_backend_call (e : event) : bool :=
  match e with
  | EvKernelStart _ _ _ _ | EvKernelStop _ _ | EvKernelReset _ _
  | EvClose _ => true
  | _ => false
  end.

(** A call that serves the queue from user space. *)
Definition is_service (e : event) : bool :=
  match e with
  | EvRead _ _ _ | EvEndchains _ _ => true
  | _ => false
  end.

(** What holds of the instance of every attached device: the entropy
    descriptor is valid, the PCI device is linked, and the bound table
    matches the status: the VBS-K table comes with an open control
    channel, the user-space table with [VIRTIO_DEV_INITIAL] or
    [VIRTIO_DEV_INIT_FAILED]; the status is never
    [VIRTIO_DEV_PRE_INIT]. *)
Definition attached_inv (r : virtio_rnd) : Prop :=
  0 <= fd r /\
  (exists d, dev (base r) = Some d) /\
  (vops (base r) = Some virtio_rnd_ops_k /\
   0 <= k_fd (vbs_k r) /\
   (k_status (vbs_k r) = VIRTIO_DEV_INIT_SUCCESS \/
    k_status (vbs_k r) = VIRTIO_DEV_STARTED \/
    k_status (vbs_k r) = VIRTIO_DEV_START_FAILED \/
    k_status (vbs_k r) = VIRTIO_DEV_INITIAL)
   \/
   vops (base r) = Some virtio_rnd_ops /\
   (k_status (vbs_k r) = VIRTIO_DEV_INITIAL \/
    k_status (vbs_k r) = VIRTIO_DEV_INIT_FAILED)).

(** ** The batch of a kick, chain by chain

    For the pending chains in their order, with the log [t] and the entropy
    descriptor [f]: what each read returns, cut to the [int] it is stored
    in. *)
Fixpoint batch_reads (h : host) (t : list event) (f : Z) (chains : list chain)
  : list Z :=
  match chains with
  | [] => []
  | c :: rest =>
      let k := h_read h t f (iov_len (ch_seg c)) in
      to_int k :: batch_reads h (EvRead f (iov_len (ch_seg c)) k :: t) f rest
  end.

(** The log after these reads. *)
Fixpoint batch_log (h : host) (t : list event) (f : Z) (chains : list chain)
  : list event :=
  match chains with
  | [] => t
  | c :: rest =>
      let k := h_read h t f (iov_len (ch_seg c)) in
      batch_log h (EvRead f (iov_len (ch_seg c)) k :: t) f rest
  end.

(** The entries of the used ring for a batch, newest first: the head index
    of each chain with the count of its read. *)
Definition batch_used (chains : list chain) (lens : list Z) : list (Z * Z) :=
  rev (zip_with (fun c len => (ch_idx c, to_uint32 len)) chains lens).
Arguments batch_used : simpl never.

(** The device after an attach without options on the sample host and a
    guest that set up the queue and queued one chain of 16 bytes. *)
Definition attached_user : world :=
  final_world
    (virtio_rnd_init sample_headers sample_host sample_dev (Some "") world0)
    world0.

Definition queued_world : world :=
  final_world
    (run_op sample_headers sample_host
       (OpGuest 0 5 65535 [single_chain 7 4096 16]) attached_user)
    attached_user.

(** The sample host with an entropy source that fills at most half of a
    buffer of two bytes or more. *)
Definition host_short_reads : host :=
  {| h_open := h_open sample_host;
     h_read := fun _ _ count => if count <? 2 then count else count / 2;
     h_calloc := h_calloc sample_host;
     h_virtio_msix := h_virtio_msix sample_host;
     h_interrupt_init := h_interrupt_init sample_host;
     h_kernel_start := h_kernel_start sample_host;
     h_kernel_stop := h_kernel_stop sample_host;
     h_kernel_reset := h_kernel_reset sample_host;
     h_reset_dev := h_reset_dev sample_host |}.

(** * Properties *)

(** A sequence that returns: its first part returned, and the rest took
    over from there. *)
Lemma bind_ret_inv {A B} (m : M A) (k : A -> M B) (w w' : world) (b : B) :
  bind m k w = Ret b w' ->
  exists a w1, m w = Ret a w1 /\ k a w1 = Ret b w'.
Proof.
  unfold bind. destruct (m w) as [a w1| |]; try discriminate.
  intros H. exists a, w1. split; [reflexivity|exact H].
Qed.

Lemma status_eqb_eq (a b : VBS_K_STATUS) : status_eqb a b = true <-> a = b.
Proof. destruct a, b; simpl; split; congruence. Qed.

Lemma status_eqb_refl (a : VBS_K_STATUS) : status_eqb a a = true.
Proof. apply status_eqb_eq. reflexivity. Qed.

(** ** Option parsing *)

Example parse_kernel_on :
  parse_opts (Some "kernel=on") = Some VIRTIO_DEV_PRE_INIT.
Proof. reflexivity. Qed.

Example parse_empty : parse_opts (Some "") = Some VIRTIO_DEV_INITIAL.
Proof. reflexivity. Qed.

Example parse_null : parse_opts None = Some VIRTIO_DEV_INITIAL.
Proof. reflexivity. Qed.

(** The explicit instances are what the attach produces. *)
Example attach_without_options :
  exists t,
    virtio_rnd_init sample_headers sample_host sample_dev (Some "") world0 =
    Ret 0 {| trace := t; mem := Allocated rnd_user |}.
Proof. eexists. vm_compute. reflexivity. Qed.

Example attach_kernel_on :
  mem attached_kernel = Allocated rnd_init_success.
Proof. vm_compute. reflexivity. Qed.

(** What is left after a token is shorter than the string. *)
Lemma span_delim_rest delim s tok rest :
  span_delim delim s = (tok, Some rest) ->
  (String.length rest < String.length s)%nat.
Proof.
  revert tok rest. induction s as [|c s IH]; intros tok rest; simpl.
  - discriminate.
  - destruct (is_delim c delim).
    + intros H. inversion H; subst. lia.
    + destruct (span_delim delim s) as [tok' rest'] eqn:E.
      intros H. inversion H; subst. specialize (IH _ _ eq_refl). lia.
Qed.

(** With fuel beyond the measure of the string the loop ends, and [kstat]
    is what it was or [VIRTIO_DEV_PRE_INIT]. *)
Lemma parse_opts_loop_total fuel :
  forall opts kstat,
    (opts_measure opts < fuel)%nat ->
    exists k, parse_opts_loop fuel opts kstat = Some k /\
              (k = kstat \/ k = VIRTIO_DEV_PRE_INIT).
Proof.
  induction fuel as [|fuel IH]; intros opts kstat Hlt; [lia|].
  destruct opts as [s|]; simpl.
  - destruct (span_delim "," s) as [tok rest] eqn:E.
    destruct (span_delim "=" tok) as [key val] eqn:E2.
    assert (Hm : (opts_measure rest < fuel)%nat).
    { destruct rest as [rest|]; simpl in *; [|lia].
      apply span_delim_rest in E. lia. }
    match goal with
    | |- exists k, parse_opts_loop fuel rest ?K = _ /\ _ =>
        destruct (IH rest K Hm) as (k & Hk & Hor)
    end.
    exists k. split; [exact Hk|].
    destruct Hor as [ -> | -> ]; [|now right].
    destruct val as [v|]; [|now left].
    destruct (strncmp v "on" 2 =? 0); [now right|now left].
  - exists kstat. split; [reflexivity|now left].
Qed.

Lemma parse_opts_total opts :
  exists kstat, parse_opts opts = Some kstat /\
    (kstat = VIRTIO_DEV_INITIAL \/ kstat = VIRTIO_DEV_PRE_INIT).
Proof.
  apply parse_opts_loop_total. destruct opts; simpl; lia.
Qed.


Lemma span_delim_no_delim c s :
  has_char c s = false -> span_delim (String c EmptyString) s = (s, None).
Proof.
  induction s as [|c' s IH]; simpl; [reflexivity|].
  destruct (Ascii.eqb c' c); [discriminate|].
  intros H. rewrite (IH H). reflexivity.
Qed.

Lemma span_delim_keeps_absent c delim s tok rest :
  has_char c s = false ->
  span_delim delim s = (tok, rest) ->
  has_char c tok = false /\
  match rest with Some s' => has_char c s' = false | None => True end.
Proof.
  revert tok rest. induction s as [|c' s IH]; intros tok rest; simpl.
  - intros _ H. inversion H; subst. split; reflexivity || exact I.
  - destruct (Ascii.eqb c' c) eqn:Ec; [discriminate|]. intros Hs.
    destruct (is_delim c' delim).
    + intros H. inversion H; subst. split; [reflexivity|exact Hs].
    + destruct (span_delim delim s) as [tok' rest'] eqn:E.
      intros H. inversion H; subst.
      destruct (IH _ _ Hs eq_refl) as [Ht Hr].
      split; [|exact Hr]. simpl. rewrite Ec. exact Ht.
Qed.

Lemma parse_opts_loop_no_eq fuel :
  forall s kstat,
    has_char "="%char s = false ->
    (S (String.length s) < fuel)%nat ->
    parse_opts_loop fuel (Some s) kstat = Some kstat.
Proof.
  induction fuel as [|fuel IH]; intros s kstat Hs Hlt; [lia|].
  simpl. destruct (span_delim "," s) as [tok rest] eqn:E.
  destruct (span_delim_keeps_absent _ _ _ _ _ Hs E) as [Htok Hrest].
  rewrite (span_delim_no_delim _ _ Htok).
  destruct rest as [s'|].
  - apply IH; [exact Hrest|]. apply span_delim_rest in E. lia.
  - destruct fuel; [lia|]. reflexivity.
Qed.

(** An option string without any ['='] (the empty string among them)
    leaves [kstat] at [VIRTIO_DEV_INITIAL]. *)
Lemma parse_opts_no_eq s :
  has_char "="%char s = false ->
  parse_opts (Some s) = Some VIRTIO_DEV_INITIAL.
Proof.
  intros Hs. apply parse_opts_loop_no_eq; [exact Hs|]. simpl. lia.
Qed.

(** C2 (the code at the failing input).  The loop never compares the key in
    front of ['='] with "kernel", and compares only the first two bytes of
    the value with "on": the option strings "foo=on" and "kernel=only",
    which hold no "kernel=on" token, give [VIRTIO_DEV_PRE_INIT] as
    "kernel=on" does, and the attach with "foo=on" opens the VBS-K
    device; "kernel=off" and the empty string give [VIRTIO_DEV_INITIAL]. *)
Theorem parse_opts_ignores_key :
  parse_opts (Some "kernel=on") = Some VIRTIO_DEV_PRE_INIT /\
  parse_opts (Some "foo=on") = Some VIRTIO_DEV_PRE_INIT /\
  parse_opts (Some "kernel=only") = Some VIRTIO_DEV_PRE_INIT /\
  parse_opts (Some "kernel=off") = Some VIRTIO_DEV_INITIAL /\
  parse_opts (Some "") = Some VIRTIO_DEV_INITIAL /\
  status_of
    (final_world
       (virtio_rnd_init sample_headers sample_host sample_dev (Some "foo=on")
          world0) world0) = Some VIRTIO_DEV_INIT_SUCCESS.
Proof. repeat split; vm_compute; reflexivity. Qed.

(** ** Reset *)

(** C1 (counterexample).  After an attach with "kernel=on" the session is
    in [VIRTIO_DEV_INIT_SUCCESS]; a reset leaves it there, not in
    [VIRTIO_DEV_INITIAL].  After a failed start the session is in
    [VIRTIO_DEV_START_FAILED] with the device-descriptor record filled in;
    a reset leaves the status and the record as they are. *)
Lemma reset_keeps_other_status :
  status_of attached_kernel = Some VIRTIO_DEV_INIT_SUCCESS /\
  (exists w',
     virtio_rnd_reset sample_headers sample_host attached_kernel = Ret tt w' /\
     status_of w' = Some VIRTIO_DEV_INIT_SUCCESS /\
     status_of w' <> Some VIRTIO_DEV_INITIAL) /\
  status_of start_failed_world = Some VIRTIO_DEV_START_FAILED /\
  (exists w' r',
     virtio_rnd_reset sample_headers sample_host start_failed_world = Ret tt w' /\
     mem w' = Allocated r' /\
     k_status (vbs_k r') = VIRTIO_DEV_START_FAILED /\
     k_dev (vbs_k r') <> vbs_dev_info_zero sample_headers /\
     k_vqs (vbs_k r') <> vbs_vqs_info_zero sample_headers).
Proof.
  split; [vm_compute; reflexivity|]. split.
  { eexists. split; [vm_compute; reflexivity|]. split; [reflexivity|discriminate]. }
  split; [vm_compute; reflexivity|].
  eexists. eexists. split; [vm_compute; reflexivity|].
  split; [reflexivity|]. split; [reflexivity|]. split; vm_compute; discriminate.
Qed.

(** C1 (amended).  From every state of the instance the reset returns; a
    session in [VIRTIO_DEV_STARTED] ends in [VIRTIO_DEV_INITIAL] with the
    device-descriptor record and the per-queue records zeroed; with any
    other prior status the reset leaves the status and both records as
    they were. *)
Theorem reset_started_to_initial (hd : headers) (h : host)
    (t : list event) (r : virtio_rnd) :
  exists t' r',
    virtio_rnd_reset hd h {| trace := t; mem := Allocated r |} =
      Ret tt {| trace := t'; mem := Allocated r' |} /\
    match k_status (vbs_k r) with
    | VIRTIO_DEV_STARTED =>
        k_status (vbs_k r') = VIRTIO_DEV_INITIAL /\
        k_dev (vbs_k r') = vbs_dev_info_zero hd /\
        k_vqs (vbs_k r') = vbs_vqs_info_zero hd
    | _ =>
        k_status (vbs_k r') = k_status (vbs_k r) /\
        k_dev (vbs_k r') = k_dev (vbs_k r) /\
        k_vqs (vbs_k r') = k_vqs (vbs_k r)
    end.
Proof.
  unfold virtio_rnd_reset, virtio_reset_dev, bind, get_rnd, put_rnd, emit. cbn.
  destruct (h_reset_dev h (negotiated_caps (base r)) (vq r)) as [caps q].
  cbn. destruct (k_status (vbs_k r)) eqn:Hs; cbn;
    eexists; eexists; (split; [reflexivity|]); cbn; auto.
Qed.

(** ** The status callback of the VBS-K table *)

Lemma neg_error_ltb (e : Z) : 0 < e -> (- e <? 0) = true.
Proof. intros. apply Z.ltb_lt. lia. Qed.

Lemma success_ltb (s : Z) : 0 <= s -> (s <? 0) = false.
Proof. intros. apply Z.ltb_ge. lia. Qed.

(** C10.  With the VBS-K table bound, a status write that finds the session
    in another status than [VIRTIO_DEV_INIT_SUCCESS], or that does not set
    the DRIVER_OK bit, returns with the world unchanged: the status, the
    device-descriptor record and the per-queue records are as before (and
    so is everything else); this holds for the callback and for its call
    through the table. *)
Theorem k_set_status_frame (hd : headers) (h : host) (t : list event)
    (r : virtio_rnd) (status : Z) :
  vops (base r) = Some virtio_rnd_ops_k ->
  k_status (vbs_k r) <> VIRTIO_DEV_INIT_SUCCESS \/
    Z.land (to_uint64 status) (VIRTIO_CR_STATUS_DRIVER_OK hd) = 0 ->
  let w := {| trace := t; mem := Allocated r |} in
  virtio_rnd_k_set_status hd h status w = Ret tt w /\
  run_op hd h (OpSetStatus status) w = Ret tt w.
Proof.
  intros Hops Hc w.
  assert (E : virtio_rnd_k_set_status hd h status w = Ret tt w).
  { unfold virtio_rnd_k_set_status, bind, get_rnd, deref. cbn. rewrite Hops.
    cbn. destruct Hc as [Hc|Hc].
    - destruct (status_eqb (k_status (vbs_k r)) VIRTIO_DEV_INIT_SUCCESS) eqn:Es.
      + apply status_eqb_eq in Es. contradiction.
      + reflexivity.
    - rewrite Hc. cbn. rewrite andb_false_r. reflexivity. }
  split; [exact E|].
  unfold run_op, bind, get_rnd, deref. cbn. rewrite Hops. cbn. exact E.
Qed.

Lemma k_set_status_frame_witness :
  virtio_rnd_k_set_status sample_headers sample_host 3
    {| trace := []; mem := Allocated rnd_init_success |} =
  Ret tt {| trace := []; mem := Allocated rnd_init_success |}.
Proof.
  apply (k_set_status_frame sample_headers sample_host [] rnd_init_success 3).
  - reflexivity.
  - right. reflexivity.
Defined.

(** A per-queue record build fails exactly on an invalid index. *)
Lemma kernel_vq_set_rc (hd : headers) kvqs nvq idx a b c d e :
  headers_ok hd ->
  (fst (virtio_rnd_kernel_vq_set hd kvqs nvq idx a b c d e) <? 0) =
    (to_uint nvq <=? to_uint idx).
Proof.
  intros (Hs & _ & _ & Hg). unfold virtio_rnd_kernel_vq_set.
  destruct (to_uint nvq <=? to_uint idx); simpl.
  - apply neg_error_ltb. exact Hg.
  - apply success_ltb. exact Hs.
Qed.

(** The loop leaves the function early exactly when one of its indices is
    invalid. *)
Lemma kernel_vq_loop_aborts_iff (hd : headers) (n : nat) :
  headers_ok hd ->
  forall i nvq q d ma md kvqs,
    fst (kernel_vq_loop hd n i nvq q d ma md kvqs) = false <->
    exists j, i <= j < i + Z.of_nat n /\ to_uint nvq <= to_uint j.
Proof.
  intros Hok. induction n as [|n IH]; intros i nvq q d ma md kvqs.
  - simpl. split; [discriminate|]. intros (j & Hj & _). lia.
  - cbn [kernel_vq_loop].
    destruct (negb (msix_idx q =? VIRTIO_MSI_NO_VECTOR hd)).
    + pose proof (kernel_vq_set_rc hd kvqs nvq i (qsize q) (pfn q) (msix_idx q)
                    (mte_addr (pd_msix_table d (msix_idx q)))
                    (mte_msg_data (pd_msix_table d (msix_idx q))) Hok) as Hrc.
      destruct (virtio_rnd_kernel_vq_set hd kvqs nvq i (qsize q) (pfn q)
                  (msix_idx q) _ _) as [rc kvqs'].
      simpl in Hrc. rewrite Hrc.
      destruct (to_uint nvq <=? to_uint i) eqn:E.
      * simpl. split; [|reflexivity]. intros _. exists i.
        apply Z.leb_le in E. split; [lia|exact E].
      * rewrite IH. apply Z.leb_gt in E.
        split; intros (j & Hj & Hle); exists j; (split; [|exact Hle]).
        -- lia.
        -- destruct (Z.eq_dec j i) as [->|]; [lia|lia].
    + pose proof (kernel_vq_set_rc hd kvqs nvq i (qsize q) (pfn q) (msix_idx q)
                    ma md Hok) as Hrc.
      destruct (virtio_rnd_kernel_vq_set hd kvqs nvq i (qsize q) (pfn q)
                  (msix_idx q) _ _) as [rc kvqs'].
      simpl in Hrc. rewrite Hrc.
      destruct (to_uint nvq <=? to_uint i) eqn:E.
      * simpl. split; [|reflexivity]. intros _. exists i.
        apply Z.leb_le in E. split; [lia|exact E].
      * rewrite IH. apply Z.leb_gt in E.
        split; intros (j & Hj & Hle); exists j; (split; [|exact Hle]).
        -- lia.
        -- destruct (Z.eq_dec j i) as [->|]; [lia|lia].
Qed.

Lemma to_uint_small (z : Z) : 0 <= z < 2 ^ 32 -> to_uint z = z.
Proof. intros. unfold to_uint, wrap. apply Z.mod_small. lia. Qed.

(** In the loop of the callback the index stays below the queue count, so
    no build reports an invalid index: the loop runs to its end for every
    queue count an [int] can hold. *)
Lemma kernel_vq_loop_completes (hd : headers) nvq q d kvqs :
  headers_ok hd ->
  - 2 ^ 31 <= nvq < 2 ^ 31 ->
  fst (kernel_vq_loop hd (Z.to_nat nvq) 0 nvq q d 0 0 kvqs) = true.
Proof.
  intros Hok Hn.
  destruct (fst (kernel_vq_loop hd (Z.to_nat nvq) 0 nvq q d 0 0 kvqs)) eqn:E;
    [reflexivity|].
  apply (kernel_vq_loop_aborts_iff hd _ Hok) in E.
  destruct E as (j & Hj & Hle).
  assert (0 <= j < nvq) by lia.
  rewrite !to_uint_small in Hle by lia. lia.
Qed.

(** C8.  A status write with the DRIVER_OK bit that finds the session in
    [VIRTIO_DEV_INIT_SUCCESS] builds the records.  When a per-queue build
    reports an invalid index (for some queue index [i] of the loop the
    queue count is at most [i]), the callback returns before the start: no
    call reaches the backend and the status stays
    [VIRTIO_DEV_INIT_SUCCESS].  Otherwise the start is issued once, with the
    records as built, and the status is [VIRTIO_DEV_STARTED] when the
    backend's start succeeds and [VIRTIO_DEV_START_FAILED] when it
    fails. *)
Theorem k_set_status_handshake (hd : headers) (h : host) (t : list event)
    (r : virtio_rnd) (ops : virtio_ops) (d : pci_vdev) (status : Z) :
  headers_ok hd ->
  vops (base r) = Some ops ->
  dev (base r) = Some d ->
  k_status (vbs_k r) = VIRTIO_DEV_INIT_SUCCESS ->
  Z.land (to_uint64 status) (VIRTIO_CR_STATUS_DRIVER_OK hd) <> 0 ->
  let nvq := vo_nvq ops in
  let kfd := k_fd (vbs_k r) in
  let kdev :=
    snd (virtio_rnd_kernel_dev_set hd (k_dev (vbs_k r)) (vo_name ops)
           (pd_vmid d) nvq (negotiated_caps (base r)) (pd_bar0_addr d + 16) 2) in
  let built :=
    kernel_vq_loop hd (Z.to_nat nvq) 0 nvq (vq r) d 0 0 (k_vqs (vbs_k r)) in
  (fst built = false <->
     exists i, 0 <= i < nvq /\ to_uint nvq <= to_uint i) /\
  exists r',
    if fst built then
      let rc := h_kernel_start h t kfd kdev (snd built) in
      virtio_rnd_k_set_status hd h status {| trace := t; mem := Allocated r |} =
        Ret tt {| trace := EvKernelStart kfd kdev (snd built) rc :: t;
                  mem := Allocated r' |} /\
      k_status (vbs_k r') =
        (if rc <? 0 then VIRTIO_DEV_START_FAILED else VIRTIO_DEV_STARTED)
    else
      virtio_rnd_k_set_status hd h status {| trace := t; mem := Allocated r |} =
        Ret tt {| trace := t; mem := Allocated r' |} /\
      k_status (vbs_k r') = VIRTIO_DEV_INIT_SUCCESS.
Proof.
  intros Hok Hops Hdev Hst Hbit nvq kfd kdev built. split.
  { unfold built. rewrite (kernel_vq_loop_aborts_iff hd _ Hok).
    split; intros (j & Hj & Hle); exists j; (split; [lia|exact Hle]). }
  destruct Hok as (Hs & _ & Hstart & _).
  unfold virtio_rnd_k_set_status. run.
  rewrite Hops, Hdev, Hst. cbn.
  destruct (Z.land (to_uint64 status) (VIRTIO_CR_STATUS_DRIVER_OK hd) =? 0) eqn:Eb;
    [apply Z.eqb_eq in Eb; contradiction|].
  subst kdev built. cbn. fold nvq.
  destruct (kernel_vq_loop hd (Z.to_nat nvq) 0 nvq (vq r) d 0 0 (k_vqs (vbs_k r)))
    as [completed kvqs] eqn:El.
  cbn. destruct completed; cbn.
  - unfold virtio_rnd_kernel_start, vbs_kernel_start. run.
    fold kfd.
    match goal with
    | |- context [h_kernel_start ?a ?b ?c ?e ?f <? 0] =>
        destruct (h_kernel_start a b c e f <? 0) eqn:Erc
    end; cbn.
    + rewrite (neg_error_ltb _ Hstart). cbn.
      eexists. split; reflexivity.
    + rewrite (success_ltb _ Hs). cbn.
      eexists. split; reflexivity.
  - eexists. split; [reflexivity|]. cbn. exact Hst.
Qed.

Lemma k_set_status_handshake_witness :
  exists kdev kvqs r',
    virtio_rnd_k_set_status sample_headers sample_host 4
      {| trace := []; mem := Allocated rnd_init_success |} =
      Ret tt {| trace := [EvKernelStart 4 kdev kvqs 0];
                mem := Allocated r' |} /\
    k_status (vbs_k r') = VIRTIO_DEV_STARTED.
Proof.
  assert (Hok : headers_ok sample_headers) by (unfold headers_ok; simpl; lia).
  assert (Hbit : Z.land (to_uint64 4)
                   (VIRTIO_CR_STATUS_DRIVER_OK sample_headers) <> 0)
    by (vm_compute; discriminate).
  destruct (k_set_status_handshake sample_headers sample_host []
              rnd_init_success virtio_rnd_ops_k sample_dev 4 Hok eq_refl
              eq_refl eq_refl Hbit) as [_ [r' Hr']].
  do 2 eexists. exists r'. exact Hr'.
Defined.

(** ** The notify loop of the user-space backend *)

Lemma to_int_small (z : Z) : - 2 ^ 31 <= z <= INT_MAX -> to_int z = z.
Proof.
  intros H. unfold INT_MAX in H. unfold to_int, swrap.
  rewrite Z.mod_small; lia.
Qed.

Lemma to_uint32_small (z : Z) : 0 <= z <= INT_MAX -> to_uint32 z = z.
Proof.
  intros H. unfold INT_MAX in H. unfold to_uint32, wrap.
  apply Z.mod_small. lia.
Qed.



Example kicked_once_returns :
  virtio_rnd_notify sample_host
    {| trace := [];
       mem := Allocated (rnd_user_queued [single_chain 7 4096 16]) |} =
  Ret tt kicked_once /\
  trace kicked_once = [EvEndchains 1 true; EvRead 3 16 16].
Proof. split; vm_compute; reflexivity. Qed.

(** On a source that fills every buffer, the loop releases the pending
    chains in order, each with the length of its buffer. *)
Lemma notify_loop_full (h : host) (B : Z) :
  (forall t fd' n, h_read h t fd' n = n) ->
  forall fuel t r,
    Forall (fun c => iov_len (ch_seg c) = B) (vq_avail (vq r)) ->
    vq_avail (vq r) = [] \/ 1 <= B <= INT_MAX ->
    (length (vq_avail (vq r)) < fuel)%nat ->
    exists t' r',
      notify_loop h fuel {| trace := t; mem := Allocated r |} =
        Ret tt {| trace := t'; mem := Allocated r' |} /\
      vq_avail (vq r') = [] /\
      vq_used (vq r') =
        (rev (map (fun c => (ch_idx c, B)) (vq_avail (vq r))) ++ vq_used (vq r))%list /\
      vq_batch (vq r') = (vq_batch (vq r) + length (vq_avail (vq r)))%nat /\
      completion_signals t' = completion_signals t.
Proof.
  intros Hfull. induction fuel as [|fuel IH]; intros t r Hall HB Hlt; [lia|].
  cbn [notify_loop]. unfold vq_has_descs, vq_getchain, sys_read, vq_relchain.
  destruct r as [b [qs pf mi [|c rest] us ba] m cf f k]; run.
  - do 2 eexists. split; [reflexivity|]. cbn. repeat split; lia.
  - cbn in Hall, HB, Hlt. apply Forall_cons_iff in Hall.
    destruct Hall as [Hc Hrest].
    destruct HB as [HB|HB]; [discriminate|].
    rewrite Hfull, Hc, (to_int_small B) by (unfold INT_MAX in *; lia).
    replace (0 <? B) with true by (symmetry; apply Z.ltb_lt; lia). run.
    rewrite (to_uint32_small B) by lia.
    match goal with
    | |- context [notify_loop h fuel {| trace := ?t1; mem := Allocated ?r1 |}] =>
        destruct (IH t1 r1) as (t' & r' & Hrun & Hav & Hu & Hb & Hcs)
    end.
    + exact Hrest.
    + right. exact HB.
    + cbn. lia.
    + exists t', r'. split; [exact Hrun|]. cbn in *.
      split; [exact Hav|]. split.
      * rewrite Hu. rewrite <- app_assoc. reflexivity.
      * split; [lia|exact Hcs].
Qed.

(** C5 (counterexample).  The sample host fills every buffer and the handle
    3 is valid; with one pending chain whose buffer has length 0 the read
    returns 0, the assertion [len > 0] fails and the process aborts: no
    chain is released and no completion signal is raised.  The same
    happens with a buffer of 2^31 bytes, whose length does not fit the
    [int] that receives the result of [read]. *)
Lemma notify_aborts_on_empty_buffer :
  (forall t fd' n, h_read sample_host t fd' n = n) /\
  0 <= fd (rnd_user_queued [single_chain 7 4096 0]) /\
  (exists t' r',
     virtio_rnd_notify sample_host
       {| trace := [];
          mem := Allocated (rnd_user_queued [single_chain 7 4096 0]) |} =
       Abort {| trace := t'; mem := Allocated r' |} /\
     vq_used (vq r') = [] /\ completion_signals t' = 0%nat) /\
  (exists t' r',
     virtio_rnd_notify sample_host
       {| trace := [];
          mem := Allocated (rnd_user_queued [single_chain 7 4096 2147483648]) |} =
       Abort {| trace := t'; mem := Allocated r' |} /\
     vq_used (vq r') = [] /\ completion_signals t' = 0%nat).
Proof.
  split; [reflexivity|]. split; [vm_compute; discriminate|].
  split; do 2 eexists; (split; [vm_compute; reflexivity|]); split; reflexivity.
Qed.

(** C5 (amended).  With a valid entropy handle, a source whose every read
    fills the requested length, and [N] pending chains of one buffer
    segment of length [B] each, where [1 <= B <= INT_MAX] (or [N = 0]), the
    notify handler returns with the ring drained, having released exactly
    these [N] chains in order, each with the byte count [B], and having
    raised exactly one completion signal. *)
Theorem notify_full_fill (h : host) (t : list event) (r : virtio_rnd)
    (N : nat) (B : Z) :
  (forall t' fd' n, h_read h t' fd' n = n) ->
  0 <= fd r ->
  length (vq_avail (vq r)) = N ->
  Forall (fun c => iov_len (ch_seg c) = B /\ ch_more c = []) (vq_avail (vq r)) ->
  N = 0%nat \/ 1 <= B <= INT_MAX ->
  exists t' r',
    virtio_rnd_notify h {| trace := t; mem := Allocated r |} =
      Ret tt {| trace := t'; mem := Allocated r' |} /\
    vq_avail (vq r') = [] /\
    vq_used (vq r') =
      (rev (map (fun c => (ch_idx c, B)) (vq_avail (vq r))) ++ vq_used (vq r))%list /\
    length (vq_used (vq r')) = (length (vq_used (vq r)) + N)%nat /\
    completion_signals t' = S (completion_signals t).
Proof.
  intros Hfull Hfd HN Hall HB.
  destruct (notify_loop_full h B Hfull (S (length (vq_avail (vq r)))) t r)
    as (t1 & r1 & Hrun & Hav & Hu & Hb & Hcs).
  { eapply Forall_impl; [exact Hall|]. intros c [Hc _]. exact Hc. }
  { destruct HB as [HB|HB]; [left|right; exact HB].
    subst N. destruct (vq_avail (vq r)); [reflexivity|discriminate]. }
  { lia. }
  unfold virtio_rnd_notify.
  unfold bind at 1. cbn [get_rnd mem].
  replace (fd r <? 0) with false by (symmetry; apply Z.ltb_ge; lia).
  unfold bind at 1. rewrite Hrun. unfold vq_endchains. run.
  do 2 eexists. split; [reflexivity|]. cbn.
  split; [exact Hav|]. split; [exact Hu|]. split.
  - rewrite Hu, length_app, length_rev, length_map. lia.
  - rewrite Hcs. reflexivity.
Qed.

Lemma notify_full_fill_witness :
  exists t' r',
    virtio_rnd_notify sample_host
      {| trace := [];
         mem := Allocated
                  (rnd_user_queued [single_chain 7 4096 16; single_chain 9 8192 16]) |} =
      Ret tt {| trace := t'; mem := Allocated r' |} /\
    vq_avail (vq r') = [] /\
    vq_used (vq r') = [(9, 16); (7, 16)] /\
    length (vq_used (vq r')) = 2%nat /\
    completion_signals t' = 1%nat.
Proof.
  apply (notify_full_fill sample_host []
           (rnd_user_queued [single_chain 7 4096 16; single_chain 9 8192 16])
           2 16).
  - reflexivity.
  - vm_compute. discriminate.
  - reflexivity.
  - repeat constructor.
  - right. vm_compute. split; discriminate.
Defined.

(** ** Attach *)

(** The runs of [virtio_rnd_init] from a world [{| trace := t; mem := m0 |}]:
    the open of /dev/random and the probe come first; a failed open aborts,
    a probe without data and a failed allocation return -1 with the memory
    untouched; after that the instance exists, bound to the VBS-K table in
    [VIRTIO_DEV_INIT_SUCCESS] or to the user-space table otherwise, and the
    run returns 0, or -1 with the block released when the interrupt
    registration fails. *)
Lemma virtio_rnd_init_cases (hd : headers) (h : host) (d : pci_vdev)
    (opts : option string) (t : list event) (m0 : block) :
  let w := {| trace := t; mem := m0 |} in
  let fd' := h_open h t "/dev/random" in
  let t1 := EvOpen "/dev/random" fd' :: t in
  let n := h_read h t1 fd' 1 in
  let t2 := EvRead fd' 1 n :: t1 in
  exists kstat,
    parse_opts opts = Some kstat /\
    (kstat = VIRTIO_DEV_INITIAL \/ kstat = VIRTIO_DEV_PRE_INIT) /\
    if fd' <? 0 then
      virtio_rnd_init hd h d opts w = Abort {| trace := t1; mem := m0 |}
    else if to_int n <=? 0 then
      virtio_rnd_init hd h d opts w = Ret (-1) {| trace := t2; mem := m0 |}
    else if negb (h_calloc h t2) then
      virtio_rnd_init hd h d opts w =
        Ret (-1) {| trace := EvCalloc false :: t2; mem := m0 |}
    else
      exists t3 r,
        (virtio_rnd_init hd h d opts w =
           Ret 0 {| trace := EvSetIoBar 0
                             :: EvInterruptInit (h_virtio_msix h) 0 :: t3;
                    mem := Allocated r |}
         \/
         exists rc, rc <> 0 /\
           virtio_rnd_init hd h d opts w =
             Ret (-1) {| trace := EvFree
                                  :: EvInterruptInit (h_virtio_msix h) rc :: t3;
                         mem := Released r |}) /\
        fd r = fd' /\
        dev (base r) = Some d /\
        (kstat = VIRTIO_DEV_INITIAL /\
         k_status (vbs_k r) = VIRTIO_DEV_INITIAL /\
         vops (base r) = Some virtio_rnd_ops
         \/
         kstat = VIRTIO_DEV_PRE_INIT /\
         (k_status (vbs_k r) = VIRTIO_DEV_INIT_SUCCESS /\
          vops (base r) = Some virtio_rnd_ops_k /\
          (headers_ok hd -> 0 <= k_fd (vbs_k r))
          \/
          k_status (vbs_k r) = VIRTIO_DEV_INIT_FAILED /\
          vops (base r) = Some virtio_rnd_ops)) /\
        vq_batch (vq r) = 0%nat.
Proof.
  intros w fd' t1 n t2.
  destruct (parse_opts_total opts) as (kstat & Hk & Hor).
  exists kstat. split; [exact Hk|]. split; [exact Hor|].
  unfold virtio_rnd_init. rewrite Hk. unfold sys_open, sys_read. run.
  fold fd'. fold t1.
  replace (0 <=? fd') with (negb (fd' <? 0))
    by (destruct (Z.ltb_spec fd' 0), (Z.leb_spec 0 fd'); simpl; lia || reflexivity).
  destruct (fd' <? 0); cbn; [reflexivity|].
  fold n. fold t2.
  destruct (to_int n <=? 0); cbn; [reflexivity|].
  unfold sys_calloc. run.
  destruct (h_calloc h t2); cbn; [|reflexivity].
  unfold virtio_linkup, virtio_rnd_kernel_init, pci_set_cfgdata,
    virtio_interrupt_init, virtio_set_io_bar, sys_free, sys_open.
  destruct Hor as [-> | ->]; run.
  - init_interrupt h; init_finish ltac:(left; auto).
  - match goal with
    | |- context [h_open h ?tt "/dev/vbs_rng" <? 0] =>
        destruct (Z.ltb_spec (h_open h tt "/dev/vbs_rng") 0) as [Eo|Eo]
    end; run.
    + destruct (Z.ltb_spec (- VIRTIO_ERROR_FD_OPEN_FAILED hd) 0) as [Ee|Ee]; run;
        init_interrupt h.
      * init_finish ltac:(right; split; [reflexivity|right; auto]).
      * init_finish ltac:(right; split; [reflexivity|right; auto]).
      * init_finish ltac:(right; split; [reflexivity|left];
                          split; [reflexivity|]; split; [reflexivity|];
                          intros (_ & Hpos & _); lia).
      * init_finish ltac:(right; split; [reflexivity|left];
                          split; [reflexivity|]; split; [reflexivity|];
                          intros (_ & Hpos & _); lia).
    + destruct (Z.ltb_spec (VIRTIO_SUCCESS hd) 0) as [Ee|Ee]; run;
        init_interrupt h.
      * init_finish ltac:(right; split; [reflexivity|right; auto]).
      * init_finish ltac:(right; split; [reflexivity|right; auto]).
      * init_finish ltac:(right; split; [reflexivity|left];
                          split; [reflexivity|]; split; [reflexivity|];
                          intros _; exact Eo).
      * init_finish ltac:(right; split; [reflexivity|left];
                          split; [reflexivity|]; split; [reflexivity|];
                          intros _; exact Eo).
Qed.

(** C6.  When /dev/random opens and the probe read stores a count [len <= 0],
    the attach returns -1 right after the probe: the memory is as before
    and the log gained the open and the read only, so no instance was
    allocated or bound.  When the count is positive the attach goes on: it
    returns 0 with a live instance, or -1 because the allocation failed or
    because the interrupt registration failed, and for no other reason. *)
Theorem init_probe (hd : headers) (h : host) (d : pci_vdev)
    (opts : option string) (t : list event) (m0 : block) :
  let w := {| trace := t; mem := m0 |} in
  let fd' := h_open h t "/dev/random" in
  let t1 := EvOpen "/dev/random" fd' :: t in
  let n := h_read h t1 fd' 1 in
  let t2 := EvRead fd' 1 n :: t1 in
  let len := to_int n in
  0 <= fd' ->
  (len <= 0 ->
   virtio_rnd_init hd h d opts w = Ret (-1) {| trace := t2; mem := m0 |}) /\
  (0 < len ->
   exists rc w',
     virtio_rnd_init hd h d opts w = Ret rc w' /\
     (rc = 0 /\ (exists r, mem w' = Allocated r)
      \/
      rc = -1 /\
      (h_calloc h t2 = false \/
       exists irc t3,
         irc <> 0 /\
         trace w' = EvFree :: EvInterruptInit (h_virtio_msix h) irc :: t3))).
Proof.
  intros w fd' t1 n t2 len Hfd.
  destruct (virtio_rnd_init_cases hd h d opts t m0) as (kstat & _ & _ & H).
  fold w fd' t1 n t2 len in H.
  replace (fd' <? 0) with false in H by (symmetry; apply Z.ltb_ge; lia).
  split; intros Hlen.
  - replace (len <=? 0) with true in H by (symmetry; apply Z.leb_le; lia).
    exact H.
  - replace (len <=? 0) with false in H by (symmetry; apply Z.leb_gt; lia).
    destruct (h_calloc h t2); cbn in H.
    + destruct H as (t3 & r & [H | (rc & Hrc & H)] & _).
      * do 2 eexists. split; [exact H|]. left. split; [reflexivity|].
        exists r. reflexivity.
      * do 2 eexists. split; [exact H|]. right. split; [reflexivity|].
        right. exists rc, t3. split; [exact Hrc|reflexivity].
    + do 2 eexists. split; [exact H|]. right. split; [reflexivity|].
      left. reflexivity.
Qed.

Lemma init_probe_witness :
  virtio_rnd_init sample_headers host_unseeded sample_dev (Some "kernel=on")
    world0 =
    Ret (-1) {| trace := [EvRead 3 1 0; EvOpen "/dev/random" 3];
                mem := Unallocated |} /\
  exists rc w',
    virtio_rnd_init sample_headers sample_host sample_dev (Some "kernel=on")
      world0 = Ret rc w' /\
    (rc = 0 /\ (exists r, mem w' = Allocated r)
     \/
     rc = -1 /\
     (h_calloc sample_host [EvRead 3 1 1; EvOpen "/dev/random" 3] = false \/
      exists irc t3,
        irc <> 0 /\
        trace w' = EvFree :: EvInterruptInit true irc :: t3)).
Proof.
  split.
  - apply (init_probe sample_headers host_unseeded sample_dev
             (Some "kernel=on") [] Unallocated).
    + vm_compute. discriminate.
    + vm_compute. discriminate.
  - apply (init_probe sample_headers sample_host sample_dev
             (Some "kernel=on") [] Unallocated).
    + vm_compute. discriminate.
    + vm_compute. reflexivity.
Defined.

(** C7 (the code at the failing input).  On a host whose interrupt
    registration fails, the attach with "kernel=on" returns -1 and
    releases the block of the instance, and nothing else: the log holds no
    [close], so the entropy handle 3 and the VBS-K control channel 4 stay
    open. *)
Theorem init_interrupt_failure_keeps_handles_open :
  exists t' r,
    virtio_rnd_init sample_headers host_interrupt_fails sample_dev
      (Some "kernel=on") world0 =
      Ret (-1) {| trace := t'; mem := Released r |} /\
    fd r = 3 /\ k_fd (vbs_k r) = 4 /\
    k_status (vbs_k r) = VIRTIO_DEV_INIT_SUCCESS /\
    open_fds t' = [4; 3] /\
    Forall (fun e => forall fd', e <> EvClose fd') t'.
Proof.
  do 2 eexists. split; [vm_compute; reflexivity|].
  repeat (split; [reflexivity|]).
  repeat constructor; discriminate.
Qed.

(** ** Operations and the session *)

Lemma settles_final_world {A} (out : outcome A) (w' w0 : world) :
  settles out w' -> final_world out w0 = w'.
Proof. intros [[a ->] | ->]; reflexivity. Qed.

Lemma op_post_same (hd : headers) (o : operation) (r : virtio_rnd)
    (t' : list event) (r' : virtio_rnd) :
  vbs_k r' = vbs_k r -> base r' = base r ->
  op_post hd o r {| trace := t'; mem := Allocated r' |}.
Proof.
  intros Hk Hb. exists r'. rewrite Hk, Hb.
  split; [left; reflexivity|]. split; [constructor|]. auto.
Qed.

(** The loop comes to an end within its fuel, by its test or in the
    assertion; it leaves the session and the bindings of the instance
    alone and raises no completion signal. *)
Lemma notify_loop_settles (h : host) (fuel : nat) :
  forall t r,
    (length (vq_avail (vq r)) < fuel)%nat ->
    exists w' r',
      settles (notify_loop h fuel {| trace := t; mem := Allocated r |}) w' /\
      mem w' = Allocated r' /\ vbs_k r' = vbs_k r /\ base r' = base r /\
      completion_signals (trace w') = completion_signals t.
Proof.
  induction fuel as [|fuel IH]; intros t r Hlt; [lia|].
  cbn [notify_loop]. unfold vq_has_descs, vq_getchain, sys_read, vq_relchain.
  destruct r as [b [qs pf mi [|c rest] us ba] m cf f k]; run.
  - do 2 eexists. split; [left; eexists; reflexivity|]. cbn. auto.
  - destruct (0 <? to_int (h_read h t f (iov_len (ch_seg c)))); run.
    + match goal with
      | |- context [notify_loop h fuel {| trace := ?t1; mem := Allocated ?r1 |}] =>
          destruct (IH t1 r1) as (w' & r' & Hs & Hm & Hk & Hb & Hc)
      end.
      { cbn in *. lia. }
      exists w', r'. cbn in *. auto.
    + do 2 eexists. split; [right; reflexivity|]. cbn. auto.
Qed.

Lemma notify_session (hd : headers) (h : host) (t : list event) (r : virtio_rnd) :
  exists w',
    settles (virtio_rnd_notify h {| trace := t; mem := Allocated r |}) w' /\
    op_post hd OpNotify r w'.
Proof.
  unfold virtio_rnd_notify. unfold bind at 1. cbn [get_rnd mem].
  destruct (fd r <? 0).
  - unfold vq_endchains. run. eexists.
    split; [left; eexists; reflexivity|]. apply op_post_same; reflexivity.
  - unfold bind at 1.
    destruct (notify_loop_settles h (S (length (vq_avail (vq r)))) t r)
      as ([t1 m1] & r1 & Hs & Hm & Hk & Hb & _); [lia|].
    cbn in Hm. subst m1. destruct Hs as [[[] ->] | ->].
    + unfold vq_endchains. run. eexists.
      split; [left; eexists; reflexivity|]. apply op_post_same; cbn; assumption.
    + eexists. split; [right; reflexivity|]. apply op_post_same; assumption.
Qed.

Lemma k_set_status_session (hd : headers) (h : host) (t : list event)
    (r : virtio_rnd) (status : Z) :
  exists w',
    settles (virtio_rnd_k_set_status hd h status
               {| trace := t; mem := Allocated r |}) w' /\
    op_post hd (OpSetStatus status) r w'.
Proof.
  unfold virtio_rnd_k_set_status. run.
  destruct (vops (base r)) as [ops|]; run;
    [|settled; apply op_post_same; reflexivity].
  destruct (status_eqb (k_status (vbs_k r)) VIRTIO_DEV_INIT_SUCCESS) eqn:Es;
    run; [|settled; apply op_post_same; reflexivity].
  apply status_eqb_eq in Es.
  destruct (Z.eqb_spec (Z.land (to_uint64 status) (VIRTIO_CR_STATUS_DRIVER_OK hd)) 0)
    as [Eb|Eb]; run; [settled; apply op_post_same; reflexivity|].
  destruct (dev (base r)) as [d|]; run;
    [|settled; apply op_post_same; reflexivity].
  destruct (kernel_vq_loop hd (Z.to_nat (vo_nvq ops)) 0 (vo_nvq ops) (vq r) d
              0 0 (k_vqs (vbs_k r))) as [completed kvqs].
  destruct completed; run.
  - unfold virtio_rnd_kernel_start, vbs_kernel_start. run.
    match goal with
    | |- context [h_kernel_start ?a ?b ?c ?e ?f <? 0] =>
        destruct (h_kernel_start a b c e f <? 0)
    end; run.
    + destruct (- VIRTIO_ERROR_START hd <? 0); run; settled;
        (eexists; split; [left; reflexivity|]; cbn; rewrite Es;
         split; [constructor; exact Eb|]; auto).
    + destruct (VIRTIO_SUCCESS hd <? 0); run; settled;
        (eexists; split; [left; reflexivity|]; cbn; rewrite Es;
         split; [constructor; exact Eb|]; auto).
  - settled. eexists. split; [left; reflexivity|]. cbn.
    split; [constructor|]. auto.
Qed.

Lemma reset_session (hd : headers) (h : host) (t : list event) (r : virtio_rnd) :
  exists w',
    settles (virtio_rnd_reset hd h {| trace := t; mem := Allocated r |}) w' /\
    op_post hd OpReset r w'.
Proof.
  unfold virtio_rnd_reset, virtio_reset_dev. run.
  destruct (h_reset_dev h (negotiated_caps (base r)) (vq r)) as [caps q]. run.
  destruct (status_eqb (k_status (vbs_k r)) VIRTIO_DEV_STARTED) eqn:Es; run.
  - apply status_eqb_eq in Es.
    unfold virtio_rnd_kernel_stop, virtio_rnd_kernel_reset, vbs_kernel_stop,
      vbs_kernel_reset. run. settled.
    eexists. split; [left; reflexivity|]. cbn. rewrite Es.
    split; [constructor|]. auto.
  - settled. eexists. split; [left; reflexivity|]. cbn.
    split; [constructor|]. auto.
Qed.

Lemma deinit_session (hd : headers) (h : host) (t : list event) (r : virtio_rnd) :
  exists w',
    settles (virtio_rnd_deinit hd h ARG_RND {| trace := t; mem := Allocated r |})
      w' /\
    op_post hd OpDeinit r w'.
Proof.
  unfold virtio_rnd_deinit, sys_free, sys_close. run.
  destruct (status_eqb (k_status (vbs_k r)) VIRTIO_DEV_STARTED) eqn:Es; run.
  - apply status_eqb_eq in Es.
    unfold virtio_rnd_kernel_stop, virtio_rnd_kernel_reset, vbs_kernel_stop,
      vbs_kernel_reset. run.
    destruct (0 <=? k_fd (vbs_k r)); run; settled.
    + eexists. split; [right; split; reflexivity|]. cbn. rewrite Es.
      split; [constructor|]. auto.
    + eexists. split; [left; reflexivity|]. cbn. rewrite Es.
      split; [constructor|]. auto.
  - settled. eexists. split; [right; split; reflexivity|]. cbn.
    split; [constructor|]. auto.
Qed.

(** Every operation on a live instance comes to an end and leaves a legal
    move of the status behind, whether it returns or aborts. *)
Lemma run_op_post (hd : headers) (h : host) (o : operation) (t : list event)
    (r : virtio_rnd) :
  exists w',
    settles (run_op hd h o {| trace := t; mem := Allocated r |}) w' /\
    op_post hd o r w'.
Proof.
  destruct o as [status| | |caps pf mi chains|]; cbn [run_op].
  - unfold bind at 1. cbn [get_rnd mem]. unfold bind at 1.
    destruct (vops (base r)) as [ops|] eqn:Eo; cbn [deref];
      [|cbn; settled; apply op_post_same; reflexivity].
    cbn [ret]. destruct (vo_set_status ops) as [[]|].
    + apply k_set_status_session.
    + cbn. settled. apply op_post_same; reflexivity.
  - unfold bind at 1. cbn [get_rnd mem]. unfold bind at 1.
    destruct (vops (base r)) as [ops|] eqn:Eo; cbn [deref];
      [|cbn; settled; apply op_post_same; reflexivity].
    cbn [ret]. destruct (vo_reset ops) as [[]|].
    + apply reset_session.
    + cbn. settled. apply op_post_same; reflexivity.
  - unfold bind at 1. cbn [get_rnd mem]. unfold bind at 1.
    destruct (vops (base r)) as [ops|] eqn:Eo; cbn [deref];
      [|cbn; settled; apply op_post_same; reflexivity].
    cbn [ret]. destruct (vo_qnotify ops) as [[]|].
    + apply notify_session.
    + cbn. settled. apply op_post_same; reflexivity.
    + cbn. settled. apply op_post_same; reflexivity.
  - run. settled. eexists. split; [left; reflexivity|]. cbn.
    split; [constructor|]. auto.
  - apply deinit_session.
Qed.

(** No operation exhausts the fuel of a loop. *)
Lemma run_op_settles (hd : headers) (h : host) (o : operation) (w : world) :
  exists w', settles (run_op hd h o w) w'.
Proof.
  destruct w as [t [|r|r]].
  - exists {| trace := t; mem := Unallocated |}. right. destruct o; reflexivity.
  - destruct (run_op_post hd h o t r) as (w' & Hs & _). exists w'. exact Hs.
  - exists {| trace := t; mem := Released r |}. right. destruct o; reflexivity.
Qed.

(** An operation on a world that holds a session makes a legal move. *)
Lemma run_op_legal (hd : headers) (h : host) (o : operation) (w : world)
    (s : VBS_K_STATUS) :
  status_of w = Some s ->
  exists s',
    status_of (final_world (run_op hd h o w) w) = Some s' /\
    legal hd (ByOp o) s s'.
Proof.
  destruct w as [t [|r|r]]; unfold status_of; cbn [mem]; intros Hs;
    [discriminate| |].
  - inversion Hs; subst s; clear Hs.
    destruct (run_op_post hd h o t r) as (w' & Hst & r' & Hm & Hl & _).
    rewrite (settles_final_world _ _ _ Hst).
    destruct Hm as [Hm|[_ Hm]];
      rewrite Hm; exists (k_status (vbs_k r')); split; auto.
  - inversion Hs; subst s; clear Hs.
    exists (k_status (vbs_k r)). split; [|constructor].
    destruct o; reflexivity.
Qed.

Lemma op_history_legal (hd : headers) (h : host) (os : list operation) :
  forall w s, status_of w = Some s -> legal_history hd s (op_history hd h os w).
Proof.
  induction os as [|o os IH]; intros w s Hs; [exact I|].
  cbn [op_history].
  destruct (run_op_legal hd h o w s Hs) as (s' & Hs' & Hl).
  rewrite Hs'. cbn [legal_history]. split; [exact Hl|].
  destruct (run_op hd h o w) as [[] w1|w1|]; cbn in Hs'; try exact I.
  apply IH. exact Hs'.
Qed.

(** No move leaves a failure state. *)
Lemma legal_failure_stable (hd : headers) (c : cause) (s s' : VBS_K_STATUS) :
  s = VIRTIO_DEV_INIT_FAILED \/ s = VIRTIO_DEV_START_FAILED ->
  legal hd c s s' -> s' = s.
Proof. intros [-> | ->] Hl; inversion Hl; reflexivity. Qed.

Lemma run_ops_failure_stable (hd : headers) (h : host) (os : list operation) :
  forall w w0 s,
    s = VIRTIO_DEV_INIT_FAILED \/ s = VIRTIO_DEV_START_FAILED ->
    status_of w = Some s -> status_of w0 = Some s ->
    status_of (final_world (run_ops hd h os w) w0) = Some s.
Proof.
  induction os as [|o os IH]; intros w w0 s Hf Hs Hs0; [exact Hs|].
  cbn [run_ops]. unfold bind.
  destruct (run_op_legal hd h o w s Hs) as (s' & Hs' & Hl).
  apply (legal_failure_stable hd _ _ _ Hf) in Hl. subst s'.
  destruct (run_op hd h o w) as [[] w1|w1|]; cbn in Hs'.
  - apply IH; assumption.
  - exact Hs'.
  - exact Hs0.
Qed.

Example lifecycle_sample :
  lifecycle sample_headers sample_host sample_dev (Some "kernel=on")
    [OpSetStatus 4; OpNotify; OpReset; OpSetStatus 4; OpDeinit] [] =
  [(ByOptions, VIRTIO_DEV_PRE_INIT); (ByAttach, VIRTIO_DEV_INIT_SUCCESS);
   (ByOp (OpSetStatus 4), VIRTIO_DEV_STARTED);
   (ByOp OpNotify, VIRTIO_DEV_STARTED);
   (ByOp OpReset, VIRTIO_DEV_INITIAL);
   (ByOp (OpSetStatus 4), VIRTIO_DEV_INITIAL);
   (ByOp OpDeinit, VIRTIO_DEV_INITIAL)].
Proof. vm_compute. reflexivity. Qed.

(** C3.  In the history of every session (any host, option string and
    sequence of operations) each step is legal: the status stays, or moves
    along INITIAL -> PRE_INIT in the option loop, PRE_INIT ->
    {INIT_SUCCESS | INIT_FAILED} in the attach, INIT_SUCCESS ->
    {STARTED | START_FAILED} on a status write with DRIVER_OK, STARTED ->
    INITIAL on reset or detach, one edge at a time.  And from
    [VIRTIO_DEV_INIT_FAILED] and [VIRTIO_DEV_START_FAILED] no sequence of
    operations moves the status. *)
Theorem status_moves_are_legal (hd : headers) (h : host) (d : pci_vdev)
    (opts : option string) (os : list operation) (t : list event)
    (r : virtio_rnd) :
  legal_history hd VIRTIO_DEV_INITIAL (lifecycle hd h d opts os t) /\
  (let w := {| trace := t;
               mem := Allocated
                        (with_vbs_k (set_k_status VIRTIO_DEV_INIT_FAILED) r) |} in
   status_of (final_world (run_ops hd h os w) w) = Some VIRTIO_DEV_INIT_FAILED) /\
  (let w := {| trace := t;
               mem := Allocated
                        (with_vbs_k (set_k_status VIRTIO_DEV_START_FAILED) r) |} in
   status_of (final_world (run_ops hd h os w) w) = Some VIRTIO_DEV_START_FAILED).
Proof.
  split; [|split].
  - unfold lifecycle.
    destruct (virtio_rnd_init_cases hd h d opts t Unallocated)
      as (kstat & Hk & Hor & H).
    rewrite Hk. cbn [legal_history]. split.
    { destruct Hor as [-> | ->]; constructor. }
    destruct (h_open h t "/dev/random" <? 0).
    { rewrite H. cbn. exact I. }
    destruct (to_int _ <=? 0).
    { rewrite H. cbn. exact I. }
    destruct (negb _).
    { rewrite H. cbn. exact I. }
    destruct H as (t3 & r0 & Hrun & _ & _ & Hst & _).
    assert (Hl : legal hd ByAttach kstat (k_status (vbs_k r0))).
    { destruct Hst as [(-> & -> & _) | (-> & [(-> & _) | (-> & _)])];
        constructor. }
    destruct Hrun as [Hrun | (rc & Hrc & Hrun)]; rewrite Hrun; cbn.
    + split; [exact Hl|]. apply op_history_legal. reflexivity.
    + split; [exact Hl|exact I].
  - intros w. apply run_ops_failure_stable; [left|..]; reflexivity.
  - intros w. apply run_ops_failure_stable; [right|..]; reflexivity.
Qed.

(** ** Detach *)

(** Without a live instance no operation returns. *)
Lemma run_op_needs_instance (hd : headers) (h : host) (o : operation)
    (w w' : world) :
  run_op hd h o w = Ret tt w' -> exists r, mem w = Allocated r.
Proof.
  destruct w as [t [|r|r]]; [|exists r; reflexivity|];
    destruct o; cbn; discriminate.
Qed.

Lemma reachable_session_inv (hd : headers) (h : host) (w : world) :
  headers_ok hd -> reachable hd h w -> session_inv w.
Proof.
  intros Hok Hr. induction Hr as [d opts t w Hinit | o w w' Hr IH Hrun].
  - destruct (virtio_rnd_init_cases hd h d opts t Unallocated)
      as (kstat & _ & _ & H).
    destruct (h_open h t "/dev/random" <? 0); [congruence|].
    destruct (to_int _ <=? 0); [rewrite H in Hinit; inversion Hinit|].
    destruct (negb _); [rewrite H in Hinit; inversion Hinit|].
    destruct H as (t3 & r0 & [H | (rc & _ & H)] & _ & _ & Hst & _);
      rewrite H in Hinit; inversion Hinit; subst w.
    intros r Hm Hs. cbn in Hm. inversion Hm; subst r0.
    destruct Hst as [(_ & E & _) | (_ & [(_ & _ & Hfd) | (E & _)])].
    + rewrite E in Hs. destruct Hs as [|[|]]; discriminate.
    + apply Hfd. exact Hok.
    + rewrite E in Hs. destruct Hs as [|[|]]; discriminate.
  - destruct (run_op_needs_instance hd h o w w' Hrun) as (r & Hm).
    destruct w as [t m]. cbn in Hm. subst m.
    destruct (run_op_post hd h o t r) as (w1 & Hst & r' & Hm' & Hl & Hfd & _).
    rewrite Hrun in Hst.
    destruct Hst as [[a Hst] | Hst]; inversion Hst; subst w1.
    intros r1 Hm1 Hs.
    destruct Hm' as [Hm'|[_ Hm']]; rewrite Hm' in Hm1; inversion Hm1; subst r1.
    destruct Hfd as [Hfd|Hfd];
      [|rewrite Hfd in Hs; destruct Hs as [|[|]]; discriminate].
    rewrite Hfd. apply (IH r eq_refl).
    revert Hl Hs. generalize (k_status (vbs_k r)) (k_status (vbs_k r')).
    intros s s' Hl Hs.
    inversion Hl; subst; auto; destruct Hs as [|[|]]; discriminate.
Qed.

(** C9.  On every world a device can reach: a detach with a null device
    argument returns with the world unchanged.  With the instance as
    argument and the session in [VIRTIO_DEV_STARTED], the detach stops the
    session, resets it, closes the control channel once and then frees the
    instance, in this order and with no other call; the released block
    holds the status [VIRTIO_DEV_INITIAL], zeroed records and the
    descriptor -1.  With any other status the detach frees the instance
    and makes no other call. *)
Theorem deinit_teardown (hd : headers) (h : host) (w : world) :
  headers_ok hd ->
  reachable hd h w ->
  virtio_rnd_deinit hd h ARG_NULL w = Ret tt w /\
  forall r,
    mem w = Allocated r ->
    let kfd := k_fd (vbs_k r) in
    if status_eqb (k_status (vbs_k r)) VIRTIO_DEV_STARTED then
      exists rc1 rc2 r',
        virtio_rnd_deinit hd h ARG_RND w =
          Ret tt {| trace := EvFree :: EvClose kfd :: EvKernelReset kfd rc2
                             :: EvKernelStop kfd rc1 :: trace w;
                    mem := Released r' |} /\
        k_status (vbs_k r') = VIRTIO_DEV_INITIAL /\
        k_fd (vbs_k r') = -1 /\
        k_dev (vbs_k r') = vbs_dev_info_zero hd /\
        k_vqs (vbs_k r') = vbs_vqs_info_zero hd
    else
      virtio_rnd_deinit hd h ARG_RND w =
        Ret tt {| trace := EvFree :: trace w; mem := Released r |}.
Proof.
  intros Hok Hr. split; [reflexivity|]. intros r Hm kfd.
  pose proof (reachable_session_inv hd h w Hok Hr r Hm) as Hinv.
  destruct w as [t m]. cbn in Hm. subst m.
  unfold virtio_rnd_deinit, sys_free, sys_close. run.
  destruct (status_eqb (k_status (vbs_k r)) VIRTIO_DEV_STARTED) eqn:Es; run;
    [|reflexivity].
  apply status_eqb_eq in Es.
  unfold virtio_rnd_kernel_stop, virtio_rnd_kernel_reset, vbs_kernel_stop,
    vbs_kernel_reset. run. fold kfd.
  replace (0 <=? kfd) with true
    by (symmetry; apply Z.leb_le; apply Hinv; right; left; exact Es).
  run. do 3 eexists. split; [reflexivity|]. cbn. auto.
Qed.

Lemma deinit_teardown_witness :
  headers_ok sample_headers /\
  reachable sample_headers sample_host started_world /\
  mem started_world = Allocated rnd_started /\
  status_eqb (k_status (vbs_k rnd_started)) VIRTIO_DEV_STARTED = true /\
  virtio_rnd_deinit sample_headers sample_host ARG_NULL started_world =
    Ret tt started_world /\
  (let kfd := k_fd (vbs_k rnd_started) in
   if status_eqb (k_status (vbs_k rnd_started)) VIRTIO_DEV_STARTED then
     exists rc1 rc2 r',
       virtio_rnd_deinit sample_headers sample_host ARG_RND started_world =
         Ret tt {| trace := EvFree :: EvClose kfd :: EvKernelReset kfd rc2
                            :: EvKernelStop kfd rc1 :: trace started_world;
                   mem := Released r' |} /\
       k_status (vbs_k r') = VIRTIO_DEV_INITIAL /\
       k_fd (vbs_k r') = -1 /\
       k_dev (vbs_k r') = vbs_dev_info_zero sample_headers /\
       k_vqs (vbs_k r') = vbs_vqs_info_zero sample_headers
   else
     virtio_rnd_deinit sample_headers sample_host ARG_RND started_world =
       Ret tt {| trace := EvFree :: trace started_world;
                 mem := Released rnd_started |}).
Proof.
  assert (Hok : headers_ok sample_headers) by (unfold headers_ok; simpl; lia).
  assert (Hreach : reachable sample_headers sample_host started_world).
  { apply (reach_op _ _ (OpSetStatus 4) attached_kernel).
    - apply (reach_init _ _ sample_dev (Some "kernel=on") []).
      vm_compute. reflexivity.
    - vm_compute. reflexivity. }
  assert (Hm : mem started_world = Allocated rnd_started)
    by (vm_compute; reflexivity).
  split; [exact Hok|]. split; [exact Hreach|]. split; [exact Hm|].
  split; [vm_compute; reflexivity|].
  destruct (deinit_teardown sample_headers sample_host started_world Hok Hreach)
    as [Hnull Hrnd].
  split; [exact Hnull|]. exact (Hrnd rnd_started Hm).
Defined.

(** * Further properties *)

(** ** The option string, token by token *)

Lemma span_delim_tokens (c : ascii) (s tok : string) (rest : option string) :
  span_delim (String c EmptyString) s = (tok, rest) ->
  tokens_of c s =
    tok :: match rest with Some s' => tokens_of c s' | None => [] end.
Proof.
  revert tok rest. induction s as [|x s IH]; intros tok rest; simpl.
  - intros H. inversion H; subst. reflexivity.
  - destruct (Ascii.eqb x c).
    + intros H. inversion H; subst. reflexivity.
    + destruct (span_delim (String c EmptyString) s) as [tok' rest'] eqn:E.
      intros H. inversion H; subst. rewrite (IH _ _ eq_refl). reflexivity.
Qed.

Lemma parse_opts_loop_tokens (fuel : nat) :
  forall s kstat,
    (S (String.length s) < fuel)%nat ->
    parse_opts_loop fuel (Some s) kstat =
      Some (if existsb token_enables (tokens_of "," s)
            then VIRTIO_DEV_PRE_INIT else kstat).
Proof.
  induction fuel as [|fuel IH]; intros s kstat Hlt; [lia|].
  cbn [parse_opts_loop strsep].
  destruct (span_delim "," s) as [tok rest] eqn:E.
  rewrite (span_delim_tokens _ _ _ _ E). cbn [existsb].
  unfold token_enables at 1.
  destruct (span_delim "=" tok) as [key val]. cbn [snd].
  destruct rest as [s'|].
  - rewrite IH by (apply span_delim_rest in E; lia).
    destruct val as [v|]; [|reflexivity].
    destruct (strncmp v "on" 2 =? 0); cbn [orb]; [|reflexivity].
    destruct (existsb token_enables (tokens_of "," s')); reflexivity.
  - destruct fuel; [lia|]. cbn [parse_opts_loop strsep existsb].
    rewrite orb_false_r.
    destruct val as [v|]; [|reflexivity].
    destruct (strncmp v "on" 2 =? 0); reflexivity.
Qed.

Lemma char_code_inj (a b : ascii) : char_code a = char_code b -> a = b.
Proof.
  unfold char_code. intros H. apply N2Z.inj in H.
  rewrite <- (ascii_N_embedding a), <- (ascii_N_embedding b), H. reflexivity.
Qed.

Lemma strncmp_on (v : string) :
  (strncmp v "on" 2 =? 0) = true <-> exists rest, v = "on" ++ rest.
Proof.
  split.
  - intros H. apply Z.eqb_eq in H.
    destruct v as [|a v]; [discriminate|]. cbn [strncmp] in H. revert H.
    destruct (Ascii.eqb_spec a "o"%char) as [->|Ha].
    + destruct v as [|b v]; [discriminate|]. cbn [strncmp].
      destruct (Ascii.eqb_spec b "n"%char) as [->|Hb]; intros H.
      * exists v. reflexivity.
      * exfalso. apply Hb. apply char_code_inj.
        change (char_code "n"%char) with 110 in *. lia.
    + intros H. exfalso. apply Ha. apply char_code_inj.
      change (char_code "o"%char) with 111 in *. lia.
  - intros [rest ->]. destruct rest; reflexivity.
Qed.

Lemma span_delim_eq_some (tok key value : string) :
  span_delim "=" tok = (key, Some value) <->
  has_char "="%char key = false /\ tok = key ++ "=" ++ value.
Proof.
  revert key. induction tok as [|c tok IH]; intros key; cbn [span_delim is_delim].
  - split; [discriminate|]. intros [_ H]. destruct key; discriminate.
  - destruct (Ascii.eqb_spec c "="%char) as [->|Hc].
    + split.
      * intros H. inversion H; subst. split; reflexivity.
      * intros [Hk H]. destruct key as [|k key].
        -- cbn in H. inversion H; subst. reflexivity.
        -- cbn in H. inversion H; subst. cbn in Hk. discriminate.
    + destruct (span_delim "=" tok) as [key' rest'] eqn:E. split.
      * intros H. inversion H; subst.
        destruct (proj1 (IH key') eq_refl) as [Hk ->].
        split; [|reflexivity]. cbn.
        destruct (Ascii.eqb_spec c "="%char); [contradiction|exact Hk].
      * intros [Hk H]. destruct key as [|k key].
        -- cbn in H. inversion H; subst. contradiction.
        -- cbn in H. inversion H; subst. cbn in Hk.
           destruct (Ascii.eqb k "="%char); [discriminate|].
           pose proof (proj2 (IH key) (conj Hk eq_refl)) as Heq.
           inversion Heq; subst. reflexivity.
Qed.

Lemma token_enables_iff (tok : string) :
  token_enables tok = true <->
  exists key rest, has_char "="%char key = false /\ tok = key ++ "=on" ++ rest.
Proof.
  unfold token_enables.
  destruct (span_delim "=" tok) as [key val] eqn:E. cbn [snd]. split.
  - destruct val as [v|]; [|discriminate]. intros H.
    apply strncmp_on in H. destruct H as [rest ->].
    apply span_delim_eq_some in E. destruct E as [Hk ->].
    exists key, rest. split; [exact Hk|reflexivity].
  - intros (key' & rest & Hk & ->).
    assert (E' : span_delim "=" (key' ++ "=on" ++ rest) =
                 (key', Some ("on" ++ rest)))
      by (apply span_delim_eq_some; split; [exact Hk|reflexivity]).
    rewrite E' in E. inversion E; subst.
    apply strncmp_on. exists rest. reflexivity.
Qed.

(** X1.  The option loop ends for every option string, with
    [VIRTIO_DEV_PRE_INIT] or [VIRTIO_DEV_INITIAL].  It gives
    [VIRTIO_DEV_PRE_INIT] exactly when one of the comma-separated tokens
    reads key "=on" rest, with any key free of ['='] and any rest; the
    place of that token in the string and the tokens around it play no
    part, and no later token switches the offload off again. *)
Theorem parse_opts_by_tokens (s : string) :
  parse_opts (Some s) =
    Some (if existsb token_enables (tokens_of "," s)
          then VIRTIO_DEV_PRE_INIT else VIRTIO_DEV_INITIAL) /\
  (parse_opts (Some s) = Some VIRTIO_DEV_PRE_INIT <->
   exists tok key rest,
     In tok (tokens_of "," s) /\
     has_char "="%char key = false /\
     tok = key ++ "=on" ++ rest).
Proof.
  assert (E : parse_opts (Some s) =
              Some (if existsb token_enables (tokens_of "," s)
                    then VIRTIO_DEV_PRE_INIT else VIRTIO_DEV_INITIAL))
    by (apply parse_opts_loop_tokens; simpl; lia).
  split; [exact E|]. rewrite E. split.
  - destruct (existsb token_enables (tokens_of "," s)) eqn:Ex; [|discriminate].
    intros _. apply existsb_exists in Ex. destruct Ex as (tok & Hin & Hen).
    apply token_enables_iff in Hen. destruct Hen as (key & rest & Hk & ->).
    exists (key ++ "=on" ++ rest), key, rest. auto.
  - intros (tok & key & rest & Hin & Hk & ->).
    replace (existsb token_enables (tokens_of "," s)) with true; [reflexivity|].
    symmetry. apply existsb_exists. exists (key ++ "=on" ++ rest).
    split; [exact Hin|]. apply token_enables_iff. eauto.
Qed.

Example tokens_sample :
  tokens_of "," "a=1,kernel=on,,x" = ["a=1"; "kernel=on"; ""; "x"] /\
  parse_opts (Some "kernel=on,kernel=off") = Some VIRTIO_DEV_PRE_INIT.
Proof. split; reflexivity. Qed.

(** ** The records handed to VBS-K *)

(** X2.  [virtio_rnd_kernel_vq_set] compares the queue count and the index
    as unsigned 32-bit numbers: it returns a negative code exactly when the
    count is at most the index, and then it leaves the per-queue records as
    they were; otherwise it returns [VIRTIO_SUCCESS]. *)
Theorem kernel_vq_set_invalid_index (hd : headers) (kvqs : vbs_vqs_info)
    (nvq idx a b c d e : Z) :
  headers_ok hd ->
  let res := virtio_rnd_kernel_vq_set hd kvqs nvq idx a b c d e in
  (fst res < 0 <-> to_uint nvq <= to_uint idx) /\
  (fst res < 0 -> snd res = kvqs) /\
  (~ fst res < 0 -> fst res = VIRTIO_SUCCESS hd).
Proof.
  intros (Hs & _ & _ & Hg) res. subst res. unfold virtio_rnd_kernel_vq_set.
  destruct (Z.leb_spec (to_uint nvq) (to_uint idx)) as [Hle|Hgt]; cbn [fst snd].
  - split; [split; [intros _; exact Hle|intros _; lia]|].
    split; [reflexivity|intros Hn; lia].
  - split; [split; [intros Hn; lia|intros Hle; lia]|].
    split; [intros Hn; lia|reflexivity].
Qed.

Lemma kernel_vq_set_invalid_index_witness :
  let res :=
    virtio_rnd_kernel_vq_set sample_headers (vbs_vqs_info_zero sample_headers)
      1 (-1) 64 5 0 0 0 in
  (fst res < 0 <-> to_uint 1 <= to_uint (-1)) /\
  (fst res < 0 -> snd res = vbs_vqs_info_zero sample_headers) /\
  (~ fst res < 0 -> fst res = VIRTIO_SUCCESS sample_headers).
Proof.
  apply (kernel_vq_set_invalid_index sample_headers).
  unfold headers_ok. simpl. lia.
Defined.

(** X3.  With an index below the queue count and inside the array,
    [virtio_rnd_kernel_vq_set] succeeds: it stores the queue count, puts at
    the index a record of the five values cut to the widths of their
    parameters (16, 32, 16, 64 and 32 bits), and leaves every other entry
    and the length of the array as they were. *)
Theorem kernel_vq_set_stores (hd : headers) (kvqs : vbs_vqs_info)
    (nvq idx a b c d e : Z) :
  to_uint idx < to_uint nvq ->
  (Z.to_nat (to_uint idx) < length (kvqs_vqs kvqs))%nat ->
  let res := virtio_rnd_kernel_vq_set hd kvqs nvq idx a b c d e in
  fst res = VIRTIO_SUCCESS hd /\
  kvqs_nvq (snd res) = to_uint nvq /\
  length (kvqs_vqs (snd res)) = length (kvqs_vqs kvqs) /\
  kvqs_vqs (snd res) !! Z.to_nat (to_uint idx) =
    Some {| kq_qsize := to_uint16 a; kq_pfn := to_uint32 b;
            kq_msix_idx := to_uint16 c; kq_msix_addr := to_uint64 d;
            kq_msix_data := to_uint32 e |} /\
  (forall j : nat,
     j <> Z.to_nat (to_uint idx) ->
     kvqs_vqs (snd res) !! j = kvqs_vqs kvqs !! j).
Proof.
  intros Hlt Hlen res. subst res. unfold virtio_rnd_kernel_vq_set.
  replace (to_uint nvq <=? to_uint idx) with false
    by (symmetry; apply Z.leb_gt; exact Hlt).
  cbn [fst snd kvqs_nvq kvqs_vqs].
  split; [reflexivity|]. split; [reflexivity|].
  split; [apply length_insert|].
  split; [apply list_lookup_insert_eq; exact Hlen|].
  intros j Hj. apply list_lookup_insert_ne. congruence.
Qed.

Lemma kernel_vq_set_stores_witness :
  let res :=
    virtio_rnd_kernel_vq_set sample_headers (vbs_vqs_info_zero sample_headers)
      3 2 65600 5 65535 4276092928 33 in
  fst res = VIRTIO_SUCCESS sample_headers /\
  kvqs_nvq (snd res) = to_uint 3 /\
  length (kvqs_vqs (snd res)) =
    length (kvqs_vqs (vbs_vqs_info_zero sample_headers)) /\
  kvqs_vqs (snd res) !! Z.to_nat (to_uint 2) =
    Some {| kq_qsize := to_uint16 65600; kq_pfn := to_uint32 5;
            kq_msix_idx := to_uint16 65535; kq_msix_addr := to_uint64 4276092928;
            kq_msix_data := to_uint32 33 |} /\
  (forall j : nat,
     j <> Z.to_nat (to_uint 2) ->
     kvqs_vqs (snd res) !! j =
       kvqs_vqs (vbs_vqs_info_zero sample_headers) !! j).
Proof.
  apply (kernel_vq_set_stores sample_headers).
  - vm_compute. reflexivity.
  - vm_compute. lia.
Defined.

Lemma strncpy_length (src : string) (n : nat) : length (strncpy src n) = n.
Proof.
  unfold strncpy. rewrite length_take, length_app, length_replicate. lia.
Qed.

Lemma cstring_take_padded (src : string) :
  forall n m,
    has_char NUL src = false ->
    (String.length src < n)%nat ->
    (n <= String.length src + m)%nat ->
    cstring (take n (list_ascii_of_string src ++ replicate m NUL)) = src.
Proof.
  induction src as [|c src IH]; intros n m Hn Hlt Hle; simpl in Hlt, Hle.
  - destruct n; [lia|]. destruct m; [lia|]. reflexivity.
  - destruct n; [lia|]. cbn in Hn |- *.
    destruct (Ascii.eqb c NUL); [discriminate|].
    f_equal. apply IH; [exact Hn|lia|lia].
Qed.

Lemma cstring_strncpy (src : string) (n : nat) :
  has_char NUL src = false ->
  (String.length src < n)%nat ->
  cstring (strncpy src n) = src.
Proof.
  intros Hn Hlt. apply cstring_take_padded; [exact Hn|exact Hlt|lia].
Qed.

Lemma list_ascii_length (s : string) :
  length (list_ascii_of_string s) = String.length s.
Proof. induction s as [|c s IH]; simpl; [reflexivity|]. rewrite IH. reflexivity. Qed.

Lemma list_ascii_no_nul (s : string) :
  has_char NUL s = false -> Forall (fun c => c <> NUL) (list_ascii_of_string s).
Proof.
  induction s as [|c s IH]; simpl; intros H; [constructor|].
  destruct (Ascii.eqb_spec c NUL) as [|Hc]; [discriminate|].
  constructor; [exact Hc|apply IH; exact H].
Qed.

(** X4.  [virtio_rnd_kernel_dev_set] always succeeds and fills the name
    array to its full length [VBS_NAME_LEN], whatever the record held
    before.  A name shorter than the array reads back unchanged (the rest
    of the array is zero bytes); a name of [VBS_NAME_LEN] bytes or more is
    cut to the array and the array holds no terminating zero byte. *)
Theorem kernel_dev_set_name (hd : headers) (kdev : vbs_dev_info)
    (name : string) (vmid nvq feature pio_start pio_len : Z) :
  has_char NUL name = false ->
  let res :=
    virtio_rnd_kernel_dev_set hd kdev name vmid nvq feature pio_start pio_len in
  fst res = VIRTIO_SUCCESS hd /\
  length (kd_name (snd res)) = VBS_NAME_LEN hd /\
  ((String.length name < VBS_NAME_LEN hd)%nat ->
   cstring (kd_name (snd res)) = name) /\
  ((VBS_NAME_LEN hd <= String.length name)%nat ->
   kd_name (snd res) = take (VBS_NAME_LEN hd) (list_ascii_of_string name) /\
   Forall (fun c => c <> NUL) (kd_name (snd res))) /\
  snd res =
    snd (virtio_rnd_kernel_dev_set hd (vbs_dev_info_zero hd) name vmid nvq
           feature pio_start pio_len).
Proof.
  intros Hn res. subst res. cbn [virtio_rnd_kernel_dev_set fst snd kd_name].
  split; [reflexivity|]. split; [apply strncpy_length|].
  split; [intros Hlt; apply cstring_strncpy; assumption|].
  split; [|reflexivity]. intros Hle.
  assert (E : strncpy name (VBS_NAME_LEN hd) =
              take (VBS_NAME_LEN hd) (list_ascii_of_string name)).
  { unfold strncpy. rewrite take_app_le; [reflexivity|].
    rewrite list_ascii_length. exact Hle. }
  rewrite E. split; [reflexivity|].
  apply Forall_take. apply list_ascii_no_nul. exact Hn.
Qed.

Lemma kernel_dev_set_name_witness :
  let res :=
    virtio_rnd_kernel_dev_set sample_headers (vbs_dev_info_zero sample_headers)
      "virtio_rnd" 1 1 0 8208 2 in
  fst res = VIRTIO_SUCCESS sample_headers /\
  length (kd_name (snd res)) = VBS_NAME_LEN sample_headers /\
  ((String.length "virtio_rnd" < VBS_NAME_LEN sample_headers)%nat ->
   cstring (kd_name (snd res)) = "virtio_rnd") /\
  ((VBS_NAME_LEN sample_headers <= String.length "virtio_rnd")%nat ->
   kd_name (snd res) =
     take (VBS_NAME_LEN sample_headers) (list_ascii_of_string "virtio_rnd") /\
   Forall (fun c => c <> NUL) (kd_name (snd res))) /\
  snd res =
    snd (virtio_rnd_kernel_dev_set sample_headers
           (vbs_dev_info_zero sample_headers) "virtio_rnd" 1 1 0 8208 2).
Proof.
  apply (kernel_dev_set_name sample_headers). reflexivity.
Defined.

(** The loop of the status callback for one queue. *)
Lemma kernel_vq_loop_one (hd : headers) (q : virtio_vq_info) (d : pci_vdev)
    (kvqs : vbs_vqs_info) :
  0 <= VIRTIO_SUCCESS hd ->
  let vector := negb (msix_idx q =? VIRTIO_MSI_NO_VECTOR hd) in
  kernel_vq_loop hd 1 0 1 q d 0 0 kvqs =
    (true,
     {| kvqs_nvq := 1;
        kvqs_vqs :=
          <[0%nat :=
              {| kq_qsize := to_uint16 (qsize q);
                 kq_pfn := to_uint32 (pfn q);
                 kq_msix_idx := to_uint16 (msix_idx q);
                 kq_msix_addr :=
                   to_uint64 (if vector
                              then mte_addr (pd_msix_table d (msix_idx q))
                              else 0);
                 kq_msix_data :=
                   to_uint32 (if vector
                              then mte_msg_data (pd_msix_table d (msix_idx q))
                              else 0) |}]> (kvqs_vqs kvqs) |}).
Proof.
  intros Hs vector. subst vector. cbn [kernel_vq_loop].
  unfold virtio_rnd_kernel_vq_set.
  change (to_uint 1 <=? to_uint 0) with false.
  change (to_uint 1) with 1. change (Z.to_nat (to_uint 0)) with 0%nat.
  destruct (negb (msix_idx q =? VIRTIO_MSI_NO_VECTOR hd));
    rewrite (success_ltb _ Hs); reflexivity.
Qed.

(** X5.  What the status callback hands to the backend when the bound
    table registers one queue (as both tables of the file do): the device
    record holds the name of the table, the VM id, the queue count 1, the
    negotiated capabilities and the two-byte port range at offset 16 of
    BAR 0; the record of queue 0 holds the size, frame number and MSI-X
    index of the queue, with the address and data of its MSI-X table entry,
    or zero for both when the queue has no vector.  The same records are
    kept in the instance, and nothing else of the instance changes but the
    status, which follows the sign of the result of the start. *)
Theorem k_set_status_records (hd : headers) (h : host) (t : list event)
    (r : virtio_rnd) (ops : virtio_ops) (d : pci_vdev) (status : Z) :
  headers_ok hd ->
  vops (base r) = Some ops ->
  vo_nvq ops = 1 ->
  dev (base r) = Some d ->
  k_status (vbs_k r) = VIRTIO_DEV_INIT_SUCCESS ->
  driver_ok hd status ->
  let q := vq r in
  let vector := negb (msix_idx q =? VIRTIO_MSI_NO_VECTOR hd) in
  let kdev :=
    {| kd_name := strncpy (vo_name ops) (VBS_NAME_LEN hd);
       kd_vmid := pd_vmid d;
       kd_nvq := 1;
       kd_negotiated_features := to_uint32 (negotiated_caps (base r));
       kd_pio_range_start := to_uint64 (pd_bar0_addr d + 16);
       kd_pio_range_len := 2 |} in
  let entry :=
    {| kq_qsize := to_uint16 (qsize q);
       kq_pfn := to_uint32 (pfn q);
       kq_msix_idx := to_uint16 (msix_idx q);
       kq_msix_addr :=
         to_uint64 (if vector then mte_addr (pd_msix_table d (msix_idx q))
                    else 0);
       kq_msix_data :=
         to_uint32 (if vector then mte_msg_data (pd_msix_table d (msix_idx q))
                    else 0) |} in
  let kvqs :=
    {| kvqs_nvq := 1;
       kvqs_vqs := <[0%nat := entry]> (kvqs_vqs (k_vqs (vbs_k r))) |} in
  exists rc r',
    virtio_rnd_k_set_status hd h status {| trace := t; mem := Allocated r |} =
      Ret tt {| trace := [EvKernelStart (k_fd (vbs_k r)) kdev kvqs rc] ++ t;
                mem := Allocated r' |} /\
    k_dev (vbs_k r') = kdev /\
    k_vqs (vbs_k r') = kvqs /\
    k_fd (vbs_k r') = k_fd (vbs_k r) /\
    base r' = base r /\ vq r' = vq r /\ fd r' = fd r /\
    mtx r' = mtx r /\ cfg r' = cfg r /\
    rc = h_kernel_start h t (k_fd (vbs_k r)) kdev kvqs /\
    k_status (vbs_k r') =
      (if rc <? 0 then VIRTIO_DEV_START_FAILED else VIRTIO_DEV_STARTED).
Proof.
  intros (Hs & _ & Hstart & _) Hops Hnvq Hdev Hst Hbit q vector kdev entry kvqs.
  unfold virtio_rnd_k_set_status. run.
  rewrite Hops, Hdev, Hst, Hnvq. cbn.
  destruct (Z.eqb_spec (Z.land (to_uint64 status) (VIRTIO_CR_STATUS_DRIVER_OK hd)) 0)
    as [Eb|Eb]; [contradiction|].
  subst kvqs entry kdev vector q.
  change (Z.to_nat 1) with 1%nat.
  rewrite (kernel_vq_loop_one hd (vq r) d (k_vqs (vbs_k r)) Hs).
  change (to_uint64 2) with 2.
  cbn. unfold virtio_rnd_kernel_start, vbs_kernel_start. run.
  match goal with
  | |- context [h_kernel_start ?a ?b ?c ?e ?f <? 0] =>
      destruct (h_kernel_start a b c e f <? 0) eqn:Erc
  end; cbn;
    rewrite ?(neg_error_ltb _ Hstart), ?(success_ltb _ Hs); cbn;
    do 2 eexists; (split; [reflexivity|]); cbn; rewrite Erc;
    repeat split; reflexivity.
Qed.

Lemma k_set_status_records_witness :
  exists kdev kvqs rc r',
    virtio_rnd_k_set_status sample_headers sample_host 4
      {| trace := []; mem := Allocated rnd_init_success |} =
      Ret tt {| trace := [EvKernelStart 4 kdev kvqs rc];
                mem := Allocated r' |} /\
    cstring (kd_name kdev) = "virtio_rnd" /\
    kd_pio_range_start kdev = 8208 /\
    kvqs_vqs kvqs !! 0%nat =
      Some {| kq_qsize := 64; kq_pfn := 0; kq_msix_idx := 0;
              kq_msix_addr := 4276092928; kq_msix_data := 33 |} /\
    k_dev (vbs_k r') = kdev /\ k_vqs (vbs_k r') = kvqs.
Proof.
  assert (Hok : headers_ok sample_headers) by (unfold headers_ok; simpl; lia).
  assert (Hbit : driver_ok sample_headers 4) by (vm_compute; discriminate).
  destruct (k_set_status_records sample_headers sample_host []
              rnd_init_success virtio_rnd_ops_k sample_dev 4 Hok eq_refl
              eq_refl eq_refl eq_refl Hbit)
    as (rc & r' & Hrun & Hd & Hv & _).
  do 2 eexists. exists rc, r'. split; [exact Hrun|].
  split; [vm_compute; reflexivity|]. split; [vm_compute; reflexivity|].
  split; [vm_compute; reflexivity|]. split; assumption.
Defined.

(** ** Opening the control channel *)

(** X6.  [virtio_rnd_kernel_init] opens the control channel only when the
    descriptor field is still 0: with any other value it aborts before it
    calls [open].  From 0 it opens /dev/vbs_rng once and keeps the result in
    the field; a failed open returns a negative code and leaves both
    records as they were, a successful one zeroes both records.  So a
    second call aborts without a second [open], unless the first [open]
    returned the descriptor 0. *)
Theorem kernel_init_opens_once (hd : headers) (h : host) (t : list event)
    (r : virtio_rnd) :
  headers_ok hd ->
  let w := {| trace := t; mem := Allocated r |} in
  let kfd := h_open h t "/dev/vbs_rng" in
  (k_fd (vbs_k r) <> 0 -> virtio_rnd_kernel_init hd h w = Abort w) /\
  (k_fd (vbs_k r) = 0 ->
   exists rc r1,
     let w1 := {| trace := [EvOpen "/dev/vbs_rng" kfd] ++ t;
                  mem := Allocated r1 |} in
     virtio_rnd_kernel_init hd h w = Ret rc w1 /\
     k_fd (vbs_k r1) = kfd /\
     k_status (vbs_k r1) = k_status (vbs_k r) /\
     (rc < 0 <-> kfd < 0) /\
     (kfd < 0 ->
      k_dev (vbs_k r1) = k_dev (vbs_k r) /\ k_vqs (vbs_k r1) = k_vqs (vbs_k r)) /\
     (0 <= kfd ->
      rc = VIRTIO_SUCCESS hd /\
      k_dev (vbs_k r1) = vbs_dev_info_zero hd /\
      k_vqs (vbs_k r1) = vbs_vqs_info_zero hd) /\
     (kfd <> 0 -> virtio_rnd_kernel_init hd h w1 = Abort w1)).
Proof.
  intros (Hs & Hopen & _) w kfd. subst w.
  assert (Habort : forall t0 r0, k_fd (vbs_k r0) <> 0 ->
            virtio_rnd_kernel_init hd h {| trace := t0; mem := Allocated r0 |} =
            Abort {| trace := t0; mem := Allocated r0 |}).
  { intros t0 r0 Hne. unfold virtio_rnd_kernel_init. run.
    destruct (Z.eqb_spec (k_fd (vbs_k r0)) 0); [contradiction|reflexivity]. }
  split; [apply Habort|].
  intros Hz.
  assert (Hrun : exists rc r1,
            virtio_rnd_kernel_init hd h {| trace := t; mem := Allocated r |} =
              Ret rc {| trace := [EvOpen "/dev/vbs_rng" kfd] ++ t;
                        mem := Allocated r1 |} /\
            k_fd (vbs_k r1) = kfd /\
            k_status (vbs_k r1) = k_status (vbs_k r) /\
            (rc < 0 <-> kfd < 0) /\
            (kfd < 0 ->
             k_dev (vbs_k r1) = k_dev (vbs_k r) /\
             k_vqs (vbs_k r1) = k_vqs (vbs_k r)) /\
            (0 <= kfd ->
             rc = VIRTIO_SUCCESS hd /\
             k_dev (vbs_k r1) = vbs_dev_info_zero hd /\
             k_vqs (vbs_k r1) = vbs_vqs_info_zero hd)).
  { unfold virtio_rnd_kernel_init, sys_open. run. rewrite Hz. cbn.
    fold kfd. destruct (Z.ltb_spec kfd 0) as [Hneg|Hpos]; run.
    - do 2 eexists. split; [reflexivity|]. cbn.
      split; [reflexivity|]. split; [reflexivity|].
      split; [split; intros; lia|]. split; [auto|]. intros; lia.
    - do 2 eexists. split; [reflexivity|]. cbn.
      split; [reflexivity|]. split; [reflexivity|].
      split; [split; intros; lia|]. split; [intros; lia|]. auto. }
  destruct Hrun as (rc & r1 & Hrun & Hfd & Hst & Hrc & Hneg & Hpos).
  exists rc, r1. cbn zeta.
  split; [exact Hrun|]. split; [exact Hfd|]. split; [exact Hst|].
  split; [exact Hrc|]. split; [exact Hneg|]. split; [exact Hpos|].
  intros Hne. apply Habort. rewrite Hfd. exact Hne.
Qed.

Lemma kernel_init_opens_once_witness :
  exists rc r1,
    virtio_rnd_kernel_init sample_headers sample_host
      {| trace := []; mem := Allocated rnd_user |} =
      Ret rc {| trace := [EvOpen "/dev/vbs_rng" 4]; mem := Allocated r1 |} /\
    k_fd (vbs_k r1) = 4 /\
    virtio_rnd_kernel_init sample_headers sample_host
      {| trace := [EvOpen "/dev/vbs_rng" 4]; mem := Allocated r1 |} =
      Abort {| trace := [EvOpen "/dev/vbs_rng" 4]; mem := Allocated r1 |}.
Proof.
  assert (Hok : headers_ok sample_headers) by (unfold headers_ok; simpl; lia).
  destruct (kernel_init_opens_once sample_headers sample_host [] rnd_user Hok)
    as [_ H].
  destruct (H eq_refl) as (rc & r1 & Hrun & Hfd & _ & _ & _ & _ & Hagain).
  exists rc, r1. split; [exact Hrun|]. split; [exact Hfd|].
  apply Hagain. vm_compute. discriminate.
Defined.

(** ** Logs and descriptors *)

Lemma extends_app (P : event -> Prop) (t t' : list event) :
  extends P t t' <-> exists new, t' = (new ++ t)%list /\ Forall P new.
Proof.
  split.
  - induction 1 as [|e t' He _ (new & -> & Hn)].
    + exists []. split; [reflexivity|constructor].
    + exists (e :: new). split; [reflexivity|constructor; assumption].
  - intros (new & -> & Hn). induction Hn as [|e new He _ IH]; cbn.
    + constructor.
    + constructor; assumption.
Qed.

Lemma extends_trans (P : event -> Prop) (t t1 t2 : list event) :
  extends P t t1 -> extends P t1 t2 -> extends P t t2.
Proof. intros H1 H2. induction H2; [exact H1|constructor; assumption]. Qed.

Lemma extends_weaken (P Q : event -> Prop) (t t' : list event) :
  (forall e, P e -> Q e) -> extends P t t' -> extends Q t t'.
Proof. intros HPQ H. induction H; constructor; auto. Qed.

(** A call that is no [close] keeps the open descriptors open. *)
Lemma open_fds_keep (x : Z) (e : event) (t : list event) :
  is_close e = false -> In x (open_fds t) -> In x (open_fds (e :: t)).
Proof.
  destruct e; cbn; try discriminate; auto.
  intros _ H. destruct (0 <=? _); [right|]; exact H.
Qed.

Lemma open_fds_open (path : string) (x : Z) (t : list event) :
  0 <= x -> In x (open_fds (EvOpen path x :: t)).
Proof.
  intros H. cbn. replace (0 <=? x) with true by (symmetry; apply Z.leb_le; lia).
  left. reflexivity.
Qed.

Lemma open_fds_extends (x : Z) (t t' : list event) :
  extends (fun e => is_close e = false) t t' ->
  In x (open_fds t) -> In x (open_fds t').
Proof.
  intros H Hin. induction H; [exact Hin|].
  apply open_fds_keep; assumption.
Qed.

(** ** What the attach leaves behind *)

(** Every run of [virtio_rnd_init], by its outcome. *)
Lemma virtio_rnd_init_outcome (hd : headers) (h : host) (d : pci_vdev)
    (opts : option string) (t : list event) (m0 : block) :
  headers_ok hd ->
  let w := {| trace := t; mem := m0 |} in
  let fd' := h_open h t "/dev/random" in
  let out := virtio_rnd_init hd h d opts w in
  extends (fun e => is_close e = false) t (trace (final_world out w)) /\
  (0 <= fd' -> In fd' (open_fds (trace (final_world out w)))) /\
  match out with
  | Ret rc w' =>
      rc = 0 /\
      (exists r, mem w' = Allocated r /\ attached_instance hd h d opts fd' r)
      \/
      rc = -1 /\ (mem w' = m0 \/ exists r, mem w' = Released r)
  | Abort w' => fd' < 0 /\ mem w' = m0
  | OutOfFuel => False
  end.
Proof.
  intros (Hs & Hopen & _) w fd' out.
  assert (H :
    extends (fun e => is_close e = false) (EvOpen "/dev/random" fd' :: t)
      (trace (final_world out w)) /\
    match out with
    | Ret rc w' =>
        rc = 0 /\
        (exists r, mem w' = Allocated r /\ attached_instance hd h d opts fd' r)
        \/
        rc = -1 /\ (mem w' = m0 \/ exists r, mem w' = Released r)
    | Abort w' => fd' < 0 /\ mem w' = m0
    | OutOfFuel => False
    end).
  { subst out w.
    destruct (parse_opts_total opts) as (kstat & Hk & Hor).
    unfold virtio_rnd_init. rewrite Hk. unfold sys_open, sys_read. run.
    fold fd'.
    destruct (Z.leb_spec 0 fd') as [Hfd|Hfd]; cbn;
      [|init_log; split; [lia|reflexivity]].
    destruct (to_int _ <=? 0); cbn;
      [init_log; right; split; [reflexivity|left; reflexivity]|].
    unfold sys_calloc. run.
    destruct (h_calloc h _); cbn;
      [|init_log; right; split; [reflexivity|left; reflexivity]].
    unfold virtio_linkup, virtio_rnd_kernel_init, pci_set_cfgdata,
      virtio_interrupt_init, virtio_set_io_bar, sys_free, sys_open.
    destruct Hor as [-> | ->]; run.
    - init_interrupt h; init_log;
        [init_instance|right; split; [reflexivity|right; eexists; reflexivity]].
    - match goal with
      | |- context [h_open h ?tt "/dev/vbs_rng" <? 0] =>
          destruct (Z.ltb_spec (h_open h tt "/dev/vbs_rng") 0) as [Eo|Eo]
      end; run.
      + rewrite (neg_error_ltb _ Hopen). run.
        init_interrupt h; init_log;
          [init_instance|right; split; [reflexivity|right; eexists; reflexivity]].
      + rewrite (success_ltb _ Hs). run.
        init_interrupt h; init_log;
          [init_instance|right; split; [reflexivity|right; eexists; reflexivity]]. }
  destruct H as [Hext Hout]. split; [|split; [|exact Hout]].
  - eapply extends_trans; [|exact Hext].
    apply ext_cons; [reflexivity|apply ext_refl].
  - intros Hfd. eapply open_fds_extends; [exact Hext|].
    apply open_fds_open. exact Hfd.
Qed.



(** X8.  [virtio_rnd_init] never closes a descriptor: whatever its outcome
    (0, -1 after a probe without data, a failed allocation or a failed
    interrupt registration, or an abort), its calls hold no [close], and
    the descriptor of /dev/random, once opened, is still open at the
    end. *)
Theorem init_never_closes (hd : headers) (h : host) (d : pci_vdev)
    (opts : option string) (t : list event) (m0 : block) :
  headers_ok hd ->
  let w := {| trace := t; mem := m0 |} in
  let fd' := h_open h t "/dev/random" in
  let w' := final_world (virtio_rnd_init hd h d opts w) w in
  (exists new,
     trace w' = (new ++ t)%list /\ Forall (fun e => is_close e = false) new) /\
  (0 <= fd' -> In fd' (open_fds (trace w'))).
Proof.
  intros Hok w fd' w'.
  destruct (virtio_rnd_init_outcome hd h d opts t m0 Hok) as (Hext & Hin & _).
  split; [apply extends_app; exact Hext|exact Hin].
Qed.

Lemma init_never_closes_witness :
  let w' :=
    final_world
      (virtio_rnd_init sample_headers host_unseeded sample_dev (Some "") world0)
      world0 in
  (exists new,
     trace w' = (new ++ [])%list /\ Forall (fun e => is_close e = false) new) /\
  (0 <= h_open host_unseeded [] "/dev/random" -> In 3 (open_fds (trace w'))).
Proof.
  apply (init_never_closes sample_headers host_unseeded sample_dev (Some "")
           [] Unallocated).
  unfold headers_ok. simpl. lia.
Defined.

(** ** The calls of each operation *)

Lemma settles_unique {A} (out : outcome A) (w1 w2 : world) :
  settles out w1 -> settles out w2 -> w1 = w2.
Proof.
  intros [[a ->] | ->] [[b H] | H]; inversion H; reflexivity.
Qed.

(** The loop of the notify handler only reads from the entropy descriptor,
    and changes nothing in the instance but the queue. *)
Lemma notify_loop_footprint (h : host) (fuel : nat) :
  forall t r,
    (length (vq_avail (vq r)) < fuel)%nat ->
    exists w' r',
      settles (notify_loop h fuel {| trace := t; mem := Allocated r |}) w' /\
      mem w' = Allocated r' /\
      extends (fun e => exists n k, e = EvRead (fd r) n k) t (trace w') /\
      fd r' = fd r /\ vbs_k r' = vbs_k r /\ base r' = base r.
Proof.
  induction fuel as [|fuel IH]; intros t r Hlt; [lia|].
  cbn [notify_loop]. unfold vq_has_descs, vq_getchain, sys_read, vq_relchain.
  destruct r as [b [qs pf mi [|c rest] us ba] m cf f k]; run.
  - do 2 eexists. split; [left; eexists; reflexivity|]. cbn.
    split; [reflexivity|]. split; [apply ext_refl|]. auto.
  - destruct (0 <? to_int (h_read h t f (iov_len (ch_seg c)))); run.
    + match goal with
      | |- context [notify_loop h fuel {| trace := ?t1; mem := Allocated ?r1 |}] =>
          destruct (IH t1 r1) as (w' & r' & Hs & Hm & He & Hf & Hk & Hb)
      end.
      { cbn in *. lia. }
      exists w', r'. cbn in *. split; [exact Hs|]. split; [exact Hm|].
      split; [|auto].
      eapply extends_trans; [|exact He].
      apply ext_cons; [eauto|apply ext_refl].
    + do 2 eexists. split; [right; reflexivity|]. cbn.
      split; [reflexivity|]. split; [|auto].
      apply ext_cons; [eauto|apply ext_refl].
Qed.

Lemma notify_footprint (h : host) (t : list event) (r : virtio_rnd) :
  exists w' r',
    settles (virtio_rnd_notify h {| trace := t; mem := Allocated r |}) w' /\
    mem w' = Allocated r' /\
    extends (notify_emits r) t (trace w') /\
    fd r' = fd r /\ vbs_k r' = vbs_k r /\ base r' = base r.
Proof.
  unfold virtio_rnd_notify. unfold bind at 1. cbn [get_rnd mem].
  destruct (Z.ltb_spec (fd r) 0) as [Hneg|Hpos].
  - unfold vq_endchains. run. do 2 eexists.
    split; [left; eexists; reflexivity|]. cbn. split; [reflexivity|].
    split; [apply ext_cons; [exact I|apply ext_refl]|]. auto.
  - unfold bind at 1.
    destruct (notify_loop_footprint h (S (length (vq_avail (vq r)))) t r)
      as ([t1 m1] & r1 & Hs & Hm & He & Hf & Hk & Hb); [lia|].
    cbn in Hm. subst m1. cbn in He.
    assert (He' : extends (notify_emits r) t t1).
    { eapply extends_weaken; [|exact He].
      intros e (n & k & ->). cbn. split; [reflexivity|exact Hpos]. }
    destruct Hs as [[[] ->] | ->].
    + unfold vq_endchains. run. do 2 eexists.
      split; [left; eexists; reflexivity|]. cbn. split; [reflexivity|].
      split; [apply ext_cons; [exact I|exact He']|]. auto.
    + do 2 eexists. split; [right; reflexivity|]. cbn.
      split; [reflexivity|]. split; [exact He'|]. auto.
Qed.

(** The calls of each operation, by cases on the operation. *)
Lemma run_op_calls (hd : headers) (h : host) (o : operation)
    (t : list event) (r : virtio_rnd) :
  exists w',
    settles (run_op hd h o {| trace := t; mem := Allocated r |}) w' /\
    op_footprint o r t w'.
Proof.
  destruct o as [status| | |caps pf mi chains|]; cbn [run_op].
  - unfold op_footprint, may_emit, set_status_of.
    unfold bind at 1. cbn [get_rnd mem]. unfold bind at 1.
    destruct (vops (base r)) as [ops|] eqn:Eo; cbn [deref];
      [|cbn; settled; footprint].
    cbn [ret]. destruct (vo_set_status ops) as [[]|] eqn:Ecb;
      [|cbn; settled; footprint].
    unfold virtio_rnd_k_set_status. run. rewrite Eo. cbn.
    destruct (status_eqb (k_status (vbs_k r)) VIRTIO_DEV_INIT_SUCCESS) eqn:Es;
      run; [|settled; footprint].
    apply status_eqb_eq in Es.
    destruct (Z.land (to_uint64 status) (VIRTIO_CR_STATUS_DRIVER_OK hd) =? 0);
      run; [settled; footprint|].
    destruct (dev (base r)) as [d|]; run; [|settled; footprint].
    destruct (kernel_vq_loop hd (Z.to_nat (vo_nvq ops)) 0 (vo_nvq ops) (vq r) d
                0 0 (k_vqs (vbs_k r))) as [completed kvqs].
    destruct completed; run; [|settled; footprint].
    unfold virtio_rnd_kernel_start, vbs_kernel_start. run.
    match goal with
    | |- context [h_kernel_start ?a ?b ?c ?e ?f <? 0] =>
        destruct (h_kernel_start a b c e f <? 0)
    end; run.
    + destruct (- VIRTIO_ERROR_START hd <? 0); run; settled; footprint.
    + destruct (VIRTIO_SUCCESS hd <? 0); run; settled; footprint.
  - unfold op_footprint, may_emit.
    unfold bind at 1. cbn [get_rnd mem]. unfold bind at 1.
    destruct (vops (base r)) as [ops|] eqn:Eo; cbn [deref];
      [|cbn; settled; footprint].
    cbn [ret]. destruct (vo_reset ops) as [[]|]; [|cbn; settled; footprint].
    unfold virtio_rnd_reset, virtio_reset_dev. run.
    destruct (h_reset_dev h (negotiated_caps (base r)) (vq r)) as [caps q]. run.
    destruct (status_eqb (k_status (vbs_k r)) VIRTIO_DEV_STARTED) eqn:Es; run;
      [|settled; footprint].
    apply status_eqb_eq in Es.
    unfold virtio_rnd_kernel_stop, virtio_rnd_kernel_reset, vbs_kernel_stop,
      vbs_kernel_reset. run. settled; footprint.
  - unfold op_footprint, may_emit, qnotify_of.
    unfold bind at 1. cbn [get_rnd mem]. unfold bind at 1.
    destruct (vops (base r)) as [ops|] eqn:Eo; cbn [deref];
      [|cbn; settled; footprint].
    cbn [ret]. destruct (vo_qnotify ops) as [[]|] eqn:Ecb;
      [|cbn; settled; footprint|cbn; settled; footprint].
    destruct (notify_footprint h t r) as (w' & r' & Hs & Hm & He & Hf & Hk & _).
    exists w'. split; [exact Hs|]. exists r'.
    split; [eapply extends_weaken; [|exact He]; intros e He0; split; auto|].
    split; [left; exact Hm|]. split; [exact Hf|]. intros _. rewrite Hk. reflexivity.
  - unfold op_footprint, may_emit. run. settled; footprint.
  - unfold op_footprint, may_emit.
    unfold virtio_rnd_deinit, sys_free, sys_close. run.
    destruct (status_eqb (k_status (vbs_k r)) VIRTIO_DEV_STARTED) eqn:Es; run;
      [|settled; footprint].
    apply status_eqb_eq in Es.
    unfold virtio_rnd_kernel_stop, virtio_rnd_kernel_reset, vbs_kernel_stop,
      vbs_kernel_reset. run.
    destruct (0 <=? k_fd (vbs_k r)); run; settled; footprint.
Qed.

(** X9.  The calls of each operation are confined.  From a live instance
    every operation comes to an end, and on top of the log it adds nothing
    but: for a status write, a start of the backend (and only from
    [VIRTIO_DEV_INIT_SUCCESS] with the VBS-K callback bound); for a reset,
    the generic reset, and a stop and reset of the backend from
    [VIRTIO_DEV_STARTED]; for a kick, reads from the entropy descriptor and
    completion signals, and only with the user-space handler bound; for a
    guest write, nothing; for a detach, the free, and from
    [VIRTIO_DEV_STARTED] a stop, a reset and a close of the control
    channel.  No operation changes the entropy descriptor, and none but
    the detach changes the descriptor of the control channel. *)
Theorem run_op_footprint (hd : headers) (h : host) (o : operation)
    (t : list event) (r : virtio_rnd) :
  exists w',
    settles (run_op hd h o {| trace := t; mem := Allocated r |}) w' /\
    op_footprint o r t w'.
Proof. apply run_op_calls. Qed.

(** ** Sequences of operations *)

(** Without a live instance a sequence of operations ends where it
    starts. *)
Lemma run_ops_without_instance (hd : headers) (h : host) (os : list operation)
    (w : world) :
  (forall r, mem w <> Allocated r) ->
  settles (run_ops hd h os w) w.
Proof.
  intros Hm. destruct os as [|o os]; [left; exists tt; reflexivity|].
  right. cbn [run_ops]. unfold bind.
  destruct w as [t [|r|r]]; [|exfalso; apply (Hm r); reflexivity|];
    destruct o; reflexivity.
Qed.

(** An invariant [Inv] of the instance and a bound [P] on the calls, kept by
    every operation, hold along every sequence of operations. *)
Lemma run_ops_extends (hd : headers) (h : host) (Inv : virtio_rnd -> Prop)
    (P : event -> Prop) :
  (forall o t r,
     Inv r ->
     exists w',
       settles (run_op hd h o {| trace := t; mem := Allocated r |}) w' /\
       extends P t (trace w') /\
       (forall r', mem w' = Allocated r' -> Inv r')) ->
  forall os t r,
    Inv r ->
    exists w',
      settles (run_ops hd h os {| trace := t; mem := Allocated r |}) w' /\
      extends P t (trace w') /\
      (forall r', mem w' = Allocated r' -> Inv r').
Proof.
  intros Hstep os. induction os as [|o os IH]; intros t r Hi.
  - exists {| trace := t; mem := Allocated r |}.
    split; [left; exists tt; reflexivity|]. split; [apply ext_refl|].
    intros r' Hm. inversion Hm; subst. exact Hi.
  - destruct (Hstep o t r Hi) as ([t1 m1] & Hs & He & Hinv).
    cbn [run_ops]. unfold bind at 1.
    destruct Hs as [[[] ->] | ->].
    + destruct m1 as [|r1|r1].
      * exists {| trace := t1; mem := Unallocated |}.
        split; [apply run_ops_without_instance; discriminate|].
        split; [exact He|]. discriminate.
      * destruct (IH t1 r1 (Hinv r1 eq_refl)) as (w' & Hs' & He' & Hinv').
        exists w'. split; [exact Hs'|]. split; [|exact Hinv'].
        eapply extends_trans; [exact He|exact He'].
      * exists {| trace := t1; mem := Released r1 |}.
        split; [apply run_ops_without_instance; discriminate|].
        split; [exact He|]. discriminate.
    + exists {| trace := t1; mem := m1 |}.
      split; [right; reflexivity|]. split; [exact He|exact Hinv].
Qed.

(** One operation, with its footprint and its move of the status. *)
Lemma run_op_step (hd : headers) (h : host) (o : operation) (t : list event)
    (r : virtio_rnd) :
  exists w',
    settles (run_op hd h o {| trace := t; mem := Allocated r |}) w' /\
    op_footprint o r t w' /\ op_post hd o r w'.
Proof.
  destruct (run_op_calls hd h o t r) as (w1 & Hs1 & Hf).
  destruct (run_op_post hd h o t r) as (w2 & Hs2 & Hp).
  rewrite <- (settles_unique _ _ _ Hs1 Hs2) in Hp.
  exists w1. auto.
Qed.

(** What the step lemma says about an instance that is still live. *)
Lemma run_op_step_live (hd : headers) (h : host) (o : operation)
    (t : list event) (r : virtio_rnd) :
  exists w',
    settles (run_op hd h o {| trace := t; mem := Allocated r |}) w' /\
    extends (may_emit o r) t (trace w') /\
    forall r',
      mem w' = Allocated r' ->
      fd r' = fd r /\ k_fd (vbs_k r') = k_fd (vbs_k r) /\
      vops (base r') = vops (base r) /\ dev (base r') = dev (base r) /\
      legal hd (ByOp o) (k_status (vbs_k r)) (k_status (vbs_k r')).
Proof.
  destruct (run_op_step hd h o t r)
    as (w' & Hs & (r1 & He & Hm1 & Hfd & Hk) & (r2 & Hm2 & Hl & _ & Hv & Hd)).
  exists w'. split; [exact Hs|]. split; [exact He|].
  intros r' Hm.
  assert (r1 = r') by (destruct Hm1 as [E|[_ E]]; congruence).
  assert (r2 = r') by (destruct Hm2 as [E|[_ E]]; congruence).
  subst r1 r2. auto.
Qed.

(** X10.  A session that is not live stays so.  From a live instance whose
    status is [VIRTIO_DEV_INITIAL], [VIRTIO_DEV_INIT_FAILED] or
    [VIRTIO_DEV_START_FAILED], every sequence of operations comes to an
    end without a single call to the VBS-K backend (start, stop, reset)
    and without a [close], and while the instance lives its status is the
    same: the offload is not tried again, also after a reset. *)
Theorem session_not_live_stays (hd : headers) (h : host)
    (os : list operation) (t : list event) (r : virtio_rnd) :
  k_status (vbs_k r) = VIRTIO_DEV_INITIAL \/
  k_status (vbs_k r) = VIRTIO_DEV_INIT_FAILED \/
  k_status (vbs_k r) = VIRTIO_DEV_START_FAILED ->
  exists w',
    settles (run_ops hd h os {| trace := t; mem := Allocated r |}) w' /\
    (exists new,
       trace w' = (new ++ t)%list /\
       Forall (fun e => is_backend_call e = false) new) /\
    (forall r', mem w' = Allocated r' ->
                k_status (vbs_k r') = k_status (vbs_k r)).
Proof.
  intros Hs.
  destruct (run_ops_extends hd h
              (fun r' => k_status (vbs_k r') = k_status (vbs_k r))
              (fun e => is_backend_call e = false)) with (os := os) (t := t) (r := r)
    as (w' & Hst & He & Hinv); [|reflexivity|].
  - intros o t0 r0 Hr0.
    destruct (run_op_step_live hd h o t0 r0) as (w1 & Hs1 & He1 & Hlive).
    exists w1. split; [exact Hs1|]. split.
    + eapply extends_weaken; [|exact He1].
      intros e Hm. rewrite <- Hr0 in Hs.
      destruct o, e; cbn in Hm |- *; try reflexivity; exfalso;
        intuition congruence.
    + intros r' Hm. destruct (Hlive r' Hm) as (_ & _ & _ & _ & Hl).
      rewrite <- Hr0. rewrite <- Hr0 in Hs.
      symmetry. revert Hl Hs.
      generalize (k_status (vbs_k r0)) (k_status (vbs_k r')).
      intros s s' Hl Hs.
      inversion Hl; subst; try reflexivity;
        destruct Hs as [|[|]]; discriminate.
  - exists w'. split; [exact Hst|]. split; [apply extends_app; exact He|].
    exact Hinv.
Qed.

Lemma session_not_live_stays_witness :
  exists w',
    settles
      (run_ops sample_headers sample_host
         [OpReset; OpSetStatus 4; OpNotify; OpDeinit]
         {| trace := []; mem := Allocated rnd_user |}) w' /\
    (exists new,
       trace w' = (new ++ [])%list /\
       Forall (fun e => is_backend_call e = false) new) /\
    (forall r', mem w' = Allocated r' ->
                k_status (vbs_k r') = k_status (vbs_k rnd_user)).
Proof.
  apply (session_not_live_stays sample_headers sample_host
           [OpReset; OpSetStatus 4; OpNotify; OpDeinit] [] rnd_user).
  left. reflexivity.
Defined.

(** X11.  With the VBS-K table bound the queue is never served from user
    space: over every sequence of operations no read from the entropy
    source and no completion signal is issued, whatever the status of the
    session (also after a failed start and after a reset). *)
Theorem kernel_table_never_serves (hd : headers) (h : host)
    (os : list operation) (t : list event) (r : virtio_rnd) :
  vops (base r) = Some virtio_rnd_ops_k ->
  exists w',
    settles (run_ops hd h os {| trace := t; mem := Allocated r |}) w' /\
    (exists new,
       trace w' = (new ++ t)%list /\ Forall (fun e => is_service e = false) new) /\
    (forall r', mem w' = Allocated r' ->
                vops (base r') = Some virtio_rnd_ops_k).
Proof.
  intros Hv.
  destruct (run_ops_extends hd h
              (fun r' => vops (base r') = Some virtio_rnd_ops_k)
              (fun e => is_service e = false)) with (os := os) (t := t) (r := r)
    as (w' & Hst & He & Hinv); [|exact Hv|].
  - intros o t0 r0 Hr0.
    destruct (run_op_step_live hd h o t0 r0) as (w1 & Hs1 & He1 & Hlive).
    exists w1. split; [exact Hs1|]. split.
    + eapply extends_weaken; [|exact He1].
      intros e Hm.
      destruct o, e; cbn in Hm |- *; try reflexivity; exfalso;
        unfold qnotify_of in Hm; rewrite ?Hr0 in Hm; cbn in Hm;
        intuition congruence.
    + intros r' Hm. destruct (Hlive r' Hm) as (_ & _ & Hv' & _).
      rewrite Hv'. exact Hr0.
  - exists w'. split; [exact Hst|]. split; [apply extends_app; exact He|].
    exact Hinv.
Qed.

Lemma kernel_table_never_serves_witness :
  exists w',
    settles
      (run_ops sample_headers sample_host
         [OpGuest 0 5 65535 [single_chain 7 4096 16]; OpSetStatus 4; OpReset;
          OpNotify; OpSetStatus 4; OpNotify]
         {| trace := []; mem := Allocated rnd_init_success |}) w' /\
    (exists new,
       trace w' = (new ++ [])%list /\ Forall (fun e => is_service e = false) new) /\
    (forall r', mem w' = Allocated r' ->
                vops (base r') = Some virtio_rnd_ops_k).
Proof.
  apply (kernel_table_never_serves sample_headers sample_host _ []
           rnd_init_success).
  reflexivity.
Defined.

(** X12.  Over every sequence of operations on a live instance, the only
    descriptor that is ever closed is the one of the VBS-K control
    channel: every [close] in the calls of the sequence names the
    descriptor the instance held for the channel at the start.  The
    entropy descriptor, when it is another one, is never closed, not even
    by the detach. *)
Theorem only_control_channel_closed (hd : headers) (h : host)
    (os : list operation) (t : list event) (r : virtio_rnd) :
  fd r <> k_fd (vbs_k r) ->
  exists w' new,
    settles (run_ops hd h os {| trace := t; mem := Allocated r |}) w' /\
    trace w' = (new ++ t)%list /\
    Forall (fun e => forall f, e = EvClose f -> f = k_fd (vbs_k r)) new /\
    ~ In (EvClose (fd r)) new.
Proof.
  intros Hne.
  destruct (run_ops_extends hd h
              (fun r' => k_fd (vbs_k r') = k_fd (vbs_k r))
              (fun e => forall f, e = EvClose f -> f = k_fd (vbs_k r)))
    with (os := os) (t := t) (r := r)
    as (w' & Hst & He & _); [|reflexivity|].
  - intros o t0 r0 Hr0.
    destruct (run_op_step_live hd h o t0 r0) as (w1 & Hs1 & He1 & Hlive).
    exists w1. split; [exact Hs1|]. split.
    + eapply extends_weaken; [|exact He1].
      intros e Hm f ->.
      destruct o; cbn in Hm; try (exfalso; intuition congruence).
      destruct Hm as [-> _]. exact Hr0.
    + intros r' Hm. destruct (Hlive r' Hm) as (_ & Hk & _).
      rewrite Hk. exact Hr0.
  - apply extends_app in He. destruct He as (new & Ht & Hall).
    exists w', new. split; [exact Hst|]. split; [exact Ht|].
    split; [exact Hall|].
    intros Hin. rewrite Forall_forall in Hall.
    apply list_elem_of_In in Hin.
    apply Hne. apply (Hall _ Hin). reflexivity.
Qed.

Lemma only_control_channel_closed_witness :
  exists w' new,
    settles
      (run_ops sample_headers sample_host [OpSetStatus 4; OpDeinit]
         {| trace := []; mem := Allocated rnd_init_success |}) w' /\
    trace w' = (new ++ [])%list /\
    Forall (fun e => forall f, e = EvClose f -> f = 4) new /\
    ~ In (EvClose 3) new.
Proof.
  apply (only_control_channel_closed sample_headers sample_host
           [OpSetStatus 4; OpDeinit] [] rnd_init_success).
  vm_compute. discriminate.
Defined.

(** ** The attached device *)

Lemma attached_instance_inv (hd : headers) (h : host) (d : pci_vdev)
    (opts : option string) (fd' : Z) (r : virtio_rnd) :
  attached_instance hd h d opts fd' r -> attached_inv r.
Proof.
  intros (Hfd & Hpos & Hd & _ & _ & _ & _ & _ & _ & Hb).
  split; [rewrite Hfd; exact Hpos|]. split; [exists d; exact Hd|].
  destruct Hb as [(Hv & Hs & _ & Hk) | (Hv & [(Hs & _) | (Hs & _)])].
  - left. auto.
  - right. auto.
  - right. auto.
Qed.

Lemma attached_inv_step (hd : headers) (o : operation) (r r' : virtio_rnd) :
  attached_inv r ->
  fd r' = fd r -> k_fd (vbs_k r') = k_fd (vbs_k r) ->
  vops (base r') = vops (base r) -> dev (base r') = dev (base r) ->
  legal hd (ByOp o) (k_status (vbs_k r)) (k_status (vbs_k r')) ->
  attached_inv r'.
Proof.
  intros (Hfd & Hd & Hb) Ef Ek Ev Ed Hl.
  split; [rewrite Ef; exact Hfd|]. split; [rewrite Ed; exact Hd|].
  rewrite Ev, Ek. revert Hl Hb.
  generalize (k_status (vbs_k r)) (k_status (vbs_k r')). intros s s' Hl Hb.
  inversion Hl; subst; try exact Hb; intuition congruence.
Qed.

(** The invariant of the attached device along its life. *)
Lemma reachable_attached (hd : headers) (h : host) (w : world) :
  headers_ok hd -> reachable hd h w ->
  forall r, mem w = Allocated r -> attached_inv r.
Proof.
  intros Hok Hr. induction Hr as [d opts t w Hinit | o w w' Hr IH Hrun].
  - destruct (virtio_rnd_init_outcome hd h d opts t Unallocated Hok)
      as (_ & _ & H).
    cbn zeta in H. rewrite Hinit in H.
    destruct H as [[_ (r0 & Hm0 & Ha)] | [H _]]; [|discriminate].
    intros r Hm. rewrite Hm0 in Hm. inversion Hm; subst r0.
    eapply attached_instance_inv. exact Ha.
  - destruct (run_op_needs_instance hd h o w w' Hrun) as (r0 & Hm0).
    destruct w as [t m]. cbn in Hm0. subst m.
    destruct (run_op_step_live hd h o t r0) as (w1 & Hs & _ & Hlive).
    rewrite Hrun in Hs.
    assert (w1 = w') by (destruct Hs as [[a Hs] | Hs]; inversion Hs; reflexivity).
    subst w1. intros r Hm.
    destruct (Hlive r Hm) as (Ef & Ek & Ev & Ed & Hl).
    eapply attached_inv_step; eauto.
Qed.

(** ** The completion signal of a batch *)






(** The kick of the sample device interrupts: one chain was pending. *)
Example queued_world_kick :
  exists w',
    virtio_rnd_notify sample_host queued_world = Ret tt w' /\
    firstn 2 (trace w') = [EvEndchains 1 true; EvRead 3 16 16].
Proof. eexists. split; vm_compute; reflexivity. Qed.

(** X13.  On every world a device reaches (a successful attach, then any
    operations that return) the live instance keeps the invariant
    [attached_inv]: its entropy descriptor is not negative, so the branch
    of the notify handler for an invalid handle is never taken; its PCI
    device and one of the two tables of the file are bound; with the VBS-K
    table the control channel is open, with the user-space table the
    status is [VIRTIO_DEV_INITIAL] or [VIRTIO_DEV_INIT_FAILED]; and the
    status is never [VIRTIO_DEV_PRE_INIT]. *)
Theorem reachable_attached_inv (hd : headers) (h : host) (w : world)
    (r : virtio_rnd) :
  headers_ok hd ->
  reachable hd h w ->
  mem w = Allocated r ->
  attached_inv r /\ k_status (vbs_k r) <> VIRTIO_DEV_PRE_INIT.
Proof.
  intros Hok Hr Hm.
  pose proof (reachable_attached hd h w Hok Hr r Hm) as Ha.
  split; [exact Ha|].
  destruct Ha as (_ & _ & [(_ & _ & Hs) | (_ & Hs)]); intuition congruence.
Qed.

Lemma reachable_attached_inv_witness :
  headers_ok sample_headers /\
  reachable sample_headers sample_host started_world /\
  mem started_world = Allocated rnd_started /\
  attached_inv rnd_started /\
  k_status (vbs_k rnd_started) <> VIRTIO_DEV_PRE_INIT.
Proof.
  assert (Hok : headers_ok sample_headers) by (unfold headers_ok; simpl; lia).
  assert (Hreach : reachable sample_headers sample_host started_world).
  { apply (reach_op _ _ (OpSetStatus 4) attached_kernel).
    - apply (reach_init _ _ sample_dev (Some "kernel=on") []).
      vm_compute. reflexivity.
    - vm_compute. reflexivity. }
  assert (Hm : mem started_world = Allocated rnd_started)
    by (vm_compute; reflexivity).
  split; [exact Hok|]. split; [exact Hreach|]. split; [exact Hm|].
  apply (reachable_attached_inv sample_headers sample_host started_world
           rnd_started Hok Hreach Hm).
Defined.

(** ** The batch of a kick *)

Lemma batch_used_cons (c : chain) (len : Z) (chains : list chain)
    (lens : list Z) (us : list (Z * Z)) :
  (batch_used (c :: chains) (len :: lens) ++ us)%list =
  (batch_used chains lens ++ (ch_idx c, to_uint32 len) :: us)%list.
Proof.
  unfold batch_used. cbn [zip_with rev]. rewrite <- app_assoc. reflexivity.
Qed.

(** The loop on an instance given by its fields, when every read of the
    batch stores a positive count. *)
Lemma notify_loop_batch (h : host) (b : virtio_base) (qs pf mi : Z)
    (m : option mutex_type) (cf f : Z) (k : vbs_k_vars) (fuel : nat) :
  forall t chains us ba,
    (length chains < fuel)%nat ->
    Forall (fun len => 0 < len) (batch_reads h t f chains) ->
    notify_loop h fuel
      {| trace := t;
         mem := Allocated
                  {| base := b;
                     vq := {| qsize := qs; pfn := pf; msix_idx := mi;
                              vq_avail := chains; vq_used := us;
                              vq_batch := ba |};
                     mtx := m; cfg := cf; fd := f; vbs_k := k |} |} =
    Ret tt
      {| trace := batch_log h t f chains;
         mem := Allocated
                  {| base := b;
                     vq := {| qsize := qs; pfn := pf; msix_idx := mi;
                              vq_avail := [];
                              vq_used :=
                                (batch_used chains (batch_reads h t f chains)
                                 ++ us)%list;
                              vq_batch := (ba + length chains)%nat |};
                     mtx := m; cfg := cf; fd := f; vbs_k := k |} |}.
Proof.
  induction fuel as [|fuel IH]; intros t chains us ba Hlt Hpos; [lia|].
  cbn [notify_loop]. unfold vq_has_descs, vq_getchain, sys_read, vq_relchain.
  destruct chains as [|c rest]; run.
  - rewrite Nat.add_0_r. reflexivity.
  - cbn [batch_reads] in Hpos. apply Forall_cons_iff in Hpos.
    destruct Hpos as [Hc Hrest].
    replace (0 <? to_int (h_read h t f (iov_len (ch_seg c)))) with true
      by (symmetry; apply Z.ltb_lt; exact Hc).
    run. unfold with_vq. cbn. rewrite IH by (cbn in Hlt; lia || exact Hrest).
    cbn [batch_reads batch_log]. rewrite batch_used_cons.
    replace (S ba + length rest)%nat with (ba + S (length rest))%nat by lia.
    reflexivity.
Qed.

(** The loop when the reads of the chains [pre] store positive counts and
    the read of the next chain [c] does not. *)
Lemma notify_loop_batch_abort (h : host) (b : virtio_base) (qs pf mi : Z)
    (m : option mutex_type) (cf f : Z) (k : vbs_k_vars) (fuel : nat) :
  forall t pre c post us ba,
    (length (pre ++ c :: post) < fuel)%nat ->
    Forall (fun len => 0 < len) (batch_reads h t f pre) ->
    let t1 := batch_log h t f pre in
    let n := h_read h t1 f (iov_len (ch_seg c)) in
    to_int n <= 0 ->
    notify_loop h fuel
      {| trace := t;
         mem := Allocated
                  {| base := b;
                     vq := {| qsize := qs; pfn := pf; msix_idx := mi;
                              vq_avail := pre ++ c :: post; vq_used := us;
                              vq_batch := ba |};
                     mtx := m; cfg := cf; fd := f; vbs_k := k |} |} =
    Abort
      {| trace := EvRead f (iov_len (ch_seg c)) n :: t1;
         mem := Allocated
                  {| base := b;
                     vq := {| qsize := qs; pfn := pf; msix_idx := mi;
                              vq_avail := post;
                              vq_used :=
                                (batch_used pre (batch_reads h t f pre)
                                 ++ us)%list;
                              vq_batch := (ba + length pre)%nat |};
                     mtx := m; cfg := cf; fd := f; vbs_k := k |} |}.
Proof.
  induction fuel as [|fuel IH]; intros t pre c post us ba Hlt Hpos t1 n Hn;
    [lia|].
  cbn [notify_loop]. unfold vq_has_descs, vq_getchain, sys_read, vq_relchain.
  destruct pre as [|c0 pre]; run.
  - subst n t1. cbn [batch_log] in Hn.
    replace (0 <? to_int (h_read h t f (iov_len (ch_seg c)))) with false
      by (symmetry; apply Z.ltb_ge; exact Hn).
    run. unfold with_vq. cbn. rewrite Nat.add_0_r. reflexivity.
  - cbn [batch_reads] in Hpos. apply Forall_cons_iff in Hpos.
    destruct Hpos as [Hc Hrest].
    replace (0 <? to_int (h_read h t f (iov_len (ch_seg c0)))) with true
      by (symmetry; apply Z.ltb_lt; exact Hc).
    run. unfold with_vq. cbn. subst n t1. cbn [batch_log] in Hn |- *.
    rewrite (IH _ pre c post) by (cbn in Hlt; lia || assumption).
    cbn [batch_reads batch_log]. rewrite batch_used_cons.
    replace (S ba + length pre)%nat with (ba + S (length pre))%nat by lia.
    reflexivity.
Qed.

(** The reads of a batch raise no completion signal. *)
Lemma batch_log_signals (h : host) (f : Z) (chains : list chain) :
  forall t, completion_signals (batch_log h t f chains) = completion_signals t.
Proof.
  induction chains as [|c rest IH]; intros t; cbn [batch_log].
  - reflexivity.
  - rewrite IH. reflexivity.
Qed.

(** X15.  A kick with a valid entropy handle serves the pending chains in
    their order, one read each: the read asks for the length of the first
    segment of the chain (further segments are left alone) and the chain
    is released with the count the read stored, also when that is less
    than the length asked for.  When every count is positive the handler
    returns with the ring drained and one completion signal on top of the
    reads, which interrupts unless nothing was released. *)
Theorem notify_serves_in_order (h : host) (t : list event) (r : virtio_rnd) :
  0 <= fd r ->
  let chains := vq_avail (vq r) in
  let lens := batch_reads h t (fd r) chains in
  Forall (fun len => 0 < len) lens ->
  virtio_rnd_notify h {| trace := t; mem := Allocated r |} =
  Ret tt
    {| trace :=
         EvEndchains 1 (negb (Nat.eqb (vq_batch (vq r) + length chains) 0))
         :: batch_log h t (fd r) chains;
       mem :=
         Allocated
           (with_vq (fun q =>
              {| qsize := qsize q; pfn := pfn q; msix_idx := msix_idx q;
                 vq_avail := [];
                 vq_used := (batch_used chains lens ++ vq_used q)%list;
                 vq_batch := 0 |}) r) |}.
Proof.
  intros Hfd chains lens Hpos. subst chains lens.
  unfold virtio_rnd_notify. unfold bind at 1. cbn [get_rnd mem].
  replace (fd r <? 0) with false by (symmetry; apply Z.ltb_ge; exact Hfd).
  unfold bind at 1.
  destruct r as [b [qs pf mi chains us ba] m cf f k]. cbn [vq vq_avail fd] in *.
  rewrite notify_loop_batch by (lia || exact Hpos).
  unfold vq_endchains. run. reflexivity.
Qed.

Example short_reads_batch :
  let chains :=
    [single_chain 7 4096 16;
     {| ch_idx := 9; ch_seg := {| iov_base := 8192; iov_len := 4 |};
        ch_more := [{| iov_base := 12288; iov_len := 64 |}] |}] in
  batch_reads host_short_reads [] 3 chains = [8; 2] /\
  batch_log host_short_reads [] 3 chains = [EvRead 3 4 2; EvRead 3 16 8] /\
  batch_used chains [8; 2] = [(9, 2); (7, 8)].
Proof. repeat split; vm_compute; reflexivity. Qed.

Lemma notify_serves_in_order_witness :
  let r :=
    rnd_user_queued
      [single_chain 7 4096 16;
       {| ch_idx := 9; ch_seg := {| iov_base := 8192; iov_len := 4 |};
          ch_more := [{| iov_base := 12288; iov_len := 64 |}] |}] in
  let chains := vq_avail (vq r) in
  let lens := batch_reads host_short_reads [] (fd r) chains in
  virtio_rnd_notify host_short_reads {| trace := []; mem := Allocated r |} =
  Ret tt
    {| trace :=
         EvEndchains 1 (negb (Nat.eqb (vq_batch (vq r) + length chains) 0))
         :: batch_log host_short_reads [] (fd r) chains;
       mem :=
         Allocated
           (with_vq (fun q =>
              {| qsize := qsize q; pfn := pfn q; msix_idx := msix_idx q;
                 vq_avail := [];
                 vq_used := (batch_used chains lens ++ vq_used q)%list;
                 vq_batch := 0 |}) r) |}.
Proof.
  apply (notify_serves_in_order host_short_reads []).
  - vm_compute. discriminate.
  - repeat constructor.
Defined.

(** X16.  A kick stops at the first read that stores a count of zero or
    less: the process aborts in the assertion with the chains in front of
    it already released (each with the count of its read), that chain
    popped and not released, the chains behind it still pending, and no
    completion signal raised for what was released. *)
Theorem notify_aborts_mid_batch (h : host) (t : list event) (r : virtio_rnd)
    (pre post : list chain) (c : chain) :
  0 <= fd r ->
  vq_avail (vq r) = (pre ++ c :: post)%list ->
  Forall (fun len => 0 < len) (batch_reads h t (fd r) pre) ->
  let t1 := batch_log h t (fd r) pre in
  let n := h_read h t1 (fd r) (iov_len (ch_seg c)) in
  to_int n <= 0 ->
  virtio_rnd_notify h {| trace := t; mem := Allocated r |} =
  Abort
    {| trace := EvRead (fd r) (iov_len (ch_seg c)) n :: t1;
       mem :=
         Allocated
           (with_vq (fun q =>
              {| qsize := qsize q; pfn := pfn q; msix_idx := msix_idx q;
                 vq_avail := post;
                 vq_used :=
                   (batch_used pre (batch_reads h t (fd r) pre)
                    ++ vq_used q)%list;
                 vq_batch := (vq_batch q + length pre)%nat |}) r) |} /\
  completion_signals (EvRead (fd r) (iov_len (ch_seg c)) n :: t1) =
    completion_signals t.
Proof.
  intros Hfd Hav Hpos t1 n Hn. split.
  - unfold virtio_rnd_notify. unfold bind at 1. cbn [get_rnd mem].
    replace (fd r <? 0) with false by (symmetry; apply Z.ltb_ge; exact Hfd).
    unfold bind at 1.
    destruct r as [b [qs pf mi chains us ba] m cf f k].
    cbn [vq vq_avail fd] in *. subst chains.
    rewrite (notify_loop_batch_abort h b qs pf mi m cf f k _ t pre c post us ba)
      by (lia || assumption).
    reflexivity.
  - cbn [completion_signals]. subst t1. apply batch_log_signals.
Qed.

Lemma notify_aborts_mid_batch_witness :
  let r :=
    rnd_user_queued
      [single_chain 7 4096 16; single_chain 8 4096 0; single_chain 9 4096 16] in
  let pre := [single_chain 7 4096 16] in
  let c := single_chain 8 4096 0 in
  let t1 := batch_log host_short_reads [] (fd r) pre in
  let n := h_read host_short_reads t1 (fd r) (iov_len (ch_seg c)) in
  virtio_rnd_notify host_short_reads {| trace := []; mem := Allocated r |} =
  Abort
    {| trace := EvRead (fd r) (iov_len (ch_seg c)) n :: t1;
       mem :=
         Allocated
           (with_vq (fun q =>
              {| qsize := qsize q; pfn := pfn q; msix_idx := msix_idx q;
                 vq_avail := [single_chain 9 4096 16];
                 vq_used :=
                   (batch_used pre (batch_reads host_short_reads [] (fd r) pre)
                    ++ vq_used q)%list;
                 vq_batch := (vq_batch q + length pre)%nat |}) r) |} /\
  completion_signals (EvRead (fd r) (iov_len (ch_seg c)) n :: t1) =
    completion_signals [].
Proof.
  apply (notify_aborts_mid_batch host_short_reads []
           (rnd_user_queued
              [single_chain 7 4096 16; single_chain 8 4096 0;
               single_chain 9 4096 16])
           [single_chain 7 4096 16] [single_chain 9 4096 16]
           (single_chain 8 4096 0)).
  - vm_compute. discriminate.
  - reflexivity.
  - repeat constructor.
  - vm_compute. discriminate.
Defined.

(** ** The operations that return *)

(** Either every read of a batch stores a positive count, or there is a
    first chain whose read does not. *)
Lemma batch_reads_split (h : host) (f : Z) (chains : list chain) :
  forall t,
    Forall (fun len => 0 < len) (batch_reads h t f chains) \/
    exists pre c post,
      chains = (pre ++ c :: post)%list /\
      Forall (fun len => 0 < len) (batch_reads h t f pre) /\
      to_int (h_read h (batch_log h t f pre) f (iov_len (ch_seg c))) <= 0.
Proof.
  induction chains as [|c rest IH]; intros t.
  - left. constructor.
  - cbn [batch_reads].
    destruct (Z_lt_le_dec 0 (to_int (h_read h t f (iov_len (ch_seg c)))))
      as [Hp|Hn].
    + destruct (IH (EvRead f (iov_len (ch_seg c))
                      (h_read h t f (iov_len (ch_seg c))) :: t))
        as [Hall | (pre & c' & post & Hch & Hpre & Hbad)].
      * left. constructor; assumption.
      * right. exists (c :: pre), c', post. rewrite Hch.
        split; [reflexivity|]. split; [|exact Hbad].
        cbn [batch_reads]. constructor; assumption.
    + right. exists [], c, rest. split; [reflexivity|].
      split; [constructor|exact Hn].
Qed.

(** An operation on an instance that keeps the invariant returns, when the
    reads for the pending chains of a kick store positive counts. *)
Lemma run_op_returns_live (hd : headers) (h : host) (o : operation)
    (t : list event) (r : virtio_rnd) :
  attached_inv r ->
  (o = OpNotify -> vops (base r) = Some virtio_rnd_ops ->
   Forall (fun len => 0 < len) (batch_reads h t (fd r) (vq_avail (vq r)))) ->
  exists w', run_op hd h o {| trace := t; mem := Allocated r |} = Ret tt w'.
Proof.
  intros (Hfd & (d & Hd) & Hb) Hreads.
  assert (Hv : exists ops, vops (base r) = Some ops /\
                 (ops = virtio_rnd_ops_k \/ ops = virtio_rnd_ops)).
  { destruct Hb as [(Hv & _) | (Hv & _)]; eauto. }
  destruct Hv as (ops & Hv & Hops).
  destruct o as [status| | |caps pf mi chains|]; cbn [run_op].
  - run. rewrite Hv. cbn. destruct Hops as [-> | ->]; cbn;
      [|eexists; reflexivity].
    unfold virtio_rnd_k_set_status. run. rewrite Hv, Hd. cbn.
    destruct (status_eqb (k_status (vbs_k r)) VIRTIO_DEV_INIT_SUCCESS); run;
      [|eexists; reflexivity].
    destruct (Z.land (to_uint64 status) (VIRTIO_CR_STATUS_DRIVER_OK hd) =? 0);
      run; [eexists; reflexivity|].
    destruct (kernel_vq_loop hd _ 0 1 (vq r) d 0 0 (k_vqs (vbs_k r)))
      as [completed kvqs].
    destruct completed; run; [|eexists; reflexivity].
    unfold virtio_rnd_kernel_start, vbs_kernel_start. run.
    match goal with
    | |- context [h_kernel_start ?a ?b ?c ?e ?f <? 0] =>
        destruct (h_kernel_start a b c e f <? 0)
    end; run.
    + destruct (- VIRTIO_ERROR_START hd <? 0); run; eexists; reflexivity.
    + destruct (VIRTIO_SUCCESS hd <? 0); run; eexists; reflexivity.
  - run. rewrite Hv. cbn.
    assert (Hr : vo_reset ops = Some FN_virtio_rnd_reset)
      by (destruct Hops as [-> | ->]; reflexivity).
    rewrite Hr. unfold virtio_rnd_reset, virtio_reset_dev. run.
    destruct (h_reset_dev h (negotiated_caps (base r)) (vq r)) as [caps q]. run.
    destruct (status_eqb (k_status (vbs_k r)) VIRTIO_DEV_STARTED); run;
      [|eexists; reflexivity].
    unfold virtio_rnd_kernel_stop, virtio_rnd_kernel_reset, vbs_kernel_stop,
      vbs_kernel_reset. run. eexists; reflexivity.
  - unfold bind at 1. cbn [get_rnd mem]. unfold bind at 1.
    rewrite Hv. cbn [deref ret].
    destruct Hops as [-> | ->]; cbn [vo_qnotify virtio_rnd_ops_k virtio_rnd_ops];
      [eexists; reflexivity|].
    specialize (Hreads eq_refl Hv).
    unfold virtio_rnd_notify. unfold bind at 1. cbn [get_rnd mem].
    replace (fd r <? 0) with false by (symmetry; apply Z.ltb_ge; exact Hfd).
    unfold bind at 1.
    destruct r as [b [qs pf mi chains us ba] m cf f k].
    cbn [vq vq_avail fd] in *.
    rewrite notify_loop_batch by (lia || exact Hreads).
    unfold vq_endchains. run. eexists; reflexivity.
  - run. eexists; reflexivity.
  - unfold virtio_rnd_deinit, sys_free, sys_close. run.
    destruct (status_eqb (k_status (vbs_k r)) VIRTIO_DEV_STARTED) eqn:Es; run;
      [|eexists; reflexivity].
    apply status_eqb_eq in Es.
    unfold virtio_rnd_kernel_stop, virtio_rnd_kernel_reset, vbs_kernel_stop,
      vbs_kernel_reset. run.
    assert (Hk : 0 <= k_fd (vbs_k r)).
    { destruct Hb as [(_ & Hk & _) | (_ & Hs)]; [exact Hk|].
      rewrite Es in Hs. destruct Hs; discriminate. }
    replace (0 <=? k_fd (vbs_k r)) with true by (symmetry; apply Z.leb_le; exact Hk).
    run. eexists; reflexivity.
Qed.

(** A kick under the user-space table aborts when the read for one of the
    pending chains stores a count of zero or less. *)
Lemma run_op_notify_aborts (hd : headers) (h : host) (t : list event)
    (r : virtio_rnd) (pre post : list chain) (c : chain) :
  0 <= fd r ->
  vops (base r) = Some virtio_rnd_ops ->
  vq_avail (vq r) = (pre ++ c :: post)%list ->
  Forall (fun len => 0 < len) (batch_reads h t (fd r) pre) ->
  to_int (h_read h (batch_log h t (fd r) pre) (fd r) (iov_len (ch_seg c))) <= 0 ->
  exists w', run_op hd h OpNotify {| trace := t; mem := Allocated r |} = Abort w'.
Proof.
  intros Hfd Hv Hav Hpos Hn. cbn [run_op].
  unfold bind at 1. cbn [get_rnd mem]. unfold bind at 1.
  rewrite Hv. cbn [deref ret vo_qnotify virtio_rnd_ops].
  unfold virtio_rnd_notify. unfold bind at 1. cbn [get_rnd mem].
  replace (fd r <? 0) with false by (symmetry; apply Z.ltb_ge; exact Hfd).
  unfold bind at 1.
  destruct r as [b [qs pf mi chains us ba] m cf f k].
  cbn [vq vq_avail fd] in *. subst chains.
  rewrite (notify_loop_batch_abort h b qs pf mi m cf f k _ t pre c post us ba)
    by (lia || assumption).
  eexists. reflexivity.
Qed.

(** X14.  On an attached device the only abort is the read assertion of
    the notify loop.  On every world a device reaches, an operation on
    the live instance returns (no null pointer is followed, no assertion
    on a descriptor fails) unless it is a kick under the user-space table
    and the read for one of the pending chains stores a count of zero or
    less: the operation returns exactly when each of these reads stores a
    positive count.  A kick that finds no chain pending returns on every
    host. *)
Theorem reachable_op_returns (hd : headers) (h : host) (w : world)
    (r : virtio_rnd) (o : operation) :
  headers_ok hd ->
  reachable hd h w ->
  mem w = Allocated r ->
  ((exists w', run_op hd h o w = Ret tt w') <->
   (o = OpNotify -> vops (base r) = Some virtio_rnd_ops ->
    Forall (fun len => 0 < len)
      (batch_reads h (trace w) (fd r) (vq_avail (vq r))))) /\
  (o = OpNotify -> vq_avail (vq r) = [] ->
   exists w', run_op hd h o w = Ret tt w').
Proof.
  intros Hok Hr Hm. destruct w as [t m]. cbn in Hm. subst m. cbn [trace].
  pose proof (reachable_attached hd h _ Hok Hr r eq_refl) as Ha.
  split; [split|].
  - intros (w' & Hret) -> Hv.
    destruct (batch_reads_split h (fd r) (vq_avail (vq r)) t)
      as [Hall | (pre & c & post & Hav & Hpos & Hn)]; [exact Hall|].
    destruct Ha as (Hfd & _).
    destruct (run_op_notify_aborts hd h t r pre post c Hfd Hv Hav Hpos Hn)
      as (w1 & Hab).
    rewrite Hab in Hret. discriminate.
  - intros Hreads. apply run_op_returns_live; assumption.
  - intros -> Hav. apply run_op_returns_live; [exact Ha|].
    intros _ _. rewrite Hav. constructor.
Qed.

Lemma reachable_op_returns_witness :
  headers_ok sample_headers /\
  reachable sample_headers sample_host queued_world /\
  mem queued_world = Allocated (rnd_user_queued [single_chain 7 4096 16]) /\
  exists w', run_op sample_headers sample_host OpNotify queued_world = Ret tt w'.
Proof.
  assert (Hok : headers_ok sample_headers) by (unfold headers_ok; simpl; lia).
  assert (Hreach : reachable sample_headers sample_host queued_world).
  { apply (reach_op _ _ (OpGuest 0 5 65535 [single_chain 7 4096 16])
             attached_user).
    - apply (reach_init _ _ sample_dev (Some "") []).
      vm_compute. reflexivity.
    - vm_compute. reflexivity. }
  assert (Hm : mem queued_world =
               Allocated (rnd_user_queued [single_chain 7 4096 16]))
    by (vm_compute; reflexivity).
  split; [exact Hok|]. split; [exact Hreach|]. split; [exact Hm|].
  apply (proj2 (proj1 (reachable_op_returns sample_headers sample_host
                         queued_world
                         (rnd_user_queued [single_chain 7 4096 16]) OpNotify
                         Hok Hreach Hm))).
  intros _ _. vm_compute. repeat constructor.
Defined.
